(** * A deployment pipeline: validate, generate, publish, notify

    Shallow embedding of the Python sources [validator.py],
    [code_generator.py], [github_manager.py], [evaluator.py] and [app.py],
    followed by the properties of the pipeline that are established over it.

    Conventions of the embedding.
    - A Python [str] is a Rocq [string]; its characters are the code points
      below 256.
    - A value decoded from JSON is a [pyval]; a [dict] is a [gmap] from
      strings.
    - A Python call that may raise returns a [result]; [try]/[except] is a
      [match] on it.
    - Calls that leave the process (the clock, HTTP, the hosting provider,
      git) are fields of records that the functions take as arguments. *)

From Stdlib Require Import ZArith String Ascii DecimalString.
From stdpp Require Import gmap strings list.

Local Open Scope string_scope.
Local Open Scope Z_scope.
Local Set Warnings "-register-all".

(** ** Python values *)

(** The value of a float is never inspected by the code: it is kept as a
    mantissa and an exponent. *)
Inductive pyval :=
| PNone
| PBool (b : bool)
| PInt (n : Z)
| PFloat (m e : Z)
| PStr (s : string)
| PList (l : list pyval)
| PDict (d : gmap string pyval).

(** The exceptions the code can meet. [Timeout] and [RequestException] are
    those of the requests library that the notifier tells apart, [Timeout]
    being the subclass that is caught first; [ExternalError] is any other
    exception raised inside a library (requests, PyGithub, subprocess). *)
Inductive exn :=
| TypeError
| AttributeError
| KeyError (key : string)
| IndexError
| NameError (name : string)
| ValueError (msg : string)
| GenericException (msg : string)
| Timeout
| RequestException (msg : string)
| ExternalError (msg : string).

Inductive result (A : Type) :=
| Ok (a : A)
| Raise (e : exn).
Arguments Ok {A} a.
Arguments Raise {A} e.

#[export] Instance result_ret : MRet result := fun A a => Ok a.
#[export] Instance result_bind : MBind result := fun A B f m =>
  match m with
  | Ok a => f a
  | Raise e => Raise e
  end.

(** [try: m except Exception: h] *)
Definition try_except {A} (m : result A) (h : exn -> result A) : result A :=
  match m with
  | Ok a => Ok a
  | Raise e => h e
  end.

(** ** Python string operations *)

Module Str.

(** [str(n)] for an [int]. *)
Definition of_Z (n : Z) : string := NilZero.string_of_int (Z.to_int n).
Definition of_nat (n : nat) : string := of_Z (Z.of_nat n).

(** [sub in s] *)
Definition contains (sub s : string) : bool :=
  match String.index 0 sub s with
  | Some _ => true
  | None => false
  end.

(** [s.startswith(p)] *)
Definition startswith (p s : string) : bool := String.prefix p s.

(** [s.split(sep)] for a separator of one character; the result is never
    empty. *)
Fixpoint split (sep : ascii) (s : string) : list string :=
  match s with
  | EmptyString => [EmptyString]
  | String c s' =>
      if Ascii.eqb c sep then EmptyString :: split sep s'
      else match split sep s' with
           | w :: ws => String c w :: ws
           | [] => [String c EmptyString]
           end
  end.

(** [s.split(sep, 1)]: one or two pieces. *)
Fixpoint split1 (sep : ascii) (s : string) : list string :=
  match s with
  | EmptyString => [EmptyString]
  | String c s' =>
      if Ascii.eqb c sep then [EmptyString; s']
      else match split1 sep s' with
           | w :: ws => String c w :: ws
           | [] => [String c EmptyString]
           end
  end.

(** [s.replace(a, b)] for single characters. *)
Fixpoint replace (a b : ascii) (s : string) : string :=
  match s with
  | EmptyString => EmptyString
  | String c s' => String (if Ascii.eqb c a then b else c) (replace a b s')
  end.

(** [s.replace(old, new)] for a non-empty [old]; [skip] counts the
    characters of a match that remain to be dropped. *)
Fixpoint replace_sub (old new : string) (skip : nat) (s : string) : string :=
  match s with
  | EmptyString => EmptyString
  | String c s' =>
      match skip with
      | S k => replace_sub old new k s'
      | O =>
          if String.prefix old s
          then new +:+ replace_sub old new (String.length old - 1) s'
          else String c (replace_sub old new 0 s')
      end
  end.

(** [''.join(c for c in s if p(c))] *)
Fixpoint filter (p : ascii -> bool) (s : string) : string :=
  match s with
  | EmptyString => EmptyString
  | String c s' => if p c then String c (filter p s') else filter p s'
  end.

(** [s.lstrip(chars)] and [s.rstrip(chars)] for a predicate on characters;
    [strip] is both. *)
Fixpoint lstrip (p : ascii -> bool) (s : string) : string :=
  match s with
  | EmptyString => EmptyString
  | String c s' => if p c then lstrip p s' else s
  end.

Fixpoint rstrip (p : ascii -> bool) (s : string) : string :=
  match s with
  | EmptyString => EmptyString
  | String c s' =>
      match rstrip p s' with
      | EmptyString => if p c then EmptyString else String c EmptyString
      | r => String c r
      end
  end.

Definition strip (p : ascii -> bool) (s : string) : string :=
  rstrip p (lstrip p s).

(** [s[:n]] for [n >= 0]. *)
Definition take (n : nat) (s : string) : string := String.substring 0 n s.

(** [s.find(sub, start)] for [0 <= start]: the index, or [-1]. *)
Definition find (sub s : string) (start : nat) : Z :=
  match String.index start sub s with
  | Some i => Z.of_nat i
  | None => -1
  end.

(** A slice bound as Python resolves it: negative bounds count from the
    end, and the result is clipped to [0, len]. *)
Definition clip (len : nat) (i : Z) : nat :=
  Z.to_nat (Z.min (Z.of_nat len) (Z.max 0 (if i <? 0 then Z.of_nat len + i else i))).

(** [s[i:j]] *)
Definition slice (s : string) (i j : Z) : string :=
  let len := String.length s in
  let a := clip len i in
  let b := clip len j in
  String.substring a (b - a)%nat s.

(** Python's [str.isspace] on the code points below 256. *)
Definition isspace (c : ascii) : bool :=
  let n := nat_of_ascii c in
  ((9 <=? n)%nat && (n <=? 13)%nat) || ((28 <=? n)%nat && (n <=? 32)%nat)
  || (n =? 133)%nat || (n =? 160)%nat.

(** Python's [str.isalnum] on the code points below 256: the decimal
    digits, the ASCII letters, and the Latin-1 letters and numerics. *)
Definition isalnum (c : ascii) : bool :=
  let n := nat_of_ascii c in
  ((48 <=? n)%nat && (n <=? 57)%nat)
  || ((65 <=? n)%nat && (n <=? 90)%nat)
  || ((97 <=? n)%nat && (n <=? 122)%nat)
  || (n =? 170)%nat || (n =? 178)%nat || (n =? 179)%nat || (n =? 181)%nat
  || (n =? 185)%nat || (n =? 186)%nat
  || ((188 <=? n)%nat && (n <=? 190)%nat)
  || ((192 <=? n)%nat && (n <=? 214)%nat)
  || ((216 <=? n)%nat && (n <=? 246)%nat)
  || ((248 <=? n)%nat && (n <=? 255)%nat).

(** A control character of the C0 range, [\x00] to [\x1f]. *)
Definition is_c0 (c : ascii) : bool := (nat_of_ascii c <? 32)%nat.

(** [bool(s)]: a [str] is true when it is not empty. *)
Definition truthy (s : string) : bool :=
  match s with
  | EmptyString => false
  | String _ _ => true
  end.

(** Some character of [s] satisfies [p]. *)
Fixpoint any (p : ascii -> bool) (s : string) : bool :=
  match s with
  | EmptyString => false
  | String c s' => p c || any p s'
  end.

(** Every character of [s] satisfies [p]. *)
Fixpoint all (p : ascii -> bool) (s : string) : bool :=
  match s with
  | EmptyString => true
  | String c s' => p c && all p s'
  end.

(** The first, and the last, character of [s] satisfies [p]. *)
Definition starts (p : ascii -> bool) (s : string) : bool :=
  match s with
  | EmptyString => false
  | String c _ => p c
  end.

Fixpoint ends (p : ascii -> bool) (s : string) : bool :=
  match s with
  | EmptyString => false
  | String c s' =>
      match s' with
      | EmptyString => p c
      | String _ _ => ends p s'
      end
  end.

(** [x] occurs in [s]. *)
Definition occurs (x s : string) : Prop :=
  exists p q, s = p +:+ x +:+ q.

End Str.

(** ** Python operations on values *)

Module Py.

(** [not v] *)
Definition falsy (v : pyval) : bool :=
  match v with
  | PNone => true
  | PBool b => negb b
  | PInt n => n =? 0
  | PFloat m _ => m =? 0
  | PStr s => (String.length s =? 0)%nat
  | PList l => (List.length l =? 0)%nat
  | PDict d => bool_decide (d = ∅)
  end.

(** [key in d] for a dict. *)
Definition has_key (key : string) (d : gmap string pyval) : bool :=
  bool_decide (is_Some (d !! key)).

(** [d[key]] *)
Definition getitem (d : gmap string pyval) (key : string) : result pyval :=
  match d !! key with
  | Some v => Ok v
  | None => Raise (KeyError key)
  end.

(** [needle in v] for a string [needle]: substring of a [str], element of a
    [list], key of a [dict]; the other values are not containers. *)
Definition contains (needle : string) (v : pyval) : result bool :=
  match v with
  | PStr s => Ok (Str.contains needle s)
  | PList l =>
      Ok (existsb (fun x => match x with
                            | PStr s => String.eqb needle s
                            | _ => false
                            end) l)
  | PDict d => Ok (has_key needle d)
  | PNone | PBool _ | PInt _ | PFloat _ _ => Raise TypeError
  end.

(** [v[key]] for a string key: only a dict can be indexed by a string. *)
Definition subscript (v : pyval) (key : string) : result pyval :=
  match v with
  | PDict d => getitem d key
  | _ => Raise TypeError
  end.

(** [v[0]]: the first element of a list, the first character of a [str];
    a dict decoded from JSON has no integer key. *)
Definition first_item (v : pyval) : result pyval :=
  match v with
  | PList (x :: _) => Ok x
  | PList [] => Raise IndexError
  | PStr (String c _) => Ok (PStr (String c EmptyString))
  | PStr EmptyString => Raise IndexError
  | PDict _ => Raise (KeyError "0")
  | _ => Raise TypeError
  end.

(** [v.get(key, default)]: only a dict has [get]. *)
Definition get_default (v : pyval) (key : string) (default : pyval) : result pyval :=
  match v with
  | PDict d => Ok (match d !! key with Some x => x | None => default end)
  | _ => Raise AttributeError
  end.

Definition is_list (v : pyval) : bool :=
  match v with PList _ => true | _ => false end.

Definition is_dict (v : pyval) : bool :=
  match v with PDict _ => true | _ => false end.

Definition is_str (v : pyval) : bool :=
  match v with PStr _ => true | _ => false end.

End Py.

(** ** Text layout *)

Definition nl : string := String (ascii_of_nat 10) EmptyString.
Definition dq : string := String (ascii_of_nat 34) EmptyString.

(** The lines of a text, joined by newlines. *)
Definition unlines (l : list string) : string := String.concat nl l.

(** ** The world outside the process *)

(** [datetime.utcnow()] *)
Record datetime := {
  year : nat; month : nat; day : nat;
  hour : nat; minute : nat; second : nat
}.

(** A number printed on at least [width] digits, as [strftime] pads it. *)
Definition padded (width : nat) (n : nat) : string :=
  let digits := Str.of_nat n in
  String.concat EmptyString (List.repeat "0" (width - String.length digits)%nat)
  +:+ digits.

(** The repository object that PyGithub returns. *)
Record repository := {
  html_url : string;
  clone_url : string;
  repo_name : string
}.

(** The response object of the requests library: its status, its body as
    text, whether the body is not empty, and what [response.json()] gives. *)
Record response := {
  status_code : Z;
  text : string;
  has_content : bool;
  json : result pyval
}.

(** Everything the code reads from or sends to its environment. Library
    functions whose code is not part of the program are here too.
    - [environ]: the process environment, read once when a module is loaded;
    - [utcnow]: the clock;
    - [repr]: Python's rendering of a value that is not a [str];
    - [str_exn]: Python's [str(e)] for an exception;
    - [b64decode], [utf8_decode]: [base64.b64decode] and
      [bytes.decode('utf-8')];
    - [aipipe_post]: what [requests.post] to the AI Pipeline endpoint gives
      for a prompt;
    - [create_repo]: [user.create_repo(name, description, ...)];
    - [git_clone]: the working tree that [git clone] leaves for a clone url;
    - [git_config]: the two [git config] commands;
    - [git_commit_and_push]: [git add], [commit], [push] and [rev-parse] on
      a working tree, giving the commit identifier;
    - [pages_post]: the status of the request that enables the static site;
    - [evaluation_post]: what [requests.post] to a url gives, by attempt
      number. *)
Record world := {
  environ : gmap string string;
  utcnow : datetime;
  repr : pyval -> string;
  str_exn : exn -> string;
  b64decode : string -> result (list Byte.byte);
  utf8_decode : list Byte.byte -> result string;
  aipipe_post : string -> result response;
  create_repo : string -> string -> result repository;
  git_clone : string -> result (gmap string string);
  git_config : result unit;
  git_commit_and_push : gmap string string -> result string;
  pages_post : string -> result Z;
  evaluation_post : string -> nat -> result response
}.

(** [os.environ.get(name, '')] *)
Definition getenv (w : world) (name : string) : string :=
  default EmptyString (environ w !! name).

(** ** validator.py *)

Module Validator.

Import Py.

Definition required_fields : list string :=
  ["email"; "secret"; "task"; "round"; "nonce"; "brief"; "evaluation_url"].

(** [v.split('@')[-1]]: only a [str] has [split]. *)
Definition domain_part (v : pyval) : result string :=
  match v with
  | PStr s => Ok (List.last (Str.split "@" s) EmptyString)
  | _ => Raise AttributeError
  end.

(** [not isinstance(v, int) or v < 1]; a [bool] is an [int] in Python. *)
Definition bad_round (v : pyval) : bool :=
  match v with
  | PInt n => n <? 1
  | PBool b => negb b
  | _ => true
  end.

(** [not isinstance(v, str) or len(v) == 0] *)
Definition bad_text (v : pyval) : bool :=
  match v with
  | PStr s => (String.length s =? 0)%nat
  | _ => true
  end.

(** [not isinstance(v, str) or not v.startswith('http')] *)
Definition bad_url (v : pyval) : bool :=
  match v with
  | PStr s => negb (Str.startswith "http" s)
  | _ => true
  end.

(** The loop over [enumerate(payload['attachments'])]: the message of the
    first offending attachment, if any. *)
Fixpoint check_attachments (idx : nat) (l : list pyval) : option string :=
  match l with
  | [] => None
  | attachment :: rest =>
      match attachment with
      | PDict d =>
          if negb (has_key "name" d) || negb (has_key "url" d)
          then Some ("Attachment " +:+ Str.of_nat idx
                     +:+ " must have 'name' and 'url' fields")
          else check_attachments (S idx) rest
      | _ => Some ("Attachment " +:+ Str.of_nat idx +:+ " must be a dictionary")
      end
  end.

Definition missing_fields (payload : gmap string pyval) : list string :=
  List.filter (fun field => negb (has_key field payload)) required_fields.

Definition validate_request (payload : gmap string pyval) : result (bool * string) :=
  let missing := missing_fields payload in
  if negb (Nat.eqb (List.length missing) 0) then
    Ok (false, "Missing required fields: " +:+ String.concat ", " missing)
  else
    email ← getitem payload "email";
    has_at ← Py.contains "@" email;
    bad_email ← (if negb has_at then Ok true
                 else domain ← domain_part email;
                      Ok (negb (Str.contains "." domain)));
    if bad_email : bool then Ok (false, "Invalid email format") else
    round_num ← getitem payload "round";
    if bad_round round_num then Ok (false, "Round must be a positive integer") else
    task ← getitem payload "task";
    if bad_text task then Ok (false, "Task must be a non-empty string") else
    nonce ← getitem payload "nonce";
    if bad_text nonce then Ok (false, "Nonce must be a non-empty string") else
    brief ← getitem payload "brief";
    if bad_text brief then Ok (false, "Brief must be a non-empty string") else
    evaluation_url ← getitem payload "evaluation_url";
    if bad_url evaluation_url
    then Ok (false, "Evaluation URL must be a valid HTTP(S) URL") else
    if match payload !! "checks" with
       | Some v => negb (is_list v)
       | None => false
       end
    then Ok (false, "Checks must be a list") else
    match payload !! "attachments" with
    | Some (PList l) =>
        match check_attachments 0 l with
        | Some msg => Ok (false, msg)
        | None => Ok (true, "")
        end
    | Some _ => Ok (false, "Attachments must be a list")
    | None => Ok (true, "")
    end.

(** [provided == expected] where [expected] is a [str]: equal only to the
    same [str]. *)
Definition eq_str (provided : pyval) (expected : string) : bool :=
  match provided with
  | PStr s => String.eqb s expected
  | _ => false
  end.

(** [expected_secret] is the configured string, or [None] when it is
    absent. *)
Definition verify_secret (provided_secret : pyval) (expected_secret : option string) : bool :=
  match expected_secret with
  | None => false
  | Some expected =>
      if (String.length expected =? 0)%nat then false
      else if eq_str provided_secret expected then true
      else false
  end.

End Validator.

(** ** code_generator.py *)

Module CodeGenerator.

Import Py.

Inductive content :=
| Text (s : string)
| Bytes (b : list Byte.byte).

(** The dict that [decode_attachment] returns. *)
Record decoded := {
  att_name : pyval;
  att_mime_type : string;
  att_content : content
}.

Definition text_mimes : list string :=
  ["application/json"; "application/javascript"].

(** [header.split(':')[1].split(';')[0]] *)
Definition mime_type_of (header : string) : result string :=
  match Str.split ":" header with
  | _ :: m :: _ => Ok (List.hd EmptyString (Str.split ";" m))
  | _ => Raise IndexError
  end.

(** [mime_type.startswith('text/') or mime_type in [...]] *)
Definition is_text (mime_type : string) : bool :=
  Str.startswith "text/" mime_type || existsb (String.eqb mime_type) text_mimes.

(** The body of the [try] block of [decode_attachment]; [Ok None] is the
    implicit return when the url is not a data URI. *)
Definition decode_attachment_body (w : world) (attachment : pyval)
  : result (option decoded) :=
  url ← subscript attachment "url";
  match url with
  | PStr u =>
      if Str.startswith "data:" u then
        match Str.split1 "," u with
        | [header; encoded] =>
            mime_type ← mime_type_of header;
            raw ← b64decode w encoded;
            body ← (if is_text mime_type
                    then s ← utf8_decode w raw; Ok (Text s)
                    else Ok (Bytes raw));
            name ← subscript attachment "name";
            Ok (Some {| att_name := name; att_mime_type := mime_type;
                        att_content := body |})
        | _ => Raise (ValueError "not enough values to unpack")
        end
      else Ok None
  | _ => Raise AttributeError
  end.

(** The handler logs [attachment.get('name', 'unknown')] and returns
    [None]. *)
Definition decode_attachment (w : world) (attachment : pyval)
  : result (option decoded) :=
  try_except (decode_attachment_body w attachment)
    (fun _ => _ ← get_default attachment "name" (PStr "unknown"); Ok None).

(** The loop of [generate_app_code] that fills [decoded_attachments]. *)
Fixpoint decode_attachments (w : world) (attachments : list pyval)
  : result (list decoded) :=
  match attachments with
  | [] => Ok []
  | attachment :: rest =>
      d ← decode_attachment w attachment;
      tail ← decode_attachments w rest;
      Ok (match d with
          | Some x => x :: tail
          | None => tail
          end)
  end.

(** What an attachment contributes to [decoded_attachments]. *)
Definition kept (w : world) (attachment : pyval) : option decoded :=
  match decode_attachment w attachment with
  | Ok (Some d) => Some d
  | _ => None
  end.

(** The payload of the data URI [url] fails to decode: [b64decode] raises
    on the part after the first comma, or the MIME type is a textual one and
    the decoded bytes are not UTF-8. *)
Definition payload_undecodable (w : world) (url : string) : Prop :=
  exists header encoded,
    Str.split1 "," url = [header; encoded]
    /\ ((exists e, b64decode w encoded = Raise e)
        \/ (exists raw mime_type e,
              b64decode w encoded = Ok raw
              /\ mime_type_of header = Ok mime_type
              /\ is_text mime_type = true
              /\ utf8_decode w raw = Raise e)).

(** [f"{v}"]: a [str] is printed as it is, another value through Python's
    [repr], which is library code. *)
Definition fmt (w : world) (v : pyval) : string :=
  match v with
  | PStr s => s
  | _ => repr w v
  end.

Definition attachment_info (w : world) (att : decoded) : string :=
  "- " +:+ fmt w (att_name att) +:+ " (" +:+ att_mime_type att +:+ ")" +:+ nl
  +:+ match att_content att with
      | Text s =>
          if (String.length s <? 1000)%nat
          then "  Content: " +:+ Str.take 500 s +:+ "..." +:+ nl
          else ""
      | Bytes _ => ""
      end.

Definition build_generation_prompt (w : world) (brief : string)
    (checks : list pyval) (attachments : list decoded) : string :=
  let attachments_info :=
    match attachments with
    | [] => ""
    | _ => nl +:+ nl +:+ "ATTACHMENTS:" +:+ nl
           +:+ String.concat "" (List.map (attachment_info w) attachments)
    end in
  let checks_info :=
    match checks with
    | [] => ""
    | _ => nl +:+ nl +:+ "VALIDATION CHECKS:" +:+ nl
           +:+ unlines (List.map (fun check => "- " +:+ fmt w check) checks)
    end in
  unlines
    [ "Generate a complete, production-ready single-page web application based on the following requirements:";
      "";
      "BRIEF:";
      brief;
      attachments_info;
      checks_info;
      "";
      "REQUIREMENTS:";
      "1. Create a single HTML file (index.html) with embedded CSS and JavaScript";
      "2. Use modern, semantic HTML5";
      "3. Include responsive design (mobile-friendly)";
      "4. Use Bootstrap 5 from CDN for styling (unless specified otherwise)";
      "5. Write clean, well-commented JavaScript";
      "6. Handle errors gracefully";
      "7. Make the page professional and user-friendly";
      "8. Ensure all validation checks can pass";
      "9. Include proper meta tags and title";
      "";
      "OUTPUT FORMAT:";
      "Provide the complete code in the following structure:";
      "";
      "```html";
      "<!DOCTYPE html>";
      "<html lang=" +:+ dq +:+ "en" +:+ dq +:+ ">";
      "<head>";
      "    <!-- Your complete head section -->";
      "</head>";
      "<body>";
      "    <!-- Your complete body content -->";
      "</body>";
      "</html>";
      "```";
      "";
      "Also provide a comprehensive README.md explaining:";
      "- What the application does";
      "- How to use it";
      "- Technical implementation details";
      "- How it satisfies the requirements";
      "";
      "Generate ONLY production-ready, working code. No placeholders, no TODOs." ].

Definition AIPIPE_API_KEY (w : world) : string := getenv w "AIPIPE_API_KEY".
Definition ANTHROPIC_API_KEY (w : world) : string := getenv w "ANTHROPIC_API_KEY".
Definition OPENAI_API_KEY (w : world) : string := getenv w "OPENAI_API_KEY".

(** [parse_llm_response] on a [str]. *)
Definition parse_text (response_text : string) : gmap string string :=
  let html_code :=
    if Str.contains "```html" response_text then
      let start := Str.find "```html" response_text 0 + 7 in
      let stop := Str.find "```" response_text (Z.to_nat start) in
      Str.strip Str.isspace (Str.slice response_text start stop)
    else if Str.contains "<!DOCTYPE html>" response_text then
      let start := Str.find "<!DOCTYPE html>" response_text 0 in
      let stop := Str.find "</html>" response_text (Z.to_nat start) + 7 in
      Str.strip Str.isspace (Str.slice response_text start stop)
    else "" in
  let readme_content :=
    if Str.contains "README" response_text || Str.contains "readme" response_text then
      if Str.contains "```markdown" response_text || Str.contains "```md" response_text then
        let marker := if Str.contains "```markdown" response_text
                      then "```markdown" else "```md" in
        let start := Str.find marker response_text 0
                     + Z.of_nat (String.length marker) in
        let stop := Str.find "```" response_text (Z.to_nat start) in
        Str.strip Str.isspace (Str.slice response_text start stop)
      else ""
    else "" in
  <["index.html" := html_code]> (<["README.md" := readme_content]> ∅).

(** [a or b] on two tests that may raise: [b] is evaluated only when [a]
    is false. *)
Definition or_else (a b : result bool) : result bool :=
  x ← a; if x : bool then Ok true else b.

(** [parse_llm_response] on the content of the completion, which need not
    be a [str]: on another value the tests with [in] are those of a
    container or raise, and [find] does not exist. *)
Definition parse_llm_response (response_text : pyval) : result (gmap string string) :=
  match response_text with
  | PStr s => Ok (parse_text s)
  | _ =>
      fenced ← Py.contains "```html" response_text;
      if fenced : bool then Raise AttributeError else
      doctype ← Py.contains "<!DOCTYPE html>" response_text;
      if doctype : bool then Raise AttributeError else
      named ← or_else (Py.contains "README" response_text)
                 (Py.contains "readme" response_text);
      marked ← (if named : bool
                then or_else (Py.contains "```markdown" response_text)
                       (Py.contains "```md" response_text)
                else Ok false);
      if marked : bool then Raise AttributeError else
      Ok (<["index.html" := ""]> (<["README.md" := ""]> ∅))
  end.

Definition generate_with_aipipe (w : world) (prompt : string)
  : result (gmap string string) :=
  response ← aipipe_post w prompt;
  if negb (status_code response =? 200) then
    Raise (GenericException ("AI Pipeline API error: "
                             +:+ Str.of_Z (status_code response) +:+ " - "
                             +:+ text response))
  else
    result ← json response;
    choices ← Py.subscript result "choices";
    choice ← Py.first_item choices;
    message ← Py.subscript choice "message";
    response_text ← Py.subscript message "content";
    parse_llm_response response_text.

(** The module imports neither [anthropic] nor [OpenAI]: the first line of
    each of these two functions raises, and their handler raises it again. *)
Definition generate_with_anthropic (prompt : string) : result (gmap string string) :=
  Raise (NameError "anthropic").

Definition generate_with_openai (prompt : string) : result (gmap string string) :=
  Raise (NameError "OpenAI").

(** [['- ' + check for check in checks]]: [+] on a [str] takes a [str]. *)
Fixpoint check_bullets (checks : list pyval) : result (list string) :=
  match checks with
  | [] => Ok []
  | PStr check :: rest =>
      tail ← check_bullets rest;
      Ok (("- " +:+ check) :: tail)
  | _ :: _ => Raise TypeError
  end.

Definition html_template (brief : string) : string :=
  unlines
    [ "<!DOCTYPE html>";
      "<html lang=" +:+ dq +:+ "en" +:+ dq +:+ ">";
      "<head>";
      "    <meta charset=" +:+ dq +:+ "UTF-8" +:+ dq +:+ ">";
      "    <meta name=" +:+ dq +:+ "viewport" +:+ dq +:+ " content=" +:+ dq +:+ "width=device-width, initial-scale=1.0" +:+ dq +:+ ">";
      "    <title>Generated Application</title>";
      "    <link href=" +:+ dq +:+ "https://cdn.jsdelivr.net/npm/bootstrap@5.3.0/dist/css/bootstrap.min.css" +:+ dq +:+ " rel=" +:+ dq +:+ "stylesheet" +:+ dq +:+ ">";
      "    <style>";
      "        body {";
      "            padding: 20px;";
      "            background: linear-gradient(135deg, #667eea 0%, #764ba2 100%);";
      "            min-height: 100vh;";
      "        }";
      "        .container {";
      "            background: white;";
      "            border-radius: 10px;";
      "            padding: 30px;";
      "            box-shadow: 0 10px 40px rgba(0,0,0,0.2);";
      "            margin-top: 50px;";
      "        }";
      "        .app-title {";
      "            color: #667eea;";
      "            margin-bottom: 30px;";
      "        }";
      "    </style>";
      "</head>";
      "<body>";
      "    <div class=" +:+ dq +:+ "container" +:+ dq +:+ ">";
      "        <h1 class=" +:+ dq +:+ "app-title" +:+ dq +:+ ">Generated Application</h1>";
      "        <div class=" +:+ dq +:+ "alert alert-info" +:+ dq +:+ ">";
      "            <h5>Brief:</h5>";
      "            <p>" +:+ brief +:+ "</p>";
      "        </div>";
      "";
      "        <div id=" +:+ dq +:+ "app-content" +:+ dq +:+ ">";
      "            <p class=" +:+ dq +:+ "text-muted" +:+ dq +:+ ">Application implementation goes here.</p>";
      "        </div>";
      "    </div>";
      "";
      "    <script src=" +:+ dq +:+ "https://cdn.jsdelivr.net/npm/bootstrap@5.3.0/dist/js/bootstrap.bundle.min.js" +:+ dq +:+ "></script>";
      "    <script>";
      "        // Application logic";
      "        console.log('Application initialized');";
      "    </script>";
      "</body>";
      "</html>" ].

Definition readme_template (brief : string) (requirements : string) : string :=
  unlines
    [ "# Generated Application";
      "";
      "## Overview";
      "This application was automatically generated based on the following brief:";
      "";
      brief;
      "";
      "## Requirements";
      requirements;
      "";
      "## Usage";
      "1. Open `index.html` in a web browser";
      "2. The application will load and execute automatically";
      "";
      "## Technical Details";
      "- Built with HTML5, CSS3, and JavaScript";
      "- Uses Bootstrap 5 for styling";
      "- Responsive design for all devices";
      "";
      "## License";
      "MIT License";
      "" ].

Definition generate_template_code (brief : string) (checks : list pyval)
    (attachments : list decoded) : result (gmap string string) :=
  let html := html_template brief in
  requirements ← match checks with
                 | [] => Ok "No specific checks provided."
                 | _ => bullets ← check_bullets checks; Ok (unlines bullets)
                 end;
  Ok (<["index.html" := html]>
      (<["README.md" := readme_template brief requirements]> ∅)).

(** The strings among [checks], and the artifact that
    [generate_template_code] returns when every check is a string. *)
Definition texts (checks : list pyval) : list string :=
  omap (fun v => match v with PStr s => Some s | _ => None end) checks.

Definition requirements (checks : list pyval) : string :=
  match checks with
  | [] => "No specific checks provided."
  | _ => unlines (List.map (fun check => "- " +:+ check) (texts checks))
  end.

Definition template (brief : string) (checks : list pyval) : gmap string string :=
  <["index.html" := html_template brief]>
  (<["README.md" := readme_template brief (requirements checks)]> ∅).

Definition generate_app_code (w : world) (brief : string) (checks : list pyval) (attachments : list pyval)
  : result (gmap string string) :=
  decoded_attachments ← decode_attachments w attachments;
  let prompt := build_generation_prompt w brief checks decoded_attachments in
  try_except
    (if Str.truthy (AIPIPE_API_KEY w) then generate_with_aipipe w prompt
     else if Str.truthy (ANTHROPIC_API_KEY w) then generate_with_anthropic prompt
     else if Str.truthy (OPENAI_API_KEY w) then generate_with_openai prompt
     else generate_template_code brief checks decoded_attachments)
    (fun _ => generate_template_code brief checks decoded_attachments).

End CodeGenerator.

(** ** github_manager.py *)

Module GithubManager.

Definition GITHUB_TOKEN (w : world) : string := getenv w "GITHUB_TOKEN".
Definition GITHUB_USERNAME (w : world) : string := getenv w "GITHUB_USERNAME".

(** The dict that [create_and_deploy_repo] returns. *)
Record repo_info := {
  repo_url : string;
  commit_sha : string;
  pages_url : string
}.

Definition is_hyphen (c : ascii) : bool := Ascii.eqb c "-".

(** [datetime.utcnow().strftime('%Y%m%d-%H%M%S')] *)
Definition timestamp_compact (t : datetime) : string :=
  padded 4 (year t) +:+ padded 2 (month t) +:+ padded 2 (day t) +:+ "-"
  +:+ padded 2 (hour t) +:+ padded 2 (minute t) +:+ padded 2 (second t).

(** [datetime.utcnow().strftime('%Y-%m-%d %H:%M:%S')] *)
Definition timestamp_long (t : datetime) : string :=
  padded 4 (year t) +:+ "-" +:+ padded 2 (month t) +:+ "-" +:+ padded 2 (day t)
  +:+ " " +:+ padded 2 (hour t) +:+ ":" +:+ padded 2 (minute t) +:+ ":"
  +:+ padded 2 (second t).

(** The characters that [sanitize_repo_name] keeps. *)
Definition allowed (c : ascii) : bool := Str.isalnum c || is_hyphen c.

Definition sanitize_repo_name (w : world) (task_name : string) : string :=
  let repo_name := Str.replace "_" "-" (Str.replace " " "-" task_name) in
  let repo_name := Str.filter allowed repo_name in
  let repo_name := Str.strip is_hyphen repo_name in
  let repo_name := if (100 <? String.length repo_name)%nat
                   then Str.take 100 repo_name else repo_name in
  let repo_name := if negb (Str.truthy repo_name)
                   then "task-" +:+ timestamp_compact (utcnow w) else repo_name in
  repo_name.

(** The text common to the README and to the license file. *)
Definition mit_terms : list string :=
  [ "Permission is hereby granted, free of charge, to any person obtaining a copy";
    "of this software and associated documentation files (the " +:+ dq +:+ "Software" +:+ dq +:+ "), to deal";
    "in the Software without restriction, including without limitation the rights";
    "to use, copy, modify, merge, publish, distribute, sublicense, and/or sell";
    "copies of the Software, and to permit persons to whom the Software is";
    "furnished to do so, subject to the following conditions:";
    "";
    "The above copyright notice and this permission notice shall be included in all";
    "copies or substantial portions of the Software.";
    "";
    "THE SOFTWARE IS PROVIDED " +:+ dq +:+ "AS IS" +:+ dq +:+ ", WITHOUT WARRANTY OF ANY KIND, EXPRESS OR";
    "IMPLIED, INCLUDING BUT NOT LIMITED TO THE WARRANTIES OF MERCHANTABILITY,";
    "FITNESS FOR A PARTICULAR PURPOSE AND NONINFRINGEMENT. IN NO EVENT SHALL THE";
    "AUTHORS OR COPYRIGHT HOLDERS BE LIABLE FOR ANY CLAIM, DAMAGES OR OTHER";
    "LIABILITY, WHETHER IN AN ACTION OF CONTRACT, TORT OR OTHERWISE, ARISING FROM,";
    "OUT OF OR IN CONNECTION WITH THE SOFTWARE OR THE USE OR OTHER DEALINGS IN THE";
    "SOFTWARE." ].

Definition generate_readme (w : world) (brief : string) (checks : list pyval) : string :=
  let checks_text :=
    match checks with
    | [] => "No specific checks."
    | _ => unlines (List.map (fun check => "- " +:+ CodeGenerator.fmt w check) checks)
    end in
  unlines
    ([ "# Generated Application";
       "";
       "## Summary";
       "This application was automatically generated and deployed using an LLM-based code deployment system.";
       "";
       "**Brief:** " +:+ brief;
       "";
       "## Features";
       "This application implements the following requirements:";
       checks_text;
       "";
       "## Setup";
       "No setup required! This is a static web application.";
       "";
       "## Usage";
       "1. Visit the GitHub Pages URL for this repository";
       "2. The application will load automatically in your browser";
       "3. Follow any on-screen instructions";
       "";
       "## Technology Stack";
       "- **Frontend:** HTML5, CSS3, JavaScript";
       "- **Styling:** Bootstrap 5";
       "- **Deployment:** GitHub Pages";
       "";
       "## Code Explanation";
       "This application was generated based on the provided brief and requirements. The code is structured as follows:";
       "";
       "- **index.html:** Main application file containing HTML structure, embedded styles, and JavaScript logic";
       "- **README.md:** This file, containing project documentation";
       "- **LICENSE:** MIT License file";
       "";
       "The application uses modern web technologies and follows best practices for:";
       "- Responsive design";
       "- Cross-browser compatibility";
       "- User experience";
       "- Code organization and readability";
       "";
       "## Deployment";
       "This application is automatically deployed to GitHub Pages. Any commits to the main branch will trigger a redeployment.";
       "";
       "## License";
       "MIT License";
       "";
       "Copyright (c) " +:+ Str.of_nat (year (utcnow w));
       "" ]
     ++ mit_terms
     ++ [ "";
          "---";
          "";
          "*Generated by LLM Code Deployment System on " +:+ timestamp_long (utcnow w) +:+ " UTC*";
          "" ]).

Definition get_mit_license (w : world) : string :=
  unlines
    ([ "MIT License";
       "";
       "Copyright (c) " +:+ Str.of_nat (year (utcnow w));
       "" ]
     ++ mit_terms
     ++ [ "" ]).

(** The files written into the cloned working tree, keyed by their path in
    it. [app_code.get('README.md', default)] takes the default only when the
    key is absent. *)
Definition working_tree (w : world) (tree : gmap string string)
    (app_code : gmap string string) (brief : string) (checks : list pyval)
  : gmap string string :=
  let tree :=
    match app_code !! "index.html" with
    | Some html => if Str.truthy html then <["index.html" := html]> tree else tree
    | None => tree
    end in
  let readme_content :=
    match app_code !! "README.md" with
    | Some readme => readme
    | None => generate_readme w brief checks
    end in
  let tree := <["README.md" := readme_content]> tree in
  let license_content := get_mit_license w in
  <["LICENSE" := license_content]> tree.

Definition push_files_to_repo (w : world) (repo : repository)
    (app_code : gmap string string) (brief : string) (checks : list pyval)
  : result string :=
  let clone_url :=
    Str.replace_sub "https://" ("https://" +:+ GITHUB_TOKEN w +:+ "@") 0
      (clone_url repo) in
  tree ← git_clone w clone_url;
  _ ← git_config w;
  git_commit_and_push w (working_tree w tree app_code brief checks).

(** Every path returns the same url. *)
Definition enable_github_pages (w : world) (repo : repository) : string :=
  let url := "https://api.github.com/repos/" +:+ GITHUB_USERNAME w +:+ "/"
             +:+ repo_name repo +:+ "/pages" in
  let pages_url := "https://" +:+ GITHUB_USERNAME w +:+ ".github.io/"
                   +:+ repo_name repo +:+ "/" in
  match pages_post w url with
  | Ok status =>
      if (status =? 201) || (status =? 204) then pages_url
      else if status =? 409 then pages_url
      else pages_url
  | Raise _ => pages_url
  end.

(** The description passed to [user.create_repo]. *)
Definition repo_description (brief : string) : string :=
  "Auto-generated application: " +:+ Str.take 100 brief.

Definition create_and_deploy_repo (w : world) (task_name : string)
    (app_code : gmap string string) (brief : string) (checks : list pyval)
  : result repo_info :=
  if negb (Str.truthy (GITHUB_TOKEN w))
  then Raise (ValueError "GITHUB_TOKEN not configured") else
  if negb (Str.truthy (GITHUB_USERNAME w))
  then Raise (ValueError "GITHUB_USERNAME not configured") else
  let name := sanitize_repo_name w task_name in
  repo ← create_repo w name (repo_description brief);
  sha ← push_files_to_repo w repo app_code brief checks;
  let pages := enable_github_pages w repo in
  Ok {| repo_url := html_url repo; commit_sha := sha; pages_url := pages |}.

End GithubManager.

(** ** evaluator.py *)

Module Evaluator.

Definition MAX_RETRIES : nat := 5.
Definition RETRY_DELAYS : list Z := [1; 2; 4; 8; 16].

(** What the notifier does to the world, in order. *)
Inductive event :=
| Post (url : string) (payload : gmap string pyval)
| Sleep (seconds : Z).

(** The dict that [notify_evaluation_api] returns: [error] is present when
    [success] is false, [response] when it is true. *)
Record notify_result := {
  success : bool;
  error : option string;
  response_json : option pyval
}.

Definition succeeded (v : pyval) : notify_result :=
  {| success := true; error := None; response_json := Some v |}.

Definition failed (msg : string) : notify_result :=
  {| success := false; error := Some msg; response_json := None |}.

(** How one iteration of the loop ends. *)
Inductive step :=
| Return (r : notify_result)
| Retry (delay : Z)
| Crash (e : exn).

(** The test that every branch of the loop makes after a failure: sleep
    [RETRY_DELAYS[attempt]] before the next attempt, or return the failure
    when this was the last one. *)
Definition retry_or_fail (attempt : nat) (msg : string) : step :=
  if (attempt <? MAX_RETRIES - 1)%nat then
    match RETRY_DELAYS !! attempt with
    | Some delay => Retry delay
    | None => Crash IndexError
    end
  else Return (failed msg).

(** The three [except] clauses. *)
Definition on_exception (w : world) (attempt : nat) (e : exn) : step :=
  match e with
  | Timeout => retry_or_fail attempt "Request timeout after multiple retries"
  | RequestException _ => retry_or_fail attempt ("Request failed: " +:+ str_exn w e)
  | _ => retry_or_fail attempt ("Unexpected error: " +:+ str_exn w e)
  end.

(** The body of the loop, given what [requests.post] gives. *)
Definition attempt_step (w : world) (attempt : nat) (o : result response) : step :=
  match o with
  | Ok r =>
      if status_code r =? 200 then
        match (if has_content r then json r else Ok (PDict ∅)) with
        | Ok v => Return (succeeded v)
        | Raise e => on_exception w attempt e
        end
      else
        retry_or_fail attempt
          ("Evaluation API returned status " +:+ Str.of_Z (status_code r)
           +:+ ": " +:+ text r)
  | Raise e => on_exception w attempt e
  end.

(** [for attempt in attempts: ...], then the return after the loop. The
    events are accumulated in [trace]. *)
Fixpoint notify_loop (w : world) (url : string) (payload : gmap string pyval)
    (attempts : list nat) (trace : list event)
  : list event * result notify_result :=
  match attempts with
  | [] => (trace, Ok (failed "Failed after maximum retries"))
  | attempt :: rest =>
      let trace := (trace ++ [Post url payload])%list in
      match attempt_step w attempt (evaluation_post w url attempt) with
      | Return r => (trace, Ok r)
      | Retry delay => notify_loop w url payload rest (trace ++ [Sleep delay])%list
      | Crash e => (trace, Raise e)
      end
  end.

Definition notify_evaluation_api (w : world) (evaluation_url : string)
    (email task round_num nonce : pyval) (repo_url commit_sha pages_url : string)
  : list event * result notify_result :=
  let payload : gmap string pyval :=
    <["email" := email]> (<["task" := task]> (<["round" := round_num]>
    (<["nonce" := nonce]> (<["repo_url" := PStr repo_url]>
    (<["commit_sha" := PStr commit_sha]> (<["pages_url" := PStr pages_url]> ∅)))))) in
  notify_loop w evaluation_url payload (List.seq 0 MAX_RETRIES) [].

(** The number of requests sent, and the delays slept, in a trace. *)
Definition posts (trace : list event) : nat :=
  List.length (List.filter (fun e => match e with Post _ _ => true | Sleep _ => false end) trace).

Definition sleeps (trace : list event) : list Z :=
  List.flat_map (fun e => match e with Post _ _ => [] | Sleep d => [d] end) trace.

End Evaluator.

(** ** app.py *)

Module App.

Import Py Validator.

Definition STUDENT_SECRET (w : world) : string := getenv w "STUDENT_SECRET".

(** A value that [validate_request] has checked to be a [str]: the other
    case does not occur after validation. *)
Definition as_str (v : pyval) : result string :=
  match v with
  | PStr s => Ok s
  | _ => Raise TypeError
  end.

(** [payload.get(key, [])], which [validate_request] has checked to be a
    list when the key is present: the other case does not occur after
    validation. *)
Definition get_list (payload : gmap string pyval) (key : string) : result (list pyval) :=
  match payload !! key with
  | Some (PList l) => Ok l
  | Some _ => Raise TypeError
  | None => Ok []
  end.

(** The request details that [deploy] extracts from a validated payload. *)
Record request := {
  email : pyval;
  task : string;
  round_num : pyval;
  nonce : pyval;
  brief : string;
  checks : list pyval;
  evaluation_url : string;
  attachments : list pyval
}.

Definition extract (payload : gmap string pyval) : result request :=
  email ← getitem payload "email";
  task ← getitem payload "task" ≫= as_str;
  round_num ← getitem payload "round";
  nonce ← getitem payload "nonce";
  brief ← getitem payload "brief" ≫= as_str;
  checks ← get_list payload "checks";
  evaluation_url ← getitem payload "evaluation_url" ≫= as_str;
  attachments ← get_list payload "attachments";
  Ok {| email := email; task := task; round_num := round_num; nonce := nonce;
        brief := brief; checks := checks; evaluation_url := evaluation_url;
        attachments := attachments |}.

(** [jsonify(body), status] *)
Definition http_reply : Type := gmap string string * Z.

Definition success_reply (info : GithubManager.repo_info) : http_reply :=
  (<["status" := "success"]>
   (<["message" := "Application deployed successfully"]>
   (<["repo_url" := GithubManager.repo_url info]>
   (<["pages_url" := GithubManager.pages_url info]>
   (<["commit_sha" := GithubManager.commit_sha info]> ∅)))), 200).

Definition partial_success_reply (info : GithubManager.repo_info)
    (notify_error : string) : http_reply :=
  (<["status" := "partial_success"]>
   (<["message" := "App deployed but evaluation notification failed"]>
   (<["repo_url" := GithubManager.repo_url info]>
   (<["pages_url" := GithubManager.pages_url info]>
   (<["error" := notify_error]> ∅)))), 200).

(** The notification of a published repository, with the events it causes. *)
Definition notify (w : world) (req : request) (info : GithubManager.repo_info)
  : list Evaluator.event * result Evaluator.notify_result :=
  Evaluator.notify_evaluation_api w (evaluation_url req) (email req)
    (PStr (task req)) (round_num req) (nonce req)
    (GithubManager.repo_url info) (GithubManager.commit_sha info)
    (GithubManager.pages_url info).

(** The body of the [try] block of [deploy]. *)
Definition deploy_body (w : world) (request_json : result pyval) : result http_reply :=
  payload ← request_json;
  if falsy payload
  then Ok ({["error" := "No JSON payload provided"]}, 400) else
  match payload with
  | PDict payload =>
      validation ← validate_request payload;
      let '(is_valid, error_message) := validation in
      if negb is_valid then Ok ({["error" := error_message]}, 400) else
      if negb (verify_secret (default (PStr "") (payload !! "secret"))
                 (Some (STUDENT_SECRET w)))
      then Ok ({["error" := "Invalid secret"]}, 403) else
      req ← extract payload;
      app_code ← CodeGenerator.generate_app_code w (brief req) (checks req)
                   (attachments req);
      info ← GithubManager.create_and_deploy_repo w (task req) app_code
               (brief req) (checks req);
      notify_result ← snd (notify w req info);
      if Evaluator.success notify_result then Ok (success_reply info)
      else
        notify_error ← match Evaluator.error notify_result with
                       | Some msg => Ok msg
                       | None => Raise (KeyError "error")
                       end;
        Ok (partial_success_reply info notify_error)
  | _ => Raise AttributeError
  end.

(** [deploy]: the [try] block, and the handler that answers 500. *)
Definition deploy (w : world) (request_json : result pyval) : http_reply :=
  match deploy_body w request_json with
  | Ok reply => reply
  | Raise e =>
      (<["error" := "Internal server error"]> (<["message" := str_exn w e]> ∅), 500)
  end.

End App.

(** ** A closed world for running the pipeline

    A world in which every external call is given: the environment holds
    [env], the clock is fixed, the AI Pipeline answers [completion], the
    hosting provider and git accept everything, and the evaluation endpoint
    answers [post]. *)

Module Closed.

Definition render (v : pyval) : string :=
  match v with
  | PNone => "None"
  | PBool true => "True"
  | PBool false => "False"
  | PInt n => Str.of_Z n
  | PStr s => "'" +:+ s +:+ "'"
  | _ => "<object>"
  end.

Definition message (e : exn) : string :=
  match e with
  | TypeError => "TypeError"
  | AttributeError => "AttributeError"
  | IndexError => "IndexError"
  | KeyError key => "'" +:+ key +:+ "'"
  | NameError name => "name '" +:+ name +:+ "' is not defined"
  | Timeout => "timed out"
  | ValueError msg | GenericException msg | RequestException msg
  | ExternalError msg => msg
  end.

(** A decoder that knows one word: [aGk=] is [hi]. *)
Definition decode_one (encoded : string) : result (list Byte.byte) :=
  if String.eqb encoded "aGk=" then Ok [Byte.x68; Byte.x69]
  else Raise (ExternalError "Incorrect padding").

Definition decode_ascii (raw : list Byte.byte) : result string :=
  if forallb (fun b => (Byte.to_nat b <? 128)%nat) raw
  then Ok (string_of_list_byte raw)
  else Raise (ExternalError "invalid start byte").

Definition clock : datetime :=
  {| year := 2025; month := 10; day := 17; hour := 9; minute := 5; second := 0 |}.

Definition provision (name description : string) : result repository :=
  Ok {| html_url := "https://github.com/octo/" +:+ name;
        clone_url := "https://github.com/octo/" +:+ name +:+ ".git";
        repo_name := name |}.

Definition make (env : gmap string string) (chat : string -> result response)
    (post : nat -> result response) : world :=
  {| environ := env;
     utcnow := clock;
     repr := render;
     str_exn := message;
     b64decode := decode_one;
     utf8_decode := decode_ascii;
     aipipe_post := chat;
     create_repo := provision;
     git_clone := fun _ => Ok ∅;
     git_config := Ok ();
     git_commit_and_push := fun _ => Ok "0a1b2c3";
     pages_post := fun _ => Ok 201;
     evaluation_post := fun _ attempt => post attempt |}.

(** The secret and the hosting credentials are configured, no generation
    backend is. *)
Definition env : gmap string string :=
  <["STUDENT_SECRET" := "S"]> (<["GITHUB_TOKEN" := "tok"]>
  (<["GITHUB_USERNAME" := "octo"]> ∅)).

Definition unreachable (prompt : string) : result response :=
  Raise (RequestException "connection refused").

Definition mk_response (status : Z) (body : string) : response :=
  {| status_code := status; text := body; has_content := true;
     json := Ok (PDict ∅) |}.

Definition always (status : Z) (body : string) (attempt : nat) : result response :=
  Ok (mk_response status body).

(** Everything is configured except a generation backend; the evaluation
    endpoint accepts, or rejects, every attempt. *)
Definition accepting : world := make env unreachable (always 200 "ok").
Definition rejecting : world := make env unreachable (always 500 "boom").

(** The AI Pipeline is configured and fails on every prompt. *)
Definition failing_backend : world :=
  make (<["AIPIPE_API_KEY" := "key"]> env) unreachable (always 200 "ok").

(** A hosting provider that refuses a description with a control
    character. *)
Definition strict_provision (name description : string) : result repository :=
  if Str.any Str.is_c0 description
  then Raise (ExternalError "422 description control characters are not allowed")
  else provision name description.

Definition strict_hosting : world :=
  {| environ := env;
     utcnow := clock;
     repr := render;
     str_exn := message;
     b64decode := decode_one;
     utf8_decode := decode_ascii;
     aipipe_post := unreachable;
     create_repo := strict_provision;
     git_clone := fun _ => Ok ∅;
     git_config := Ok ();
     git_commit_and_push := fun _ => Ok "0a1b2c3";
     pages_post := fun _ => Ok 201;
     evaluation_post := fun _ attempt => always 200 "ok" attempt |}.

(** The hosting credentials are missing. *)
Definition unprovisioned : world :=
  make (<["STUDENT_SECRET" := "S"]> ∅) unreachable (always 200 "ok").

(** A task name of 101 characters: 99 letters, a hyphen and a letter. *)
Definition long_name : string :=
  String.concat "" (List.repeat "a" 99) +:+ "-b".

(** A completion with a fenced page and no fenced README. *)
Definition page_only : string :=
  unlines ["Here is the page:"; "```html"; "<html>X</html>"; "```"].

(** The AI Pipeline is configured and answers every prompt with that
    completion. *)
Definition completion (prompt : string) : result response :=
  Ok {| status_code := 200; text := ""; has_content := true;
        json := Ok (PDict {["choices" :=
                  PList [PDict {["message" :=
                    PDict {["content" := PStr page_only]}]}]]}) |}.

Definition answering : world :=
  make (<["AIPIPE_API_KEY" := "key"]> env) completion (always 200 "ok").

(** The request of the end-to-end scenario. *)
Definition request : gmap string pyval :=
  <["email" := PStr "a@b.com"]> (<["secret" := PStr "S"]>
  (<["task" := PStr "Clock App!"]> (<["round" := PInt 1]>
  (<["nonce" := PStr "n1"]> (<["brief" := PStr "digital clock"]>
  (<["checks" := PList [PStr "has title"]]>
  (<["evaluation_url" := PStr "http://eval.test"]>
  (<["attachments" := PList []]> ∅)))))))).

(** What [deploy] extracts from it, and what the closed world publishes
    for it. *)
Definition details : App.request :=
  {| App.email := PStr "a@b.com"; App.task := "Clock App!";
     App.round_num := PInt 1; App.nonce := PStr "n1";
     App.brief := "digital clock"; App.checks := [PStr "has title"];
     App.evaluation_url := "http://eval.test"; App.attachments := [] |}.

Definition published : GithubManager.repo_info :=
  {| GithubManager.repo_url := "https://github.com/octo/Clock-App";
     GithubManager.commit_sha := "0a1b2c3";
     GithubManager.pages_url := "https://octo.github.io/Clock-App/" |}.

End Closed.

(** * Notions used to state further properties *)

(** ** The requests that the validator accepts *)

Module Wellformed.

(** An attachment as [validate_request] wants it: a dict that has a name
    and a url. *)
Definition attachment (a : pyval) : Prop :=
  exists d, a = PDict d /\ is_Some (d !! "name") /\ is_Some (d !! "url").

(** The fields other than the attachments: the email is a string with an
    [@] and a dot after its last [@]; there is a secret; the round is an
    integer that is at least 1, or [True]; task, nonce and brief are
    non-empty strings; the evaluation url is a string that starts with
    [http]; the checks, if any, are a list. *)
Definition fields (payload : gmap string pyval) : Prop :=
  (exists email, payload !! "email" = Some (PStr email)
     /\ Str.contains "@" email = true
     /\ Str.contains "." (List.last (Str.split "@" email) "") = true)
  /\ is_Some (payload !! "secret")
  /\ ((exists n, payload !! "round" = Some (PInt n) /\ 1 <= n)
      \/ payload !! "round" = Some (PBool true))
  /\ (exists task, payload !! "task" = Some (PStr task) /\ task <> "")
  /\ (exists nonce, payload !! "nonce" = Some (PStr nonce) /\ nonce <> "")
  /\ (exists brief, payload !! "brief" = Some (PStr brief) /\ brief <> "")
  /\ (exists url, payload !! "evaluation_url" = Some (PStr url)
        /\ Str.startswith "http" url = true)
  /\ (payload !! "checks" = None \/ exists l, payload !! "checks" = Some (PList l)).

Definition request (payload : gmap string pyval) : Prop :=
  fields payload
  /\ (payload !! "attachments" = None
      \/ exists l, payload !! "attachments" = Some (PList l) /\ Forall attachment l).

End Wellformed.

(** ** The runs of the notifier *)

Module Notification.

Import Evaluator.

(** The JSON body of the notification. *)
Definition body (email task round_num nonce : pyval)
    (repo_url commit_sha pages_url : string) : gmap string pyval :=
  <["email" := email]> (<["task" := task]> (<["round" := round_num]>
  (<["nonce" := nonce]> (<["repo_url" := PStr repo_url]>
  (<["commit_sha" := PStr commit_sha]> (<["pages_url" := PStr pages_url]> ∅)))))).

(** The value that an attempt hands back when the endpoint accepts it: the
    status is 200 and the body, if there is one, is JSON. *)
Definition accepted (o : result response) : option pyval :=
  match o with
  | Ok r =>
      if status_code r =? 200 then
        match (if has_content r then json r else Ok (PDict ∅)) with
        | Ok v => Some v
        | Raise _ => None
        end
      else None
  | Raise _ => None
  end.

(** The events of a notification that is retried [retries] times: a
    request, then for each retry the delay of the schedule and a request. *)
Definition retried (url : string) (payload : gmap string pyval) (retries : nat)
  : list event :=
  Post url payload
  :: List.flat_map (fun delay => [Sleep delay; Post url payload])
       (List.firstn retries RETRY_DELAYS).

(** The cause that the notifier reports for an exception, and for an
    attempt that is not accepted. *)
Definition exception_cause (w : world) (e : exn) : string :=
  match e with
  | Timeout => "Request timeout after multiple retries"
  | RequestException _ => "Request failed: " +:+ str_exn w e
  | _ => "Unexpected error: " +:+ str_exn w e
  end.

Definition cause (w : world) (o : result response) : string :=
  match o with
  | Ok r =>
      if status_code r =? 200 then
        match (if has_content r then json r else Ok (PDict ∅)) with
        | Raise e => exception_cause w e
        | Ok _ => ""
        end
      else "Evaluation API returned status " +:+ Str.of_Z (status_code r)
           +:+ ": " +:+ text r
  | Raise e => exception_cause w e
  end.

(** Some attempt among the five is accepted. *)
Definition reachable (w : world) (url : string) : bool :=
  existsb (fun attempt =>
             match accepted (evaluation_post w url attempt) with
             | Some _ => true
             | None => false
             end)
    (List.seq 0 MAX_RETRIES).

(** The seconds slept in a trace. *)
Definition slept (trace : list event) : Z :=
  List.fold_right Z.add 0 (sleeps trace).

End Notification.

(** ** Completions and data URIs *)

Module Completion.

Definition backquote (c : ascii) : bool := Ascii.eqb c "`".

(** A text without a backquote: no fence starts in it. *)
Definition plain (s : string) : bool := negb (Str.any backquote s).

(** An artifact: a page and a README. *)
Definition artifact (page readme : string) : gmap string string :=
  <["index.html" := page]> (<["README.md" := readme]> ∅).

End Completion.

Module DataUri.

(** A character that ends no part of a data URI: not a colon, a semicolon
    or a comma. *)
Definition token (c : ascii) : bool :=
  negb (Ascii.eqb c ":" || Ascii.eqb c ";" || Ascii.eqb c ",").

(** [data:mime/type;base64,content] *)
Definition make (mime_type encoded : string) : string :=
  "data:" +:+ mime_type +:+ ";base64," +:+ encoded.

End DataUri.

(** ** Hosting *)

Module Hosting.

(** The world [w] with another answer to the request that enables the
    static site. *)
Definition with_pages (w : world) (answer : string -> result Z) : world :=
  {| environ := environ w;
     utcnow := utcnow w;
     repr := repr w;
     str_exn := str_exn w;
     b64decode := b64decode w;
     utf8_decode := utf8_decode w;
     aipipe_post := aipipe_post w;
     create_repo := create_repo w;
     git_clone := git_clone w;
     git_config := git_config w;
     git_commit_and_push := git_commit_and_push w;
     pages_post := answer;
     evaluation_post := evaluation_post w |}.

(** The name made from the clock. *)
Definition clock_name (w : world) : string :=
  "task-" +:+ GithubManager.timestamp_compact (utcnow w).

(** The shape of a repository name: letters, digits and hyphens, no hyphen
    in front, between 1 and 100 characters. *)
Definition shaped (name : string) : Prop :=
  Str.all GithubManager.allowed name = true
  /\ Str.starts GithubManager.is_hyphen name = false
  /\ Str.truthy name = true
  /\ (String.length name <= 100)%nat.

(** The repository of the scenario, and the same with an ssh remote. *)
Definition origin : repository :=
  {| html_url := "https://github.com/octo/Clock-App";
     clone_url := "https://github.com/octo/Clock-App.git";
     repo_name := "Clock-App" |}.

Definition ssh_origin : repository :=
  {| html_url := "https://github.com/octo/Clock-App";
     clone_url := "git@github.com:octo/Clock-App.git";
     repo_name := "Clock-App" |}.

End Hosting.

(** ** More scenarios *)

Module Scenario.

(** An evaluation endpoint that is busy twice and then accepts, and one
    that never answers in time. *)
Definition flaky (attempt : nat) : result response :=
  if (attempt <? 2)%nat then Ok (Closed.mk_response 503 "busy")
  else Ok (Closed.mk_response 200 "ok").

Definition recovering : world := Closed.make Closed.env Closed.unreachable flaky.



End Scenario.

Module Attached.

(** The scenario request with the given attachments. *)
Definition request (l : list pyval) : gmap string pyval :=
  <["attachments" := PList l]> Closed.request.

Definition sample : pyval :=
  PDict (<["name" := PStr "a.txt"]> (<["url" := PStr "data:text/plain;base64,aGk="]> ∅)).

End Attached.

Module Backends.

(** Only the Anthropic key is configured. *)
Definition anthropic_only : world :=
  Closed.make (<["ANTHROPIC_API_KEY" := "key"]> Closed.env) Closed.unreachable
    (Closed.always 200 "ok").

(** The AI Pipeline is configured and answers 502. *)
Definition bad_gateway : world :=
  Closed.make (<["AIPIPE_API_KEY" := "key"]> Closed.env)
    (fun _ => Ok (Closed.mk_response 502 "bad gateway")) (Closed.always 200 "ok").

End Backends.

(** * Facts about strings *)

Section StringFacts.

Lemma app_cons (c : ascii) (s t : string) : String c s +:+ t = String c (s +:+ t).
Proof. reflexivity. Qed.

Lemma app_nil_r (s : string) : s +:+ "" = s.
Proof.
  induction s as [|c s IH]; [reflexivity|]. rewrite app_cons, IH. reflexivity.
Qed.

Lemma app_assoc (s1 s2 s3 : string) : (s1 +:+ s2) +:+ s3 = s1 +:+ (s2 +:+ s3).
Proof.
  induction s1 as [|c s1 IH]; [reflexivity|]. rewrite !app_cons, IH. reflexivity.
Qed.

Lemma substring_skip (p s : string) (n : nat) :
  String.substring (String.length p) n (p +:+ s) = String.substring 0 n s.
Proof.
  induction p as [|c p IH]; [reflexivity|]. rewrite app_cons. exact IH.
Qed.

Lemma substring_prefix (x q : string) :
  String.substring 0 (String.length x) (x +:+ q) = x.
Proof.
  induction x as [|c x IH].
  - destruct q; reflexivity.
  - rewrite app_cons. cbn [String.length String.substring]. f_equal. exact IH.
Qed.

(** A string that occurs between two others is found in the whole. *)
Lemma contains_infix (p x q : string) : Str.contains x (p +:+ x +:+ q) = true.
Proof.
  unfold Str.contains.
  destruct (String.index 0 x (p +:+ x +:+ q)) eqn:Hidx; [reflexivity|].
  exfalso. destruct x as [|c x].
  - apply String.index_correct4 in Hidx. lia.
  - refine (String.index_correct3 _ (String.length p) _ _ Hidx _ _ _).
    + discriminate.
    + lia.
    + rewrite substring_skip. apply substring_prefix.
Qed.

(** Every element of a joined list occurs in the result. *)
Lemma concat_infix (sep : string) (l : list string) (x : string) :
  In x l -> exists p q, String.concat sep l = p +:+ x +:+ q.
Proof.
  induction l as [|a l IH]; intros Hin; [destruct Hin|].
  destruct Hin as [->|Hin].
  - destruct l as [|b l].
    + exists "", "". simpl. rewrite app_nil_r. reflexivity.
    + exists "", (sep +:+ String.concat sep (b :: l)). reflexivity.
  - destruct l as [|b l]; [destruct Hin|].
    destruct (IH Hin) as (p & q & Heq).
    exists (a +:+ sep +:+ p), q.
    change (String.concat sep (a :: b :: l))
      with (a +:+ sep +:+ String.concat sep (b :: l)).
    rewrite Heq, !app_assoc. reflexivity.
Qed.

End StringFacts.

(** * Properties of the notifier *)

Section Notifier.

Import Evaluator.

Variable w : world.
Variable url : string.
Variable payload : gmap string pyval.

Lemma retry_delay_defined (attempt : nat) :
  (attempt < MAX_RETRIES - 1)%nat ->
  exists delay, RETRY_DELAYS !! attempt = Some delay.
Proof.
  unfold MAX_RETRIES, RETRY_DELAYS. intros Hlt.
  do 4 (destruct attempt as [|attempt]; [eexists; reflexivity|]).
  simpl in Hlt. lia.
Qed.

(** An iteration never raises: the delay looked up is always there. *)
Lemma retry_or_fail_no_crash (attempt : nat) (msg : string) (e : exn) :
  retry_or_fail attempt msg <> Crash e.
Proof.
  unfold retry_or_fail.
  destruct (attempt <? MAX_RETRIES - 1)%nat eqn:Hlt; [|discriminate].
  apply Nat.ltb_lt in Hlt.
  destruct (retry_delay_defined attempt Hlt) as [delay ->]. discriminate.
Qed.

Lemma attempt_step_no_crash (attempt : nat) (o : result response) (e : exn) :
  attempt_step w attempt o <> Crash e.
Proof.
  unfold attempt_step, on_exception.
  repeat case_match; try discriminate; apply retry_or_fail_no_crash.
Qed.

(** A response whose status is not 200 is a failure that carries the status
    and the body. *)
Lemma attempt_step_rejected (attempt : nat) (r : response) :
  status_code r <> 200 ->
  attempt_step w attempt (Ok r) =
  retry_or_fail attempt
    ("Evaluation API returned status " +:+ Str.of_Z (status_code r) +:+ ": " +:+ text r).
Proof.
  intros Hne. unfold attempt_step.
  destruct (status_code r =? 200) eqn:Heq; [|reflexivity].
  apply Z.eqb_eq in Heq. contradiction.
Qed.

Lemma posts_app (t1 t2 : list event) : posts (t1 ++ t2) = (posts t1 + posts t2)%nat.
Proof. unfold posts. rewrite List.filter_app, List.length_app. reflexivity. Qed.

Lemma posts_snoc_post (t : list event) (u : string) (p : gmap string pyval) :
  posts (t ++ [Post u p]) = S (posts t).
Proof. rewrite posts_app. change (posts [Post u p]) with 1%nat. lia. Qed.

Lemma posts_snoc_sleep (t : list event) (d : Z) :
  posts (t ++ [Sleep d]) = posts t.
Proof. rewrite posts_app. change (posts [Sleep d]) with 0%nat. lia. Qed.

(** The loop sends one request per attempt at most. *)
Lemma notify_loop_posts (attempts : list nat) (trace : list event) :
  (posts (fst (notify_loop w url payload attempts trace))
   <= posts trace + List.length attempts)%nat.
Proof.
  revert trace. induction attempts as [|attempt rest IH]; intros trace.
  - simpl. lia.
  - simpl. destruct (attempt_step w attempt (evaluation_post w url attempt)).
    + simpl. rewrite posts_snoc_post. lia.
    + specialize (IH ((trace ++ [Post url payload]) ++ [Sleep delay])%list).
      rewrite posts_snoc_sleep, posts_snoc_post in IH. lia.
    + simpl. rewrite posts_snoc_post. lia.
Qed.

(** The loop itself never raises. *)
Lemma notify_loop_returns (attempts : list nat) (trace : list event) :
  exists r, snd (notify_loop w url payload attempts trace) = Ok r.
Proof.
  revert trace. induction attempts as [|attempt rest IH]; intros trace.
  - simpl. eexists; reflexivity.
  - simpl. destruct (attempt_step w attempt (evaluation_post w url attempt)) eqn:Hstep.
    + simpl. eexists; reflexivity.
    + apply IH.
    + exfalso. exact (attempt_step_no_crash _ _ _ Hstep).
Qed.

(** One iteration on a rejected request: sleep and go on when attempts
    remain, return the failure otherwise. *)
Lemma notify_loop_rejected_retry (attempt : nat) (rest : list nat)
    (trace : list event) (r : response) (delay : Z) :
  evaluation_post w url attempt = Ok r ->
  status_code r <> 200 ->
  (attempt < MAX_RETRIES - 1)%nat ->
  RETRY_DELAYS !! attempt = Some delay ->
  notify_loop w url payload (attempt :: rest) trace =
  notify_loop w url payload rest (trace ++ [Post url payload; Sleep delay])%list.
Proof.
  intros Hpost Hne Hlt Hdelay. cbn [notify_loop].
  rewrite Hpost, (attempt_step_rejected _ _ Hne). unfold retry_or_fail.
  apply Nat.ltb_lt in Hlt. rewrite Hlt, Hdelay.
  rewrite <- List.app_assoc. reflexivity.
Qed.

Lemma notify_loop_rejected_last (attempt : nat) (rest : list nat)
    (trace : list event) (r : response) :
  evaluation_post w url attempt = Ok r ->
  status_code r <> 200 ->
  (MAX_RETRIES - 1 <= attempt)%nat ->
  notify_loop w url payload (attempt :: rest) trace =
  ((trace ++ [Post url payload])%list,
   Ok (failed ("Evaluation API returned status " +:+ Str.of_Z (status_code r)
               +:+ ": " +:+ text r))).
Proof.
  intros Hpost Hne Hge. cbn [notify_loop].
  rewrite Hpost, (attempt_step_rejected _ _ Hne). unfold retry_or_fail.
  apply Nat.ltb_ge in Hge. rewrite Hge. reflexivity.
Qed.

End Notifier.

(** Whatever the endpoint does, the notifier returns a result and sends at
    most five requests. *)
Lemma notify_evaluation_api_bounded
    (w : world) (evaluation_url : string) (email task round_num nonce : pyval)
    (repo_url commit_sha pages_url : string) :
  let run := Evaluator.notify_evaluation_api w evaluation_url email task round_num
               nonce repo_url commit_sha pages_url in
  (exists r, snd run = Ok r) /\ (Evaluator.posts (fst run) <= 5)%nat.
Proof.
  intros run. split.
  - apply notify_loop_returns.
  - exact (notify_loop_posts w _ _ (List.seq 0 Evaluator.MAX_RETRIES) []).
Qed.

(** An answer 200 to the first attempt ends the notification at once. *)
Lemma notify_first_success
    (w : world) (evaluation_url : string) (email task round_num nonce : pyval)
    (repo_url commit_sha pages_url : string) (r : response) (v : pyval) :
  evaluation_post w evaluation_url 0%nat = Ok r ->
  status_code r = 200 ->
  (if has_content r then json r else Ok (PDict ∅)) = Ok v ->
  exists payload,
    Evaluator.notify_evaluation_api w evaluation_url email task round_num nonce
      repo_url commit_sha pages_url
    = ([Evaluator.Post evaluation_url payload], Ok (Evaluator.succeeded v)).
Proof.
  intros Hpost Hstatus Hjson. eexists.
  unfold Evaluator.notify_evaluation_api.
  change (List.seq 0 Evaluator.MAX_RETRIES) with [0; 1; 2; 3; 4]%nat.
  cbn [Evaluator.notify_loop]. rewrite Hpost. unfold Evaluator.attempt_step.
  rewrite Hstatus, Hjson. reflexivity.
Qed.

(** C1. When the evaluation endpoint answers every attempt with a status
    other than 200, the notifier sends exactly five requests; between two
    consecutive requests it sleeps the delay that the schedule 1, 2, 4, 8, 16
    gives for the attempt that has just failed, so the delays slept are, in
    order, 1, 2, 4 and 8 (the fifth entry of the schedule would follow the
    fifth attempt, after which nothing is sent or slept); and the result has
    [success] false with an error that holds the status and the body of the
    fifth response. *)
Theorem notify_persistent_rejection
    (w : world) (evaluation_url : string) (email task round_num nonce : pyval)
    (repo_url commit_sha pages_url : string) (reply : nat -> response) :
  (forall attempt, (attempt < Evaluator.MAX_RETRIES)%nat ->
     evaluation_post w evaluation_url attempt = Ok (reply attempt)
     /\ status_code (reply attempt) <> 200) ->
  let run := Evaluator.notify_evaluation_api w evaluation_url email task round_num
               nonce repo_url commit_sha pages_url in
  (exists payload,
     let post := Evaluator.Post evaluation_url payload in
     fst run = [post; Evaluator.Sleep 1; post; Evaluator.Sleep 2; post;
                Evaluator.Sleep 4; post; Evaluator.Sleep 8; post])
  /\ Evaluator.posts (fst run) = 5%nat
  /\ Evaluator.sleeps (fst run) = List.firstn 4 Evaluator.RETRY_DELAYS
  /\ snd run =
     Ok {| Evaluator.success := false;
           Evaluator.error :=
             Some ("Evaluation API returned status "
                   +:+ Str.of_Z (status_code (reply 4%nat)) +:+ ": "
                   +:+ text (reply 4%nat));
           Evaluator.response_json := None |}.
Proof.
  intros Hreject run.
  assert (Hrun : exists payload,
    run = ([Evaluator.Post evaluation_url payload; Evaluator.Sleep 1;
            Evaluator.Post evaluation_url payload; Evaluator.Sleep 2;
            Evaluator.Post evaluation_url payload; Evaluator.Sleep 4;
            Evaluator.Post evaluation_url payload; Evaluator.Sleep 8;
            Evaluator.Post evaluation_url payload],
           Ok (Evaluator.failed
                 ("Evaluation API returned status "
                  +:+ Str.of_Z (status_code (reply 4%nat)) +:+ ": "
                  +:+ text (reply 4%nat))))).
  { eexists. unfold run, Evaluator.notify_evaluation_api.
    change (List.seq 0 Evaluator.MAX_RETRIES) with [0; 1; 2; 3; 4]%nat.
    destruct (Hreject 0%nat) as [H0 N0]; [unfold Evaluator.MAX_RETRIES; lia|].
    destruct (Hreject 1%nat) as [H1 N1]; [unfold Evaluator.MAX_RETRIES; lia|].
    destruct (Hreject 2%nat) as [H2 N2]; [unfold Evaluator.MAX_RETRIES; lia|].
    destruct (Hreject 3%nat) as [H3 N3]; [unfold Evaluator.MAX_RETRIES; lia|].
    destruct (Hreject 4%nat) as [H4 N4]; [unfold Evaluator.MAX_RETRIES; lia|].
    rewrite (notify_loop_rejected_retry _ _ _ _ _ _ _ 1 H0 N0);
      [|unfold Evaluator.MAX_RETRIES; lia|reflexivity].
    rewrite (notify_loop_rejected_retry _ _ _ _ _ _ _ 2 H1 N1);
      [|unfold Evaluator.MAX_RETRIES; lia|reflexivity].
    rewrite (notify_loop_rejected_retry _ _ _ _ _ _ _ 4 H2 N2);
      [|unfold Evaluator.MAX_RETRIES; lia|reflexivity].
    rewrite (notify_loop_rejected_retry _ _ _ _ _ _ _ 8 H3 N3);
      [|unfold Evaluator.MAX_RETRIES; lia|reflexivity].
    rewrite (notify_loop_rejected_last _ _ _ _ _ _ _ H4 N4);
      [|unfold Evaluator.MAX_RETRIES; lia].
    reflexivity. }
  destruct Hrun as [payload ->]. cbn [fst snd].
  split; [exists payload; reflexivity|].
  split; [reflexivity|]. split; reflexivity.
Qed.

(** A world that rejects every attempt, as in C1. *)
Lemma notify_persistent_rejection_witness :
  (forall attempt, (attempt < Evaluator.MAX_RETRIES)%nat ->
     evaluation_post Closed.rejecting "http://eval.test" attempt
     = Ok (Closed.mk_response 500 "boom")
     /\ status_code (Closed.mk_response 500 "boom") <> 200)
  /\ snd (Evaluator.notify_evaluation_api Closed.rejecting "http://eval.test"
            (PStr "a@b.com") (PStr "Clock App!") (PInt 1) (PStr "n1")
            "https://github.com/octo/Clock-App" "0a1b2c3"
            "https://octo.github.io/Clock-App/")
     = Ok (Evaluator.failed "Evaluation API returned status 500: boom").
Proof.
  assert (Hreject : forall attempt, (attempt < Evaluator.MAX_RETRIES)%nat ->
     evaluation_post Closed.rejecting "http://eval.test" attempt
     = Ok (Closed.mk_response 500 "boom")
     /\ status_code (Closed.mk_response 500 "boom") <> 200).
  { intros attempt _. split; [reflexivity | discriminate]. }
  split; [exact Hreject|].
  exact (proj2 (proj2 (proj2
    (notify_persistent_rejection Closed.rejecting "http://eval.test"
       (PStr "a@b.com") (PStr "Clock App!") (PInt 1) (PStr "n1")
       "https://github.com/octo/Clock-App" "0a1b2c3"
       "https://octo.github.io/Clock-App/"
       (fun _ => Closed.mk_response 500 "boom") Hreject)))).
Defined.

(** * Properties of the validator *)

Section ValidatorFacts.

Import Py Validator.

Lemma missing_fields_spec (payload : gmap string pyval) (field : string) :
  In field (missing_fields payload) <->
  In field required_fields /\ payload !! field = None.
Proof.
  unfold missing_fields. rewrite List.filter_In. unfold has_key.
  split; intros [Hin Hnone]; (split; [exact Hin|]).
  - apply negb_true_iff, bool_decide_eq_false in Hnone.
    destruct (payload !! field) eqn:E; [|reflexivity].
    exfalso. apply Hnone. eauto.
  - apply negb_true_iff, bool_decide_eq_false. rewrite Hnone.
    intros [v Hv]. discriminate.
Qed.

(** With no field missing, every required field can be read. *)
Lemma no_missing_fields (payload : gmap string pyval) (field : string) :
  missing_fields payload = [] ->
  In field required_fields ->
  exists v, getitem payload field = Ok v /\ payload !! field = Some v.
Proof.
  intros Hnone Hin. unfold getitem.
  destruct (payload !! field) as [v|] eqn:Hv; [eauto|].
  exfalso. assert (Hm : In field (missing_fields payload))
    by (apply missing_fields_spec; auto).
  rewrite Hnone in Hm. exact Hm.
Qed.

(** When the email, if there is one, is a string, [validate_request]
    returns a pair: the email test is the only one that can raise. *)
Lemma validate_request_returns (payload : gmap string pyval) :
  (forall v, payload !! "email" = Some v -> is_str v = true) ->
  exists ok reason, validate_request payload = Ok (ok, reason).
Proof.
  intros Hemail. unfold validate_request.
  destruct (missing_fields payload) eqn:Hm; [|eauto].
  cbn [length Nat.eqb negb].
  destruct (no_missing_fields payload "email" Hm) as (email & -> & He); [simpl; auto|].
  destruct (no_missing_fields payload "round" Hm) as (round & -> & _); [simpl; auto 10|].
  destruct (no_missing_fields payload "task" Hm) as (task & -> & _); [simpl; auto 10|].
  destruct (no_missing_fields payload "nonce" Hm) as (nonce & -> & _); [simpl; auto 10|].
  destruct (no_missing_fields payload "brief" Hm) as (brief & -> & _); [simpl; auto 10|].
  destruct (no_missing_fields payload "evaluation_url" Hm) as (url & -> & _);
    [simpl; auto 10|].
  specialize (Hemail email He). destruct email; try discriminate.
  cbn [mbind result_bind Py.contains domain_part].
  destruct (negb (Str.contains "@" s)); cbn [mbind result_bind]; [eauto|].
  destruct (negb (Str.contains "." _)); cbn [mbind result_bind]; [eauto|].
  repeat case_match; eauto.
Qed.

(** With a field missing, the answer is the message that lists the missing
    fields; nothing else of the payload is looked at. *)
Lemma validate_request_missing (payload : gmap string pyval) :
  missing_fields payload <> [] ->
  validate_request payload =
  Ok (false, "Missing required fields: "
             +:+ String.concat ", " (missing_fields payload)).
Proof.
  intros Hmissing. unfold validate_request.
  destruct (missing_fields payload) as [|f fs]; [contradiction|]. reflexivity.
Qed.

(** The endpoint answers 400 when validation says no, and 500 when
    validation raises. *)
Lemma deploy_invalid (w : world) (payload : gmap string pyval) (reason : string) :
  payload <> ∅ ->
  validate_request payload = Ok (false, reason) ->
  App.deploy w (Ok (PDict payload)) = ({["error" := reason]}, 400).
Proof.
  intros Hne Hinvalid. unfold App.deploy, App.deploy_body.
  cbn [mbind result_bind falsy].
  rewrite bool_decide_eq_false_2 by exact Hne.
  rewrite Hinvalid. reflexivity.
Qed.

Lemma deploy_validation_raises (w : world) (payload : gmap string pyval) (e : exn) :
  payload <> ∅ ->
  validate_request payload = Raise e ->
  App.deploy w (Ok (PDict payload)) =
  (<["error" := "Internal server error"]> (<["message" := str_exn w e]> ∅), 500).
Proof.
  intros Hne Hraise. unfold App.deploy, App.deploy_body.
  cbn [mbind result_bind falsy].
  rewrite bool_decide_eq_false_2 by exact Hne.
  rewrite Hraise. reflexivity.
Qed.

End ValidatorFacts.

(** C9. For a payload that lacks at least one required field,
    [validate_request] returns false with the one message made of the names
    of all the missing required fields, in the order of the list of required
    fields: every missing field occurs in the message, only missing fields
    are listed, and the answer is the same for any payload with the same
    missing fields, whatever the values of the fields that are present, so no
    other check has been made. *)
Theorem missing_fields_all_reported (payload : gmap string pyval) :
  (exists field, In field Validator.required_fields /\ payload !! field = None) ->
  let reason := "Missing required fields: "
                +:+ String.concat ", " (Validator.missing_fields payload) in
  Validator.validate_request payload = Ok (false, reason)
  /\ (forall field, In field Validator.required_fields -> payload !! field = None ->
        In field (Validator.missing_fields payload)
        /\ Str.contains field reason = true)
  /\ (forall field, In field (Validator.missing_fields payload) ->
        In field Validator.required_fields /\ payload !! field = None)
  /\ (forall other : gmap string pyval,
        (forall field, In field Validator.required_fields ->
           (payload !! field = None <-> other !! field = None)) ->
        Validator.validate_request other = Validator.validate_request payload).
Proof.
  intros (field & Hreq & Hnone) reason.
  assert (Hmissing : In field (Validator.missing_fields payload))
    by (apply missing_fields_spec; auto).
  split; [|split; [|split]].
  - apply validate_request_missing. intros Hnil.
    rewrite Hnil in Hmissing. exact Hmissing.
  - intros f Hf Hf'.
    assert (Hin : In f (Validator.missing_fields payload))
      by (apply missing_fields_spec; auto).
    split; [exact Hin|].
    destruct (concat_infix ", " _ _ Hin) as (p & q & Heq).
    unfold reason. rewrite Heq, <- app_assoc. apply contains_infix.
  - intros f Hf. apply missing_fields_spec, Hf.
  - intros other Hsame.
    assert (Heq : Validator.missing_fields other = Validator.missing_fields payload).
    { unfold Validator.missing_fields. apply List.filter_ext_in. intros f Hf.
      unfold Py.has_key. f_equal. apply bool_decide_ext.
      rewrite <- !not_eq_None_Some. specialize (Hsame f Hf). tauto. }
    rewrite !validate_request_missing; rewrite ?Heq; try reflexivity;
      intros Hnil; rewrite Hnil in Hmissing; exact Hmissing.
Qed.

(** The scenario request without its email and its nonce. *)
Lemma missing_fields_all_reported_witness :
  (exists field, In field Validator.required_fields
     /\ delete "email" (delete "nonce" Closed.request) !! field = None)
  /\ Validator.validate_request (delete "email" (delete "nonce" Closed.request))
     = Ok (false, "Missing required fields: email, nonce").
Proof.
  assert (Hmissing : exists field, In field Validator.required_fields
            /\ delete "email" (delete "nonce" Closed.request) !! field = None).
  { exists "email". split; [simpl; auto | reflexivity]. }
  split; [exact Hmissing|].
  exact (proj1 (missing_fields_all_reported _ Hmissing)).
Defined.

(** C8. [verify_secret] returns false for every provided value when the
    expected secret is absent or empty, in particular when the environment
    does not define it; when the expected secret is a non-empty string it
    returns true exactly when the provided value is that string. *)
Theorem verify_secret_spec (provided : pyval) (expected : option string) :
  (expected = None \/ expected = Some "" ->
   Validator.verify_secret provided expected = false)
  /\ (forall secret, expected = Some secret -> secret <> "" ->
        (Validator.verify_secret provided expected = true
         <-> provided = PStr secret))
  /\ (forall w, expected = Some (App.STUDENT_SECRET w) ->
        environ w !! "STUDENT_SECRET" = None ->
        Validator.verify_secret provided expected = false).
Proof.
  split; [|split].
  - intros [-> | ->]; reflexivity.
  - intros secret -> Hne. unfold Validator.verify_secret.
    destruct secret as [|c secret]; [contradiction|]. cbn [String.length Nat.eqb].
    unfold Validator.eq_str. destruct provided; try (split; discriminate).
    destruct (String.eqb s (String c secret)) eqn:Heq.
    + apply String.eqb_eq in Heq. subst. split; reflexivity.
    + apply String.eqb_neq in Heq. split; [discriminate|].
      intros [= ->]. contradiction.
  - intros w -> Hnone. unfold App.STUDENT_SECRET, getenv. rewrite Hnone. reflexivity.
Qed.

(** The empty secret is refused against an empty configuration, and the
    configured secret is accepted. *)
Lemma verify_secret_spec_witness :
  (Some "" = None \/ Some "" = Some "")
  /\ Validator.verify_secret (PStr "") (Some "") = false
  /\ Some "S" = Some "S" /\ "S" <> ""
  /\ Validator.verify_secret (PStr "S") (Some "S") = true.
Proof.
  split; [right; reflexivity|].
  split; [apply (proj1 (verify_secret_spec (PStr "") (Some ""))); right; reflexivity|].
  split; [reflexivity|]. split; [discriminate|].
  apply (proj1 (proj2 (verify_secret_spec (PStr "S") (Some "S"))) "S");
    [reflexivity | discriminate | reflexivity].
Defined.

(** C5, at a request whose email is the number 123 and whose other fields
    are those of the scenario: [validate_request] raises [TypeError] instead
    of returning a pair, and the endpoint answers 500. *)
Theorem validate_request_raises_on_numeric_email :
  let payload := <["email" := PInt 123]> Closed.request in
  Validator.validate_request payload = Raise TypeError
  /\ forall w, App.deploy w (Ok (PDict payload)) =
       (<["error" := "Internal server error"]>
        (<["message" := str_exn w TypeError]> ∅), 500).
Proof.
  intros payload.
  assert (Hraise : Validator.validate_request payload = Raise TypeError)
    by (vm_compute; reflexivity).
  split; [exact Hraise|].
  intros w. apply deploy_validation_raises; [|exact Hraise].
  intros Hempty. apply (f_equal (fun m => m !! "email")) in Hempty.
  vm_compute in Hempty. discriminate.
Qed.

(** * Properties of the code generator *)

Section Occurrences.

Lemma occurs_trans (x y z : string) :
  Str.occurs x y -> Str.occurs y z -> Str.occurs x z.
Proof.
  intros (p & q & ->) (p' & q' & ->).
  exists (p' +:+ p), (q +:+ q'). rewrite !app_assoc. reflexivity.
Qed.

Lemma occurs_middle (p x q : string) : Str.occurs x (p +:+ x +:+ q).
Proof. exists p, q. reflexivity. Qed.

Lemma occurs_unlines (l : list string) (x : string) :
  In x l -> Str.occurs x (unlines l).
Proof. apply concat_infix. Qed.

Lemma occurs_contains (x s : string) : Str.occurs x s -> Str.contains x s = true.
Proof. intros (p & q & ->). apply contains_infix. Qed.

End Occurrences.

Section Attachments.

Import Py Validator CodeGenerator.

Variable w : world.

(** On a dict, [decode_attachment] returns: its handler catches whatever the
    body raises. *)
Lemma decode_attachment_dict_total (d : gmap string pyval) :
  exists r, decode_attachment w (PDict d) = Ok r.
Proof.
  unfold decode_attachment, try_except.
  destruct (decode_attachment_body w (PDict d)); eexists; reflexivity.
Qed.

(** On a value that is not a dict the handler itself raises, when it reads
    the name for the log. *)
Lemma decode_attachment_not_dict (a : pyval) :
  is_dict a = false -> decode_attachment w a = Raise AttributeError.
Proof. destruct a; try discriminate; reflexivity. Qed.

Lemma decode_attachment_handler (d : gmap string pyval) (e : exn) :
  decode_attachment_body w (PDict d) = Raise e ->
  decode_attachment w (PDict d) = Ok None.
Proof. intros H. unfold decode_attachment. rewrite H. reflexivity. Qed.

Lemma kept_returned (a : pyval) (r : option decoded) :
  decode_attachment w a = Ok r -> kept w a = r.
Proof. intros H. unfold kept. rewrite H. destruct r; reflexivity. Qed.

(** The loop over a list of dicts returns the attachments that decode. *)
Lemma decode_attachments_dicts (l : list pyval) :
  forallb is_dict l = true ->
  decode_attachments w l = Ok (omap (kept w) l).
Proof.
  induction l as [|a l IH]; intros Hd; [reflexivity|].
  simpl in Hd. apply andb_true_iff in Hd as [Ha Hl].
  destruct a; try discriminate.
  destruct (decode_attachment_dict_total d) as [r Hr].
  cbn [decode_attachments]. rewrite Hr. cbn [mbind result_bind].
  rewrite (IH Hl). cbn [mbind result_bind].
  change (omap (kept w) (PDict d :: l))
    with (match kept w (PDict d) with
          | Some y => y :: omap (kept w) l
          | None => omap (kept w) l
          end).
  rewrite (kept_returned _ _ Hr). destruct r; reflexivity.
Qed.

Lemma decode_attachment_not_data_uri (d : gmap string pyval) (url : pyval) :
  d !! "url" = Some url ->
  (forall s, url = PStr s -> Str.startswith "data:" s = false) ->
  decode_attachment w (PDict d) = Ok None.
Proof.
  intros Hurl Hnot. unfold decode_attachment, decode_attachment_body.
  cbn [subscript]. unfold getitem. rewrite Hurl. cbn [mbind result_bind].
  destruct url; try reflexivity.
  rewrite (Hnot s eq_refl). reflexivity.
Qed.

Lemma decode_attachment_undecodable (d : gmap string pyval) (s : string) :
  d !! "url" = Some (PStr s) ->
  Str.startswith "data:" s = true ->
  payload_undecodable w s ->
  decode_attachment w (PDict d) = Ok None.
Proof.
  intros Hurl Hdata (header & encoded & Hsplit & Hfail).
  destruct (decode_attachment_body w (PDict d)) as [r|e] eqn:Hbody;
    [|exact (decode_attachment_handler _ _ Hbody)].
  exfalso. revert Hbody. unfold decode_attachment_body.
  cbn [subscript]. unfold getitem. rewrite Hurl. cbn [mbind result_bind].
  rewrite Hdata, Hsplit.
  destruct Hfail as [[e He] | (raw & mime & e & Hraw & Hmime & Htext & Hutf)].
  - destruct (mime_type_of header); cbn [mbind result_bind]; [|discriminate].
    rewrite He. discriminate.
  - rewrite Hmime. cbn [mbind result_bind]. rewrite Hraw. cbn [mbind result_bind].
    rewrite Htext, Hutf. discriminate.
Qed.

End Attachments.

(** C10. An attachment (a dict) whose url is not a string that starts with
    [data:], or whose url is a data URI with a payload that fails to decode,
    makes [decode_attachment] return [None] without raising; in a list of
    dict attachments the loop of [generate_app_code] leaves it out and keeps
    what the others decode to, and the generation runs as if the attachment
    had not been sent. *)
Theorem undecodable_attachments_are_dropped
    (w : world) (attachment : gmap string pyval) (url : pyval) :
  attachment !! "url" = Some url ->
  (forall s, url = PStr s ->
     Str.startswith "data:" s = false \/ CodeGenerator.payload_undecodable w s) ->
  CodeGenerator.decode_attachment w (PDict attachment) = Ok None
  /\ forall before after : list pyval,
       forallb Py.is_dict before = true ->
       forallb Py.is_dict after = true ->
       CodeGenerator.decode_attachments w (before ++ PDict attachment :: after)
       = Ok (omap (CodeGenerator.kept w) before
             ++ omap (CodeGenerator.kept w) after)%list
       /\ CodeGenerator.decode_attachments w (before ++ PDict attachment :: after)
          = CodeGenerator.decode_attachments w (before ++ after)
       /\ forall brief checks,
            CodeGenerator.generate_app_code w brief checks
              (before ++ PDict attachment :: after)
            = CodeGenerator.generate_app_code w brief checks (before ++ after).
Proof.
  intros Hurl Hkind.
  assert (Hnone : CodeGenerator.decode_attachment w (PDict attachment) = Ok None).
  { destruct url as [| | | |s| |];
      try solve [apply (decode_attachment_not_data_uri w _ _ Hurl); intros s' [=]].
    destruct (Str.startswith "data:" s) eqn:Hdata.
    - destruct (Hkind s eq_refl) as [Hno|Hbad]; [congruence|].
      exact (decode_attachment_undecodable w _ _ Hurl Hdata Hbad).
    - apply (decode_attachment_not_data_uri w _ _ Hurl).
      intros s' Heq. injection Heq as <-. exact Hdata. }
  split; [exact Hnone|].
  intros before after Hb Ha.
  assert (Hall : forallb Py.is_dict (before ++ PDict attachment :: after)
                 = true).
  { rewrite forallb_app. cbn [forallb Py.is_dict].
    rewrite Hb, Ha. reflexivity. }
  assert (Hrest : forallb Py.is_dict (before ++ after) = true).
  { rewrite forallb_app, Hb, Ha. reflexivity. }
  assert (Heq : CodeGenerator.decode_attachments w (before ++ PDict attachment :: after)
                = Ok (omap (CodeGenerator.kept w) before
                      ++ omap (CodeGenerator.kept w) after)%list).
  { rewrite (decode_attachments_dicts w _ Hall), omap_app.
    change (omap (CodeGenerator.kept w) (PDict attachment :: after))
      with (match CodeGenerator.kept w (PDict attachment) with
            | Some y => y :: omap (CodeGenerator.kept w) after
            | None => omap (CodeGenerator.kept w) after
            end).
    rewrite (kept_returned w _ _ Hnone). reflexivity. }
  assert (Heq' : CodeGenerator.decode_attachments w (before ++ PDict attachment :: after)
                 = CodeGenerator.decode_attachments w (before ++ after)).
  { rewrite Heq, (decode_attachments_dicts w _ Hrest), omap_app. reflexivity. }
  split; [exact Heq|]. split; [exact Heq'|].
  intros brief checks. unfold CodeGenerator.generate_app_code.
  rewrite Heq'. reflexivity.
Qed.

(** A data URI with a truncated base64 payload, between a text file that
    decodes and a link that is not a data URI. *)
Lemma undecodable_attachments_are_dropped_witness :
  let broken : gmap string pyval :=
    <["name" := PStr "b.txt"]>
    (<["url" := PStr "data:text/plain;base64,aGk"]> ∅) in
  let good := PDict (<["name" := PStr "a.txt"]>
                     (<["url" := PStr "data:text/plain;base64,aGk="]> ∅)) in
  let link := PDict (<["name" := PStr "c.png"]>
                     (<["url" := PStr "http://files.test/c.png"]> ∅)) in
  broken !! "url" = Some (PStr "data:text/plain;base64,aGk")
  /\ CodeGenerator.payload_undecodable Closed.accepting "data:text/plain;base64,aGk"
  /\ CodeGenerator.decode_attachment Closed.accepting (PDict broken) = Ok None
  /\ CodeGenerator.decode_attachments Closed.accepting [good; PDict broken; link]
     = Ok [ {| CodeGenerator.att_name := PStr "a.txt";
               CodeGenerator.att_mime_type := "text/plain";
               CodeGenerator.att_content := CodeGenerator.Text "hi" |} ].
Proof.
  intros broken good link.
  assert (Hbad : CodeGenerator.payload_undecodable Closed.accepting
                   "data:text/plain;base64,aGk").
  { exists "data:text/plain;base64", "aGk". split; [reflexivity|].
    left. eexists. reflexivity. }
  assert (Hkind : forall s, PStr "data:text/plain;base64,aGk" = PStr s ->
            Str.startswith "data:" s = false
            \/ CodeGenerator.payload_undecodable Closed.accepting s).
  { intros s Heq. injection Heq as <-. right. exact Hbad. }
  split; [reflexivity|]. split; [exact Hbad|].
  destruct (undecodable_attachments_are_dropped Closed.accepting broken _
              eq_refl Hkind) as [Hnone Hlist].
  split; [exact Hnone|].
  exact (proj1 (Hlist [good] [link] eq_refl eq_refl)).
Defined.

Section Template.

Import Py Validator CodeGenerator.

Lemma check_bullets_strings (checks : list pyval) :
  forallb is_str checks = true ->
  check_bullets checks = Ok (List.map (fun c => "- " +:+ c) (texts checks)).
Proof.
  induction checks as [|c checks IH]; intros Hs; [reflexivity|].
  simpl in Hs. apply andb_true_iff in Hs as [Hc Hs].
  destruct c; try discriminate.
  cbn [check_bullets]. rewrite (IH Hs). reflexivity.
Qed.

(** A check that is not a string stops the concatenation ['- ' + check]. *)
Lemma check_bullets_non_string (before after : list pyval) (v : pyval) :
  is_str v = false ->
  check_bullets (before ++ v :: after) = Raise TypeError.
Proof.
  intros Hv. induction before as [|c before IH].
  - destruct v; try reflexivity. discriminate.
  - cbn [app check_bullets]. rewrite IH. destruct c; reflexivity.
Qed.

Lemma generate_template_code_strings (brief : string) (checks : list pyval)
    (attachments : list decoded) :
  forallb is_str checks = true ->
  generate_template_code brief checks attachments = Ok (template brief checks).
Proof.
  intros Hs. unfold generate_template_code, template, requirements.
  destruct checks as [|c checks]; [reflexivity|].
  rewrite (check_bullets_strings _ Hs). reflexivity.
Qed.

Lemma generate_template_code_non_string (brief : string)
    (before after : list pyval) (v : pyval) (attachments : list decoded) :
  is_str v = false ->
  generate_template_code brief (before ++ v :: after) attachments = Raise TypeError.
Proof.
  intros Hv. unfold generate_template_code.
  rewrite (check_bullets_non_string before after v Hv).
  destruct before; reflexivity.
Qed.

(** The generator returns the template unless the AI Pipeline is configured
    and answers: the two other backends raise on their first line, and every
    exception of the chosen backend leads to the template. This holds for
    checks that are strings. *)
Lemma generate_app_code_falls_back (w : world) (brief : string)
    (checks attachments : list pyval) :
  forallb is_dict attachments = true ->
  forallb is_str checks = true ->
  (Str.truthy (AIPIPE_API_KEY w) = true ->
   exists e, generate_with_aipipe w
               (build_generation_prompt w brief checks (omap (kept w) attachments))
             = Raise e) ->
  generate_app_code w brief checks attachments = Ok (template brief checks).
Proof.
  intros Hd Hs Hbackend. unfold generate_app_code.
  rewrite (decode_attachments_dicts w _ Hd). cbn [mbind result_bind].
  rewrite (generate_template_code_strings _ _ _ Hs).
  destruct (Str.truthy (AIPIPE_API_KEY w)) eqn:Hkey.
  - destruct (Hbackend eq_refl) as [e He]. rewrite He. reflexivity.
  - destruct (Str.truthy (ANTHROPIC_API_KEY w)); [reflexivity|].
    destruct (Str.truthy (OPENAI_API_KEY w)); reflexivity.
Qed.

(** The page of the template is not empty and shows the brief. *)
Lemma html_template_embeds_brief (brief : string) :
  Str.truthy (html_template brief) = true
  /\ Str.contains brief (html_template brief) = true.
Proof.
  split; [reflexivity|].
  apply occurs_contains.
  apply (occurs_trans _ ("            <p>" +:+ brief +:+ "</p>")).
  - apply occurs_middle.
  - apply occurs_unlines. unfold html_template.
    repeat (first [left; reflexivity | right]).
Qed.

(** The README of the template shows the brief and every check. *)
Lemma readme_template_embeds (brief : string) (checks : list pyval) (check : string) :
  Str.contains brief (readme_template brief (requirements checks)) = true
  /\ (In (PStr check) checks ->
      Str.contains ("- " +:+ check)
        (readme_template brief (requirements checks)) = true).
Proof.
  split.
  - apply occurs_contains, occurs_unlines.
    repeat (first [left; reflexivity | right]).
  - intros Hin. apply occurs_contains.
    apply (occurs_trans _ (requirements checks)).
    + unfold requirements. destruct checks as [|c checks]; [destruct Hin|].
      apply occurs_unlines, List.in_map_iff. exists check. split; [reflexivity|].
      unfold texts. apply list_elem_of_In, list_elem_of_omap.
      exists (PStr check). split; [apply list_elem_of_In, Hin | reflexivity].
    + apply occurs_unlines. repeat (first [left; reflexivity | right]).
Qed.

End Template.

(** C6, at checks that hold the number 1. The request is accepted by
    [validate_request]; with no backend configured, and also with a backend
    that raises, [generate_template_code] raises [TypeError] on
    ['- ' + check], in the [try] block and again in the handler, so
    [generate_app_code] raises instead of returning the template, and the
    endpoint answers 500. *)
Theorem generate_app_code_raises_on_numeric_check :
  let payload := <["checks" := PList [PInt 1]]> Closed.request in
  Validator.validate_request payload = Ok (true, "")
  /\ CodeGenerator.generate_app_code Closed.accepting "digital clock" [PInt 1] []
     = Raise TypeError
  /\ CodeGenerator.generate_app_code Closed.failing_backend "digital clock" [PInt 1] []
     = Raise TypeError
  /\ App.deploy Closed.accepting (Ok (PDict payload))
     = (<["error" := "Internal server error"]>
        (<["message" := "TypeError"]> ∅), 500).
Proof.
  intros payload. repeat split; vm_compute; reflexivity.
Qed.

(** * Properties of the publisher *)

Section Publisher.

Import GithubManager.

(** The README that is written is the member of the artifact when the key
    is there, whatever it holds, and the generated one only when the key is
    absent. *)
Lemma working_tree_readme (w : world) (tree app_code : gmap string string)
    (brief : string) (checks : list pyval) :
  working_tree w tree app_code brief checks !! "README.md"
  = Some (match app_code !! "README.md" with
          | Some readme => readme
          | None => generate_readme w brief checks
          end).
Proof.
  unfold working_tree.
  rewrite lookup_insert_ne by discriminate.
  rewrite lookup_insert_eq. reflexivity.
Qed.

(** The generated README is not empty and shows the brief. *)
Lemma generate_readme_embeds_brief (w : world) (brief : string) (checks : list pyval) :
  Str.truthy (generate_readme w brief checks) = true
  /\ Str.contains brief (generate_readme w brief checks) = true.
Proof.
  split; [reflexivity|].
  apply occurs_contains.
  apply (occurs_trans _ ("**Brief:** " +:+ brief)).
  - exists "**Brief:** ", "". rewrite app_nil_r. reflexivity.
  - apply occurs_unlines. unfold generate_readme.
    repeat (first [left; reflexivity | right]).
Qed.

Lemma any_app (p : ascii -> bool) (a b : string) :
  Str.any p (a +:+ b) = Str.any p a || Str.any p b.
Proof.
  induction a as [|c a IH]; [reflexivity|].
  rewrite app_cons. cbn [Str.any]. rewrite IH, orb_assoc. reflexivity.
Qed.

(** The description has a control character exactly when the first hundred
    characters of the brief have one. *)
Lemma repo_description_control (brief : string) :
  Str.any Str.is_c0 (repo_description brief)
  = Str.any Str.is_c0 (Str.take 100 brief).
Proof. unfold repo_description. rewrite any_app. reflexivity. Qed.

End Publisher.

(** C2, at the artifact parsed from a completion that has a fenced page and
    no fenced README, which is what the generator returns when the backend
    answers with that completion. Its README.md member is the empty string;
    the file README.md of the working tree that is committed and pushed is
    then empty, for every world, brief and checklist, although the default
    README is not empty: [app_code.get('README.md', default)] finds the
    key. *)
Theorem empty_readme_is_written
    (w : world) (tree : gmap string string) (brief : string) (checks : list pyval) :
  let app_code := <["index.html" := "<html>X</html>"]> (<["README.md" := ""]> ∅) in
  CodeGenerator.parse_llm_response (PStr Closed.page_only) = Ok app_code
  /\ CodeGenerator.generate_app_code Closed.answering "digital clock"
       [PStr "has title"] [] = Ok app_code
  /\ GithubManager.working_tree w tree app_code brief checks !! "README.md" = Some ""
  /\ Str.truthy (GithubManager.generate_readme w brief checks) = true.
Proof.
  intros app_code.
  split; [vm_compute; reflexivity|]. split; [vm_compute; reflexivity|]. split.
  - rewrite working_tree_readme. reflexivity.
  - apply generate_readme_embeds_brief.
Qed.

Section Strip.

Variable p : ascii -> bool.

Lemma filter_all (s : string) : Str.all p (Str.filter p s) = true.
Proof.
  induction s as [|c s IH]; [reflexivity|]. cbn [Str.filter].
  destruct (p c) eqn:Hc; [|exact IH]. cbn [Str.all]. rewrite Hc, IH. reflexivity.
Qed.

Lemma filter_id (s : string) : Str.all p s = true -> Str.filter p s = s.
Proof.
  induction s as [|c s IH]; [reflexivity|]. cbn [Str.all Str.filter].
  intros [Hc Hs]%andb_true_iff. rewrite Hc, (IH Hs). reflexivity.
Qed.

Lemma replace_id (a b : ascii) (s : string) :
  p a = false -> Str.all p s = true -> Str.replace a b s = s.
Proof.
  intros Ha. induction s as [|c s IH]; [reflexivity|]. cbn [Str.all Str.replace].
  intros [Hc Hs]%andb_true_iff. rewrite (IH Hs).
  destruct (Ascii.eqb c a) eqn:Heq; [|reflexivity].
  apply Ascii.eqb_eq in Heq. subst. congruence.
Qed.

Variable q : ascii -> bool.

Lemma lstrip_all (s : string) : Str.all p s = true -> Str.all p (Str.lstrip q s) = true.
Proof.
  induction s as [|c s IH]; [reflexivity|]. cbn [Str.lstrip].
  intros Hall. destruct (q c); [|exact Hall].
  apply IH. cbn [Str.all] in Hall. apply andb_true_iff in Hall. tauto.
Qed.

Lemma rstrip_cons (c : ascii) (s : string) :
  Str.rstrip q (String c s) = String c (Str.rstrip q s)
  \/ Str.rstrip q (String c s) = "" /\ q c = true /\ Str.rstrip q s = "".
Proof.
  cbn [Str.rstrip]. destruct (Str.rstrip q s) eqn:Hr.
  - destruct (q c); [right; auto | left; reflexivity].
  - left. reflexivity.
Qed.

Lemma rstrip_all (s : string) : Str.all p s = true -> Str.all p (Str.rstrip q s) = true.
Proof.
  induction s as [|c s IH]; [reflexivity|].
  intros [Hc Hs]%andb_true_iff.
  destruct (rstrip_cons c s) as [-> | [-> _]]; [|reflexivity].
  cbn [Str.all]. rewrite Hc, (IH Hs). reflexivity.
Qed.

Lemma lstrip_starts (s : string) : Str.starts q (Str.lstrip q s) = false.
Proof.
  induction s as [|c s IH]; [reflexivity|]. cbn [Str.lstrip].
  destruct (q c) eqn:Hc; [exact IH|]. exact Hc.
Qed.

Lemma rstrip_starts (s : string) :
  Str.starts q s = false -> Str.starts q (Str.rstrip q s) = false.
Proof.
  destruct s as [|c s]; [reflexivity|]. intros Hc.
  destruct (rstrip_cons c s) as [-> | [-> _]]; [exact Hc | reflexivity].
Qed.

Lemma rstrip_ends (s : string) : Str.ends q (Str.rstrip q s) = false.
Proof.
  induction s as [|c s IH]; [reflexivity|].
  cbn [Str.rstrip]. destruct (Str.rstrip q s) eqn:Hr.
  - destruct (q c) eqn:Hc; [reflexivity|]. exact Hc.
  - exact IH.
Qed.

Lemma lstrip_id (s : string) : Str.starts q s = false -> Str.lstrip q s = s.
Proof. destruct s as [|c s]; [reflexivity|]. cbn. intros ->. reflexivity. Qed.

Lemma rstrip_id (s : string) : Str.ends q s = false -> Str.rstrip q s = s.
Proof.
  induction s as [|c s IH]; [reflexivity|]. cbn [Str.ends Str.rstrip].
  destruct s as [|c' s].
  - intros ->. reflexivity.
  - intros He. rewrite (IH He). reflexivity.
Qed.

Lemma strip_id (s : string) :
  Str.starts q s = false -> Str.ends q s = false -> Str.strip q s = s.
Proof.
  intros Hs He. unfold Str.strip. rewrite (lstrip_id _ Hs). apply rstrip_id, He.
Qed.

Lemma rstrip_changes (s : string) : Str.ends q s = true -> Str.rstrip q s <> s.
Proof.
  intros He Heq. pose proof (rstrip_ends s) as Hr. rewrite Heq in Hr. congruence.
Qed.

Lemma take_all (n : nat) (s : string) :
  Str.all p s = true -> Str.all p (Str.take n s) = true.
Proof.
  unfold Str.take. revert n. induction s as [|c s IH]; intros n.
  - destruct n; reflexivity.
  - intros [Hc Hs]%andb_true_iff. destruct n as [|n]; [reflexivity|].
    cbn [String.substring Str.all]. rewrite Hc. apply IH, Hs.
Qed.

Lemma take_starts (n : nat) (s : string) :
  Str.starts q s = false -> Str.starts q (Str.take n s) = false.
Proof.
  unfold Str.take. destruct s as [|c s]; destruct n; try reflexivity.
  cbn. auto.
Qed.

Lemma take_length (n : nat) (s : string) :
  (n <= String.length s)%nat -> String.length (Str.take n s) = n.
Proof.
  unfold Str.take. revert n. induction s as [|c s IH]; intros n Hn.
  - simpl in Hn. assert (n = 0)%nat as -> by lia. reflexivity.
  - destruct n as [|n]; [reflexivity|]. cbn [String.substring String.length].
    f_equal. apply IH. simpl in Hn. lia.
Qed.
End Strip.

Section RepositoryNames.

Import GithubManager.

Lemma rstrip_length (q : ascii -> bool) (s : string) :
  (String.length (Str.rstrip q s) <= String.length s)%nat
  /\ (Str.ends q s = true -> String.length (Str.rstrip q s) < String.length s)%nat.
Proof.
  induction s as [|c s [IHle IHlt]]; [split; [reflexivity | discriminate]|].
  cbn [Str.rstrip Str.ends]. destruct (Str.rstrip q s) eqn:Hr.
  - destruct (q c) eqn:Hc.
    + split; [simpl; lia | intros _; simpl; lia].
    + split; [simpl; lia|]. destruct s as [|c' s]; [congruence|].
      intros He. specialize (IHlt He). simpl in *. lia.
  - split; [simpl in *; lia|]. destruct s as [|c' s]; [discriminate|].
    intros He. specialize (IHlt He). simpl in *. lia.
Qed.

Lemma truthy_length (s : string) : Str.truthy s = true <-> (0 < String.length s)%nat.
Proof. destruct s; simpl; split; try discriminate; try lia; reflexivity. Qed.

Variable w : world.

(** A name that already has the shape of a repository name is left as it
    is. *)
Lemma sanitize_repo_name_fixed (name : string) :
  Str.all allowed name = true ->
  Str.starts is_hyphen name = false ->
  Str.ends is_hyphen name = false ->
  Str.truthy name = true ->
  (String.length name <= 100)%nat ->
  sanitize_repo_name w name = name.
Proof.
  intros Hall Hstart Hend Hne Hlen. unfold sanitize_repo_name.
  rewrite (replace_id allowed " " "-" name eq_refl Hall).
  rewrite (replace_id allowed "_" "-" name eq_refl Hall).
  rewrite (filter_id allowed name Hall).
  rewrite (strip_id is_hyphen name Hstart Hend).
  apply Nat.ltb_ge in Hlen. rewrite Hlen, Hne. reflexivity.
Qed.

(** Unless it is the name made from the clock, the result has the shape of
    a repository name, except that it may end with a hyphen. *)
Lemma sanitize_repo_name_shape (task_name : string) :
  let out := sanitize_repo_name w task_name in
  out <> "task-" +:+ timestamp_compact (utcnow w) ->
  Str.all allowed out = true
  /\ Str.starts is_hyphen out = false
  /\ Str.truthy out = true
  /\ (String.length out <= 100)%nat.
Proof.
  unfold sanitize_repo_name.
  set (core := Str.strip is_hyphen _).
  assert (Hall : Str.all allowed core = true).
  { apply rstrip_all, lstrip_all, filter_all. }
  assert (Hstart : Str.starts is_hyphen core = false).
  { apply rstrip_starts, lstrip_starts. }
  destruct (100 <? String.length core)%nat eqn:Hlong.
  - apply Nat.ltb_lt in Hlong.
    assert (Hlen : String.length (Str.take 100 core) = 100%nat)
      by (apply take_length; lia).
    assert (Hne : Str.truthy (Str.take 100 core) = true)
      by (apply truthy_length; lia).
    rewrite Hne. cbn [negb]. intros _.
    split; [apply take_all, Hall|]. split; [apply take_starts, Hstart|].
    split; [exact Hne | lia].
  - apply Nat.ltb_ge in Hlong. destruct (Str.truthy core) eqn:Hne; cbn [negb].
    + intros _. auto.
    + intros Hfalse. contradiction.
Qed.

(** Sanitizing a sanitized name gives it back exactly when it does not end
    with a hyphen, which only a cut at the hundredth character can cause. *)
Lemma sanitize_repo_name_idempotent_iff (task_name : string) :
  let out := sanitize_repo_name w task_name in
  out <> "task-" +:+ timestamp_compact (utcnow w) ->
  (sanitize_repo_name w out = out <-> Str.ends is_hyphen out = false).
Proof.
  intros out Hnot.
  destruct (sanitize_repo_name_shape task_name Hnot) as (Hall & Hstart & Hne & Hlen).
  fold out in Hall, Hstart, Hne, Hlen.
  split.
  - intros Hfix. destruct (Str.ends is_hyphen out) eqn:Hend; [exfalso|reflexivity].
    revert Hfix. unfold sanitize_repo_name.
    rewrite (replace_id allowed " " "-" out eq_refl Hall).
    rewrite (replace_id allowed "_" "-" out eq_refl Hall).
    rewrite (filter_id allowed out Hall).
    unfold Str.strip. rewrite (lstrip_id is_hyphen out Hstart).
    destruct (rstrip_length is_hyphen out) as [_ Hlt]. specialize (Hlt Hend).
    assert (Hshort : (100 <? String.length (Str.rstrip is_hyphen out))%nat = false)
      by (apply Nat.ltb_ge; lia).
    rewrite Hshort.
    assert (Hkeep : Str.truthy (Str.rstrip is_hyphen out) = true).
    { destruct out as [|c rest]; [discriminate|].
      destruct (rstrip_cons is_hyphen c rest) as [-> | (_ & Hc & _)]; [reflexivity|].
      simpl in Hstart. congruence. }
    rewrite Hkeep. cbn [negb]. intros Heq. rewrite Heq in Hlt. lia.
  - intros Hend. apply sanitize_repo_name_fixed; assumption.
Qed.

Lemma replace_length (a b : ascii) (s : string) :
  String.length (Str.replace a b s) = String.length s.
Proof. induction s as [|c s IH]; [reflexivity|]. simpl. rewrite IH. reflexivity. Qed.

Lemma filter_length (p : ascii -> bool) (s : string) :
  (String.length (Str.filter p s) <= String.length s)%nat.
Proof.
  induction s as [|c s IH]; [reflexivity|]. cbn [Str.filter].
  destruct (p c); simpl; lia.
Qed.

Lemma lstrip_length (q : ascii -> bool) (s : string) :
  (String.length (Str.lstrip q s) <= String.length s)%nat.
Proof.
  induction s as [|c s IH]; [reflexivity|]. cbn [Str.lstrip].
  destruct (q c); simpl in *; lia.
Qed.

(** A task name of at most a hundred characters is not cut, and sanitizing
    its sanitized name changes nothing. *)
Lemma sanitize_repo_name_idempotent_short (task_name : string) :
  let out := sanitize_repo_name w task_name in
  (String.length task_name <= 100)%nat ->
  out <> "task-" +:+ timestamp_compact (utcnow w) ->
  sanitize_repo_name w out = out.
Proof.
  intros out Hshort Hnot.
  apply (sanitize_repo_name_idempotent_iff task_name Hnot).
  unfold out, sanitize_repo_name in *.
  set (core := Str.strip is_hyphen _) in *.
  assert (Hlen : (String.length core <= 100)%nat).
  { unfold core, Str.strip.
    etransitivity; [apply rstrip_length|].
    etransitivity; [apply lstrip_length|].
    etransitivity; [apply filter_length|].
    rewrite !replace_length. exact Hshort. }
  apply Nat.ltb_ge in Hlen. rewrite Hlen in *.
  destruct (Str.truthy core); cbn [negb] in *; [|contradiction].
  apply rstrip_ends.
Qed.
End RepositoryNames.

(** C3, at a task name of 99 letters, a hyphen and a letter. The name is
    cut to its first hundred characters after the hyphens at its ends have
    been stripped, so the result ends with a hyphen; sanitizing the result
    strips that hyphen and gives another name. *)
Theorem sanitize_repo_name_not_idempotent (w : world) :
  let once := GithubManager.sanitize_repo_name w Closed.long_name in
  let twice := GithubManager.sanitize_repo_name w once in
  once = String.concat "" (List.repeat "a" 99) +:+ "-"
  /\ twice = String.concat "" (List.repeat "a" 99)
  /\ twice <> once.
Proof.
  intros once twice.
  assert (H1 : once = String.concat "" (List.repeat "a" 99) +:+ "-")
    by (vm_compute; reflexivity).
  assert (H2 : twice = String.concat "" (List.repeat "a" 99))
    by (vm_compute; reflexivity).
  split; [exact H1|]. split; [exact H2|].
  rewrite H1, H2. intros Heq.
  apply (f_equal String.length) in Heq. vm_compute in Heq. discriminate.
Qed.

(** C4, at a brief of two lines. The description passed to the hosting
    provider is the prefix followed by the brief as it is, newline included;
    a provider that refuses control characters in a description makes the
    endpoint answer 500. *)
Theorem description_keeps_control_characters :
  let brief := "a" +:+ nl +:+ "b" in
  GithubManager.repo_description brief = "Auto-generated application: a" +:+ nl +:+ "b"
  /\ Str.contains nl (GithubManager.repo_description brief) = true
  /\ Str.any Str.is_c0 (GithubManager.repo_description brief) = true
  /\ App.deploy Closed.strict_hosting
       (Ok (PDict (<["brief" := PStr brief]> Closed.request)))
     = (<["error" := "Internal server error"]>
        (<["message" := "422 description control characters are not allowed"]> ∅),
        500).
Proof. intros brief. repeat split; vm_compute; reflexivity. Qed.

(** * Properties of the orchestrator *)

Section Outcome.

Import Evaluator.

Variable w : world.
Variable url : string.
Variable payload : gmap string pyval.

Lemma retry_or_fail_return (attempt : nat) (msg : string) (r : notify_result) :
  retry_or_fail attempt msg = Return r -> r = failed msg.
Proof.
  unfold retry_or_fail. repeat case_match; intros [=]; congruence.
Qed.

Lemma attempt_step_return (attempt : nat) (o : result response) (r : notify_result) :
  attempt_step w attempt o = Return r ->
  (exists v, r = succeeded v) \/ (exists msg, r = failed msg).
Proof.
  unfold attempt_step, on_exception. intros H.
  repeat case_match; simplify_eq;
    first [ left; eexists; reflexivity
          | right; eexists; eapply retry_or_fail_return; eassumption ].
Qed.

(** A failed notification always says why. *)
Lemma notify_loop_failure_has_error (attempts : list nat) (trace : list event)
    (r : notify_result) :
  snd (notify_loop w url payload attempts trace) = Ok r ->
  success r = false ->
  exists msg, error r = Some msg.
Proof.
  revert trace. induction attempts as [|attempt rest IH]; intros trace.
  - simpl. intros [= <-] _. eexists; reflexivity.
  - simpl. destruct (attempt_step w attempt (evaluation_post w url attempt)) eqn:Hstep.
    + simpl. intros [= <-] Hfail.
      destruct (attempt_step_return _ _ _ Hstep) as [[v ->]|[msg ->]].
      * discriminate.
      * eexists; reflexivity.
    + apply IH.
    + simpl. discriminate.
Qed.

End Outcome.

Section Orchestrator.

Import Py Validator App.

Lemma validated_not_empty (payload : gmap string pyval) (reason : string) :
  validate_request payload = Ok (true, reason) -> payload <> ∅.
Proof. intros Hvalid ->. vm_compute in Hvalid. discriminate. Qed.

Lemma bad_text_false (v : pyval) : bad_text v = false -> exists s, v = PStr s.
Proof. destruct v; try discriminate. eauto. Qed.

Lemma bad_url_false (v : pyval) : bad_url v = false -> exists s, v = PStr s.
Proof. destruct v; try discriminate. eauto. Qed.

(** A payload that [validate_request] accepts has every field that
    [deploy] extracts, with the type that the pipeline expects. *)
Lemma validated_extract (payload : gmap string pyval) (reason : string) :
  validate_request payload = Ok (true, reason) ->
  exists req, extract payload = Ok req.
Proof.
  unfold validate_request, extract.
  destruct (negb (length (missing_fields payload) =? 0)%nat); [discriminate|].
  destruct (getitem payload "email") as [email|]; [|discriminate].
  cbn [mbind result_bind].
  destruct (Py.contains "@" email) as [has_at|]; [|discriminate]. cbn [mbind result_bind].
  destruct (if negb has_at then Ok true else _) as [[|]|]; try discriminate.
  cbn [mbind result_bind].
  destruct (getitem payload "round") as [round|]; [|discriminate].
  cbn [mbind result_bind]. destruct (bad_round round); [discriminate|].
  destruct (getitem payload "task") as [task|]; [|discriminate].
  cbn [mbind result_bind]. destruct (bad_text task) eqn:Htask; [discriminate|].
  destruct (getitem payload "nonce") as [nonce|]; [|discriminate].
  cbn [mbind result_bind]. destruct (bad_text nonce); [discriminate|].
  destruct (getitem payload "brief") as [brief|]; [|discriminate].
  cbn [mbind result_bind]. destruct (bad_text brief) eqn:Hbrief; [discriminate|].
  destruct (getitem payload "evaluation_url") as [url|]; [|discriminate].
  cbn [mbind result_bind]. destruct (bad_url url) eqn:Hurl; [discriminate|].
  apply bad_text_false in Htask as [task' ->].
  apply bad_text_false in Hbrief as [brief' ->].
  apply bad_url_false in Hurl as [url' ->].
  cbn [as_str mbind result_bind]. unfold get_list.
  destruct (payload !! "checks") as [[]|]; cbn [is_list negb]; try discriminate;
    destruct (payload !! "attachments") as [[]|]; try discriminate;
    intros _; cbn [mbind result_bind]; eexists; reflexivity.
Qed.

Variable w : world.
Variable payload : gmap string pyval.
Variable reason : string.
Variable req : request.
Hypothesis Hvalid : validate_request payload = Ok (true, reason).
Hypothesis Hsecret :
  verify_secret (default (PStr "") (payload !! "secret"))
    (Some (STUDENT_SECRET w)) = true.
Hypothesis Hextract : extract payload = Ok req.

(** Past validation and authentication, [deploy] is the three stages. *)
Lemma deploy_body_admitted :
  deploy_body w (Ok (PDict payload)) =
  (app_code ← CodeGenerator.generate_app_code w (brief req) (checks req)
                (attachments req);
   info ← GithubManager.create_and_deploy_repo w (task req) app_code (brief req)
            (checks req);
   notify_result ← snd (notify w req info);
   if Evaluator.success notify_result then Ok (success_reply info)
   else
     notify_error ← match Evaluator.error notify_result with
                    | Some msg => Ok msg
                    | None => Raise (KeyError "error")
                    end;
     Ok (partial_success_reply info notify_error)).
Proof.
  unfold deploy_body. cbn [mbind result_bind falsy].
  rewrite bool_decide_eq_false_2 by exact (validated_not_empty _ _ Hvalid).
  rewrite Hvalid. cbn [negb]. rewrite Hsecret. cbn [negb].
  rewrite Hextract. reflexivity.
Qed.

End Orchestrator.

(** C7. For a request that passes validation and authentication and for
    which generation returns an artifact: when publishing succeeds and the
    notification outcome has [success] false, the endpoint answers 200 with
    the status [partial_success], the repository url, the pages url and the
    cause of the notification failure; when publishing raises, the endpoint
    answers 500. *)
Theorem notification_failure_is_partial_success
    (w : world) (payload : gmap string pyval) (reason : string)
    (req : App.request) (app_code : gmap string string) :
  Validator.validate_request payload = Ok (true, reason) ->
  Validator.verify_secret (default (PStr "") (payload !! "secret"))
    (Some (App.STUDENT_SECRET w)) = true ->
  App.extract payload = Ok req ->
  CodeGenerator.generate_app_code w (App.brief req) (App.checks req)
    (App.attachments req) = Ok app_code ->
  (forall info outcome,
     GithubManager.create_and_deploy_repo w (App.task req) app_code
       (App.brief req) (App.checks req) = Ok info ->
     snd (App.notify w req info) = Ok outcome ->
     Evaluator.success outcome = false ->
     exists body cause,
       App.deploy w (Ok (PDict payload)) = (body, 200)
       /\ Evaluator.error outcome = Some cause
       /\ body !! "status" = Some "partial_success"
       /\ body !! "repo_url" = Some (GithubManager.repo_url info)
       /\ body !! "pages_url" = Some (GithubManager.pages_url info)
       /\ body !! "error" = Some cause)
  /\ (forall e,
        GithubManager.create_and_deploy_repo w (App.task req) app_code
          (App.brief req) (App.checks req) = Raise e ->
        App.deploy w (Ok (PDict payload))
        = (<["error" := "Internal server error"]>
           (<["message" := str_exn w e]> ∅), 500)).
Proof.
  intros Hvalid Hsecret Hextract Hcode. split.
  - intros info outcome Hpublish Hnotify Hfail.
    destruct (notify_loop_failure_has_error _ _ _ _ _ _ Hnotify Hfail)
      as [cause Hcause].
    exists (fst (App.partial_success_reply info cause)), cause.
    split; [|split; [exact Hcause|repeat split]].
    unfold App.deploy.
    rewrite (deploy_body_admitted w payload reason req Hvalid Hsecret Hextract).
    rewrite Hcode. cbn [mbind result_bind]. rewrite Hpublish. cbn [mbind result_bind].
    rewrite Hnotify. cbn [mbind result_bind]. rewrite Hfail, Hcause. reflexivity.
  - intros e Hpublish. unfold App.deploy.
    rewrite (deploy_body_admitted w payload reason req Hvalid Hsecret Hextract).
    rewrite Hcode. cbn [mbind result_bind]. rewrite Hpublish. reflexivity.
Qed.

(** The scenario request in a world whose evaluation endpoint rejects every
    attempt, and in a world without hosting credentials. *)
Lemma notification_failure_is_partial_success_witness :
  let app_code := CodeGenerator.template "digital clock" [PStr "has title"] in
  let outcome := Evaluator.failed "Evaluation API returned status 500: boom" in
  (Validator.validate_request Closed.request = Ok (true, "")
   /\ Validator.verify_secret (default (PStr "") (Closed.request !! "secret"))
        (Some (App.STUDENT_SECRET Closed.rejecting)) = true
   /\ App.extract Closed.request = Ok Closed.details
   /\ CodeGenerator.generate_app_code Closed.rejecting "digital clock"
        [PStr "has title"] [] = Ok app_code
   /\ GithubManager.create_and_deploy_repo Closed.rejecting "Clock App!" app_code
        "digital clock" [PStr "has title"] = Ok Closed.published
   /\ snd (App.notify Closed.rejecting Closed.details Closed.published) = Ok outcome
   /\ Evaluator.success outcome = false
   /\ exists body cause,
        App.deploy Closed.rejecting (Ok (PDict Closed.request)) = (body, 200)
        /\ Evaluator.error outcome = Some cause
        /\ body !! "status" = Some "partial_success"
        /\ body !! "repo_url" = Some "https://github.com/octo/Clock-App"
        /\ body !! "pages_url" = Some "https://octo.github.io/Clock-App/"
        /\ body !! "error" = Some cause)
  /\ (GithubManager.create_and_deploy_repo Closed.unprovisioned "Clock App!" app_code
        "digital clock" [PStr "has title"]
      = Raise (ValueError "GITHUB_TOKEN not configured")
      /\ App.deploy Closed.unprovisioned (Ok (PDict Closed.request))
         = (<["error" := "Internal server error"]>
            (<["message" := "GITHUB_TOKEN not configured"]> ∅), 500)).
Proof.
  intros app_code outcome.
  assert (Hvalid : Validator.validate_request Closed.request = Ok (true, ""))
    by (vm_compute; reflexivity).
  assert (Hsecret : Validator.verify_secret
            (default (PStr "") (Closed.request !! "secret"))
            (Some (App.STUDENT_SECRET Closed.rejecting)) = true)
    by (vm_compute; reflexivity).
  assert (Hsecret' : Validator.verify_secret
            (default (PStr "") (Closed.request !! "secret"))
            (Some (App.STUDENT_SECRET Closed.unprovisioned)) = true)
    by (vm_compute; reflexivity).
  assert (Hextract : App.extract Closed.request = Ok Closed.details)
    by (vm_compute; reflexivity).
  assert (Hcode : CodeGenerator.generate_app_code Closed.rejecting "digital clock"
                    [PStr "has title"] [] = Ok app_code)
    by (vm_compute; reflexivity).
  assert (Hcode' : CodeGenerator.generate_app_code Closed.unprovisioned
                     "digital clock" [PStr "has title"] [] = Ok app_code)
    by (vm_compute; reflexivity).
  assert (Hpublish : GithubManager.create_and_deploy_repo Closed.rejecting
            "Clock App!" app_code "digital clock" [PStr "has title"]
            = Ok Closed.published) by (vm_compute; reflexivity).
  assert (Hnotify : snd (App.notify Closed.rejecting Closed.details Closed.published)
                    = Ok outcome) by (vm_compute; reflexivity).
  assert (Hmissing : GithubManager.create_and_deploy_repo Closed.unprovisioned
            "Clock App!" app_code "digital clock" [PStr "has title"]
            = Raise (ValueError "GITHUB_TOKEN not configured"))
    by (vm_compute; reflexivity).
  split.
  - split; [exact Hvalid|]. split; [exact Hsecret|].
    split; [exact Hextract|]. split; [exact Hcode|].
    split; [exact Hpublish|]. split; [exact Hnotify|]. split; [reflexivity|].
    exact (proj1 (notification_failure_is_partial_success Closed.rejecting
                    Closed.request "" Closed.details app_code Hvalid
                    Hsecret Hextract Hcode)
             Closed.published outcome Hpublish Hnotify eq_refl).
  - split; [exact Hmissing|].
    exact (proj2 (notification_failure_is_partial_success Closed.unprovisioned
                    Closed.request "" Closed.details app_code Hvalid
                    Hsecret' Hextract Hcode')
             (ValueError "GITHUB_TOKEN not configured") Hmissing).
Defined.


(** * Further properties of the notifier *)

Section NotifierTraces.

Import Evaluator Notification.

Variable w : world.
Variable url : string.
Variable payload : gmap string pyval.

Lemma retry_or_fail_retry (attempt : nat) (msg : string) :
  (attempt < 4)%nat ->
  exists delay, RETRY_DELAYS !! attempt = Some delay
                /\ retry_or_fail attempt msg = Retry delay.
Proof.
  intros Hlt. unfold retry_or_fail, MAX_RETRIES, RETRY_DELAYS.
  do 4 (destruct attempt as [|attempt]; [eexists; split; reflexivity|]). lia.
Qed.

Lemma retry_or_fail_last (attempt : nat) (msg : string) :
  (4 <= attempt)%nat -> retry_or_fail attempt msg = Return (failed msg).
Proof.
  intros Hge. unfold retry_or_fail, MAX_RETRIES.
  apply Nat.ltb_ge in Hge. cbn [Nat.sub]. rewrite Hge. reflexivity.
Qed.

(** An attempt that is accepted returns the value; one that is not is
    handed to [retry_or_fail] with some message. *)
Lemma attempt_step_accepted (attempt : nat) (o : result response) (v : pyval) :
  accepted o = Some v -> attempt_step w attempt o = Return (succeeded v).
Proof.
  unfold accepted, attempt_step. intros H.
  repeat case_match; simplify_eq; reflexivity.
Qed.

Lemma attempt_step_refused (attempt : nat) (o : result response) :
  accepted o = None ->
  exists msg, attempt_step w attempt o = retry_or_fail attempt msg.
Proof.
  unfold accepted, attempt_step, on_exception. intros H.
  repeat case_match; simplify_eq; eexists; reflexivity.
Qed.

(** One iteration, by what the endpoint does. *)
Lemma notify_loop_accepted (attempt : nat) (rest : list nat) (trace : list event)
    (v : pyval) :
  accepted (evaluation_post w url attempt) = Some v ->
  notify_loop w url payload (attempt :: rest) trace
  = ((trace ++ [Post url payload])%list, Ok (succeeded v)).
Proof.
  intros H. cbn [notify_loop]. rewrite (attempt_step_accepted _ _ _ H). reflexivity.
Qed.

Lemma notify_loop_refused (attempt : nat) (rest : list nat) (trace : list event) :
  accepted (evaluation_post w url attempt) = None ->
  (attempt < 4)%nat ->
  exists delay,
    RETRY_DELAYS !! attempt = Some delay
    /\ notify_loop w url payload (attempt :: rest) trace
       = notify_loop w url payload rest (trace ++ [Post url payload; Sleep delay])%list.
Proof.
  intros H Hlt. destruct (attempt_step_refused attempt _ H) as [msg Hstep].
  destruct (retry_or_fail_retry attempt msg Hlt) as (delay & Hdelay & Hretry).
  exists delay. split; [exact Hdelay|].
  cbn [notify_loop]. rewrite Hstep, Hretry, <- List.app_assoc. reflexivity.
Qed.

Lemma notify_loop_refused_last (attempt : nat) (rest : list nat) (trace : list event) :
  accepted (evaluation_post w url attempt) = None ->
  (4 <= attempt)%nat ->
  exists msg,
    attempt_step w attempt (evaluation_post w url attempt) = Return (failed msg)
    /\ notify_loop w url payload (attempt :: rest) trace
       = ((trace ++ [Post url payload])%list, Ok (failed msg)).
Proof.
  intros H Hge. destruct (attempt_step_refused attempt _ H) as [msg Hstep].
  exists msg. rewrite Hstep, (retry_or_fail_last _ _ Hge). split; [reflexivity|].
  cbn [notify_loop]. rewrite Hstep, (retry_or_fail_last _ _ Hge). reflexivity.
Qed.

(** The run of the five attempts: it stops at the first accepted attempt,
    or after the fifth. *)
Lemma notify_loop_run :
  (exists k v, (k <= 4)%nat
     /\ (forall i, (i < k)%nat -> accepted (evaluation_post w url i) = None)
     /\ accepted (evaluation_post w url k) = Some v
     /\ notify_loop w url payload [0; 1; 2; 3; 4]%nat []
        = (retried url payload k, Ok (succeeded v)))
  \/ (exists msg,
        (forall i, (i <= 4)%nat -> accepted (evaluation_post w url i) = None)
        /\ attempt_step w 4 (evaluation_post w url 4%nat) = Return (failed msg)
        /\ notify_loop w url payload [0; 1; 2; 3; 4]%nat []
           = (retried url payload 4, Ok (failed msg))).
Proof.
  destruct (accepted (evaluation_post w url 0%nat)) as [v|] eqn:H0.
  { left. exists 0%nat, v. split; [lia|]. split; [intros i Hi; lia|].
    split; [exact H0|]. rewrite (notify_loop_accepted _ _ _ _ H0). reflexivity. }
  edestruct (notify_loop_refused 0) as (d0 & Hd0 & Hrun); [exact H0 | lia |].
  rewrite Hrun. clear Hrun. injection Hd0 as <-.
  destruct (accepted (evaluation_post w url 1%nat)) as [v|] eqn:H1.
  { left. exists 1%nat, v. split; [lia|].
    split; [intros i Hi; assert (i = 0)%nat as -> by lia; exact H0|].
    split; [exact H1|]. rewrite (notify_loop_accepted _ _ _ _ H1). reflexivity. }
  edestruct (notify_loop_refused 1) as (d1 & Hd1 & Hrun); [exact H1 | lia |].
  rewrite Hrun. clear Hrun. injection Hd1 as <-.
  destruct (accepted (evaluation_post w url 2%nat)) as [v|] eqn:H2.
  { left. exists 2%nat, v. split; [lia|].
    split; [intros i Hi; do 2 (destruct i as [|i]; [assumption|]); lia|].
    split; [exact H2|]. rewrite (notify_loop_accepted _ _ _ _ H2). reflexivity. }
  edestruct (notify_loop_refused 2) as (d2 & Hd2 & Hrun); [exact H2 | lia |].
  rewrite Hrun. clear Hrun. injection Hd2 as <-.
  destruct (accepted (evaluation_post w url 3%nat)) as [v|] eqn:H3.
  { left. exists 3%nat, v. split; [lia|].
    split; [intros i Hi; do 3 (destruct i as [|i]; [assumption|]); lia|].
    split; [exact H3|]. rewrite (notify_loop_accepted _ _ _ _ H3). reflexivity. }
  edestruct (notify_loop_refused 3) as (d3 & Hd3 & Hrun); [exact H3 | lia |].
  rewrite Hrun. clear Hrun. injection Hd3 as <-.
  destruct (accepted (evaluation_post w url 4%nat)) as [v|] eqn:H4.
  { left. exists 4%nat, v. split; [lia|].
    split; [intros i Hi; do 4 (destruct i as [|i]; [assumption|]); lia|].
    split; [exact H4|]. rewrite (notify_loop_accepted _ _ _ _ H4). reflexivity. }
  edestruct (notify_loop_refused_last 4) as (msg & Hstep & Hrun); [exact H4 | lia |].
  rewrite Hrun. clear Hrun.
  right. exists msg.
  split; [intros i Hi; do 5 (destruct i as [|i]; [assumption|]); lia|].
  split; [exact Hstep|]. reflexivity.
Qed.

End NotifierTraces.

Section NotifierRuns.

Import Evaluator Notification.

Variable w : world.
Variable url : string.
Variable payload : gmap string pyval.

Lemma notify_evaluation_api_loop (email task round_num nonce : pyval)
    (repo_url commit_sha pages_url : string) :
  notify_evaluation_api w url email task round_num nonce repo_url commit_sha
    pages_url
  = notify_loop w url
      (body email task round_num nonce repo_url commit_sha pages_url)
      [0; 1; 2; 3; 4]%nat [].
Proof. reflexivity. Qed.

Lemma retried_counts (retries : nat) :
  (retries <= 4)%nat ->
  posts (retried url payload retries) = S retries
  /\ sleeps (retried url payload retries) = List.firstn retries RETRY_DELAYS
  /\ slept (retried url payload retries) <= 15.
Proof.
  intros Hle. do 5 (destruct retries as [|retries];
    [split; [reflexivity|split; [reflexivity|unfold slept; simpl; lia]]|]). lia.
Qed.

Lemma attempt_step_refused_cause (o : result response) :
  accepted o = None ->
  attempt_step w 4 o = Return (failed (cause w o)).
Proof.
  unfold accepted, attempt_step, on_exception, cause, exception_cause. intros H.
  repeat case_match; simplify_eq; reflexivity.
Qed.

End NotifierRuns.

(** X1. Whatever the evaluation endpoint does, the notifier returns a result
    and its events are a request followed, for each retry, by the delay of
    the schedule and a request, with at most four retries: at most five
    requests, the delays 1, 2, 4, 8 in this order, and at most 15 seconds
    slept. *)
Theorem notify_trace_invariant
    (w : world) (evaluation_url : string) (email task round_num nonce : pyval)
    (repo_url commit_sha pages_url : string) :
  let run := Evaluator.notify_evaluation_api w evaluation_url email task round_num
               nonce repo_url commit_sha pages_url in
  let payload := Notification.body email task round_num nonce repo_url commit_sha
                   pages_url in
  exists retries,
    (retries <= 4)%nat
    /\ fst run = Notification.retried evaluation_url payload retries
    /\ Evaluator.posts (fst run) = S retries
    /\ Evaluator.sleeps (fst run) = List.firstn retries Evaluator.RETRY_DELAYS
    /\ Notification.slept (fst run) <= 15
    /\ exists r, snd run = Ok r.
Proof.
  intros run payload. unfold run.
  rewrite notify_evaluation_api_loop. fold payload.
  destruct (notify_loop_run w evaluation_url payload)
    as [(k & v & Hk & _ & _ & ->) | (msg & _ & _ & ->)]; cbn [fst snd].
  - exists k. split; [exact Hk|]. split; [reflexivity|].
    destruct (retried_counts evaluation_url payload k Hk) as (Hp & Hs & Ht).
    split; [exact Hp|]. split; [exact Hs|]. split; [exact Ht|]. eauto.
  - exists 4%nat. split; [lia|]. split; [reflexivity|].
    split; [reflexivity|]. split; [reflexivity|].
    split; [unfold Notification.slept; simpl; lia | eauto].
Qed.

(** X2. The notification succeeds at the first attempt that the endpoint
    accepts, whatever made the earlier attempts fail: with [k] failed attempts
    before it, the events are those of [k] retries, and the result has
    [success] true with the value of the accepted response. Nothing is sent
    or slept afterwards. *)
Theorem notify_succeeds_at_first_accepted
    (w : world) (evaluation_url : string) (email task round_num nonce : pyval)
    (repo_url commit_sha pages_url : string) (k : nat) (v : pyval) :
  (k <= 4)%nat ->
  (forall i, (i < k)%nat ->
     Notification.accepted (evaluation_post w evaluation_url i) = None) ->
  Notification.accepted (evaluation_post w evaluation_url k) = Some v ->
  Evaluator.notify_evaluation_api w evaluation_url email task round_num nonce
    repo_url commit_sha pages_url
  = (Notification.retried evaluation_url
       (Notification.body email task round_num nonce repo_url commit_sha pages_url) k,
     Ok {| Evaluator.success := true; Evaluator.error := None;
           Evaluator.response_json := Some v |}).
Proof.
  intros Hk Hbefore Hat. rewrite notify_evaluation_api_loop.
  destruct (notify_loop_run w evaluation_url
              (Notification.body email task round_num nonce repo_url commit_sha
                 pages_url))
    as [(k' & v' & Hk' & Hbefore' & Hat' & ->) | (msg & Hall & _ & _)].
  - assert (k' = k) as ->.
    { destruct (Nat.lt_trichotomy k' k) as [Hlt | [Heq | Hgt]]; [|exact Heq|].
      - rewrite (Hbefore k' Hlt) in Hat'. discriminate.
      - rewrite (Hbefore' k Hgt) in Hat. discriminate. }
    rewrite Hat in Hat'. injection Hat' as <-. reflexivity.
  - rewrite (Hall k Hk) in Hat. discriminate.
Qed.


(** Two failures, then an accepted attempt. *)
Lemma notify_succeeds_at_first_accepted_witness :
  (2 <= 4)%nat
  /\ (forall i, (i < 2)%nat ->
        Notification.accepted (evaluation_post Scenario.recovering "http://eval.test" i)
        = None)
  /\ Notification.accepted (evaluation_post Scenario.recovering "http://eval.test" 2%nat)
     = Some (PDict ∅)
  /\ snd (Evaluator.notify_evaluation_api Scenario.recovering "http://eval.test"
            (PStr "a@b.com") (PStr "Clock App!") (PInt 1) (PStr "n1")
            "https://github.com/octo/Clock-App" "0a1b2c3"
            "https://octo.github.io/Clock-App/")
     = Ok (Evaluator.succeeded (PDict ∅))
  /\ Evaluator.sleeps
       (fst (Evaluator.notify_evaluation_api Scenario.recovering "http://eval.test"
               (PStr "a@b.com") (PStr "Clock App!") (PInt 1) (PStr "n1")
               "https://github.com/octo/Clock-App" "0a1b2c3"
               "https://octo.github.io/Clock-App/"))
     = [1; 2].
Proof.
  assert (Hle : (2 <= 4)%nat) by lia.
  assert (Hbefore : forall i, (i < 2)%nat ->
            Notification.accepted
              (evaluation_post Scenario.recovering "http://eval.test" i) = None).
  { intros i Hi. do 2 (destruct i as [|i]; [reflexivity|]). lia. }
  assert (Hat : Notification.accepted
                  (evaluation_post Scenario.recovering "http://eval.test" 2%nat)
                = Some (PDict ∅)) by reflexivity.
  split; [exact Hle|]. split; [exact Hbefore|]. split; [exact Hat|].
  rewrite (notify_succeeds_at_first_accepted Scenario.recovering "http://eval.test"
             (PStr "a@b.com") (PStr "Clock App!") (PInt 1) (PStr "n1")
             "https://github.com/octo/Clock-App" "0a1b2c3"
             "https://octo.github.io/Clock-App/" 2 (PDict ∅) Hle Hbefore Hat).
  split; reflexivity.
Defined.


Section NotifierBody.

Import Evaluator Notification.

Lemma retried_events (url : string) (payload : gmap string pyval) (retries : nat) :
  Forall (fun e => match e with
                   | Post u p => u = url /\ p = payload
                   | Sleep _ => True
                   end) (retried url payload retries).
Proof.
  unfold retried. constructor; [split; reflexivity|].
  induction (List.firstn retries RETRY_DELAYS) as [|d l IH]; [constructor|].
  cbn [List.flat_map app]. constructor; [exact I|]. constructor; [split; reflexivity|].
  exact IH.
Qed.

Lemma body_keys (email task round_num nonce : pyval)
    (repo_url commit_sha pages_url : string) (key : string) :
  is_Some (body email task round_num nonce repo_url commit_sha pages_url !! key)
  <-> In key ["email"; "task"; "round"; "nonce"; "repo_url"; "commit_sha"; "pages_url"].
Proof.
  unfold body. split.
  - intros [v Hv].
    repeat (rewrite lookup_insert in Hv; case_decide; [subst; simpl; tauto|]).
    rewrite lookup_empty in Hv. discriminate.
  - intros Hin. simpl in Hin.
    repeat (destruct Hin as [<-|Hin]; [eexists; reflexivity|]). destruct Hin.
Qed.

End NotifierBody.

(** X4. Every request of a notification goes to the evaluation url and
    carries the same JSON object, whose members are exactly email, task,
    round, nonce, repo_url, commit_sha and pages_url with the values
    given. *)
Theorem notify_requests_carry_body
    (w : world) (evaluation_url : string) (email task round_num nonce : pyval)
    (repo_url commit_sha pages_url : string) :
  let payload := Notification.body email task round_num nonce repo_url commit_sha
                   pages_url in
  Forall (fun e => match e with
                   | Evaluator.Post u p => u = evaluation_url /\ p = payload
                   | Evaluator.Sleep _ => True
                   end)
    (fst (Evaluator.notify_evaluation_api w evaluation_url email task round_num
            nonce repo_url commit_sha pages_url))
  /\ payload !! "email" = Some email
  /\ payload !! "task" = Some task
  /\ payload !! "round" = Some round_num
  /\ payload !! "nonce" = Some nonce
  /\ payload !! "repo_url" = Some (PStr repo_url)
  /\ payload !! "commit_sha" = Some (PStr commit_sha)
  /\ payload !! "pages_url" = Some (PStr pages_url)
  /\ forall key, is_Some (payload !! key) <->
       In key ["email"; "task"; "round"; "nonce"; "repo_url"; "commit_sha";
               "pages_url"].
Proof.
  intros payload. split.
  - rewrite notify_evaluation_api_loop. fold payload.
    destruct (notify_loop_run w evaluation_url payload)
      as [(k & v & _ & _ & _ & ->) | (msg & _ & _ & ->)]; apply retried_events.
  - repeat split; try reflexivity; apply body_keys.
Qed.


(** * Further properties of the validator *)

Section Acceptance.

Import Py Validator.

Lemma has_key_true (key : string) (d : gmap string pyval) :
  has_key key d = true <-> is_Some (d !! key).
Proof. unfold has_key. apply bool_decide_eq_true. Qed.

Lemma has_key_false (key : string) (d : gmap string pyval) :
  has_key key d = false <-> d !! key = None.
Proof.
  unfold has_key. rewrite bool_decide_eq_false, <- eq_None_not_Some. reflexivity.
Qed.

Lemma bad_text_spec (v : pyval) :
  bad_text v = false <-> exists t, v = PStr t /\ t <> "".
Proof.
  split.
  - destruct v as [| | | |t| |]; try discriminate. intros H.
    exists t. split; [reflexivity|]. intros ->. discriminate.
  - intros (t & -> & Hne). destruct t; [contradiction|reflexivity].
Qed.

Lemma bad_url_spec (v : pyval) :
  bad_url v = false <-> exists t, v = PStr t /\ Str.startswith "http" t = true.
Proof.
  split.
  - destruct v as [| | | |t| |]; try discriminate. intros H%negb_false_iff. eauto.
  - intros (t & -> & Ht). simpl. rewrite Ht. reflexivity.
Qed.

Lemma bad_round_spec (v : pyval) :
  bad_round v = false <-> (exists n, v = PInt n /\ 1 <= n) \/ v = PBool true.
Proof.
  split.
  - destruct v as [|b|n| | | |]; try discriminate.
    + destruct b; [auto | discriminate].
    + intros H%Z.ltb_ge. left. eauto.
  - intros [(n & -> & Hn) | ->]; [apply Z.ltb_ge, Hn | reflexivity].
Qed.

(** The loop over the attachments finds nothing exactly when each of them
    is a dict with a name and a url; otherwise it names the first one that
    is not. *)
Lemma check_attachments_none (idx : nat) (l : list pyval) :
  check_attachments idx l = None <-> Forall Wellformed.attachment l.
Proof.
  revert idx. induction l as [|a l IH]; intros idx; [split; [constructor|reflexivity]|].
  cbn [check_attachments]. destruct a;
    try solve [split; [discriminate
                      | intros Hall; inversion Hall as [|? ? Ha];
                        destruct Ha as (d & Hd & _); discriminate]].
  destruct (has_key "name" d) eqn:Hname; destruct (has_key "url" d) eqn:Hurl;
    cbn [negb orb].
  - apply has_key_true in Hname, Hurl. split.
    + intros Hl. constructor; [exists d; auto | apply (IH (S idx)), Hl].
    + intros Hall. inversion Hall. apply (IH (S idx)). assumption.
  - apply has_key_false in Hurl. split; [discriminate|].
    intros Hall. inversion Hall as [|? ? Ha].
    destruct Ha as (d' & Hd & _ & [v Hv]). injection Hd as <-. congruence.
  - apply has_key_false in Hname. split; [discriminate|].
    intros Hall. inversion Hall as [|? ? Ha].
    destruct Ha as (d' & Hd & [v Hv] & _). injection Hd as <-. congruence.
  - apply has_key_false in Hname. split; [discriminate|].
    intros Hall. inversion Hall as [|? ? Ha].
    destruct Ha as (d' & Hd & [v Hv] & _). injection Hd as <-. congruence.
Qed.

Lemma check_attachments_first (idx : nat) (good rest : list pyval) (bad : pyval) :
  Forall Wellformed.attachment good ->
  ~ Wellformed.attachment bad ->
  check_attachments idx (good ++ bad :: rest)
  = Some ("Attachment " +:+ Str.of_nat (idx + List.length good)
          +:+ (if is_dict bad then " must have 'name' and 'url' fields"
               else " must be a dictionary")).
Proof.
  intros Hgood Hbad. revert idx. induction Hgood as [|a good Ha Hgood IH]; intros idx.
  - cbn [app List.length]. rewrite Nat.add_0_r. cbn [check_attachments].
    destruct bad; try reflexivity. cbn [is_dict].
    destruct (negb (has_key "name" d) || negb (has_key "url" d)) eqn:Hk; [reflexivity|].
    exfalso. apply Hbad. apply orb_false_iff in Hk as [Hn Hu].
    apply negb_false_iff, has_key_true in Hn, Hu. exists d. auto.
  - destruct Ha as (d & -> & Hn & Hu). cbn [app check_attachments].
    apply has_key_true in Hn, Hu. rewrite Hn, Hu. cbn [negb orb].
    rewrite IH. cbn [List.length]. rewrite Nat.add_succ_r. reflexivity.
Qed.

(** What [validate_request] answers once the fields other than the
    attachments are in order. *)
Lemma validate_request_fields (payload : gmap string pyval) :
  Wellformed.fields payload ->
  validate_request payload
  = match payload !! "attachments" with
    | Some (PList l) =>
        match check_attachments 0 l with
        | Some msg => Ok (false, msg)
        | None => Ok (true, "")
        end
    | Some _ => Ok (false, "Attachments must be a list")
    | None => Ok (true, "")
    end.
Proof.
  intros ((email & He & Hat & Hdot) & [secret Hs] & Hround & (task & Ht & Htne)
          & (nonce & Hn & Hnne) & (brief & Hb & Hbne) & (url & Hu & Hhttp) & Hchecks).
  assert (Hr : exists round, payload !! "round" = Some round /\ bad_round round = false).
  { destruct Hround as [(n & Hr & Hn1) | Hr]; eexists; (split; [exact Hr|]);
      apply bad_round_spec; eauto. }
  destruct Hr as (round & Hr & Hrok).
  unfold validate_request, missing_fields, required_fields, has_key.
  cbn [List.filter].
  rewrite !bool_decide_eq_true_2 by (rewrite ?He, ?Hs, ?Ht, ?Hr, ?Hn, ?Hb, ?Hu; eauto).
  cbn [negb List.length Nat.eqb]. unfold getitem.
  rewrite He, Hr, Ht, Hn, Hb, Hu. cbn [mbind result_bind Py.contains domain_part].
  rewrite Hat. cbn [negb mbind result_bind]. rewrite Hdot. cbn [negb].
  rewrite Hrok.
  rewrite (proj2 (bad_text_spec (PStr task))) by eauto.
  rewrite (proj2 (bad_text_spec (PStr nonce))) by eauto.
  rewrite (proj2 (bad_text_spec (PStr brief))) by eauto.
  rewrite (proj2 (bad_url_spec (PStr url))) by eauto.
  destruct Hchecks as [-> | [l ->]]; reflexivity.
Qed.

Lemma validate_request_accepted_fields (payload : gmap string pyval) (reason : string) :
  validate_request payload = Ok (true, reason) -> Wellformed.fields payload.
Proof.
  unfold validate_request.
  destruct (missing_fields payload) eqn:Hm; [|discriminate].
  cbn [List.length Nat.eqb negb].
  destruct (no_missing_fields payload "email" Hm) as (email & -> & He); [simpl; auto|].
  destruct (no_missing_fields payload "secret" Hm) as (secret & _ & Hs); [simpl; auto|].
  destruct (no_missing_fields payload "round" Hm) as (round & -> & Hr); [simpl; auto 10|].
  destruct (no_missing_fields payload "task" Hm) as (task & -> & Ht); [simpl; auto 10|].
  destruct (no_missing_fields payload "nonce" Hm) as (nonce & -> & Hn); [simpl; auto 10|].
  destruct (no_missing_fields payload "brief" Hm) as (brief & -> & Hb); [simpl; auto 10|].
  destruct (no_missing_fields payload "evaluation_url" Hm) as (url & -> & Hu);
    [simpl; auto 10|].
  cbn [mbind result_bind].
  destruct (Py.contains "@" email) as [has_at|] eqn:Hat; [|discriminate].
  cbn [mbind result_bind].
  destruct has_at; cbn [negb]; [|discriminate].
  destruct (domain_part email) as [domain|] eqn:Hdomain; [|discriminate].
  cbn [mbind result_bind].
  destruct (Str.contains "." domain) eqn:Hdot; cbn [negb]; [|discriminate].
  destruct (bad_round round) eqn:Hround; [discriminate|].
  destruct (bad_text task) eqn:Htask; [discriminate|].
  destruct (bad_text nonce) eqn:Hnonce; [discriminate|].
  destruct (bad_text brief) eqn:Hbrief; [discriminate|].
  destruct (bad_url url) eqn:Hurl; [discriminate|].
  intros Hrest.
  destruct email as [| | | |e| |]; try discriminate.
  injection Hat as Hat. injection Hdomain as <-.
  apply bad_round_spec in Hround. apply bad_text_spec in Htask, Hnonce, Hbrief.
  apply bad_url_spec in Hurl.
  destruct Htask as (t & -> & Htne). destruct Hnonce as (n & -> & Hnne).
  destruct Hbrief as (b & -> & Hbne). destruct Hurl as (u & -> & Hhttp).
  split; [exists e; auto|]. split; [eauto|].
  split; [destruct Hround as [(k & -> & Hk) | ->]; eauto|].
  split; [eauto|]. split; [eauto|]. split; [eauto|]. split; [eauto|].
  destruct (payload !! "checks") as [[]|]; cbn [is_list negb] in Hrest;
    try discriminate; eauto.
Qed.

Lemma validate_request_accepted (payload : gmap string pyval) (reason : string) :
  validate_request payload = Ok (true, reason) ->
  reason = "" /\ Wellformed.request payload.
Proof.
  intros Hvalid. pose proof (validate_request_accepted_fields _ _ Hvalid) as Hfields.
  rewrite (validate_request_fields _ Hfields) in Hvalid.
  destruct (payload !! "attachments") as [[| | | | |l|]|] eqn:Hatt; try discriminate.
  - destruct (check_attachments 0 l) eqn:Hcheck; [discriminate|].
    injection Hvalid as <-. split; [reflexivity|]. split; [exact Hfields|].
    right. exists l. split; [exact Hatt|]. apply (check_attachments_none 0), Hcheck.
  - injection Hvalid as <-. split; [reflexivity|]. split; [exact Hfields|].
    left. exact Hatt.
Qed.

Lemma validate_request_wellformed (payload : gmap string pyval) :
  Wellformed.request payload -> validate_request payload = Ok (true, "").
Proof.
  intros (Hfields & Hatt). rewrite (validate_request_fields _ Hfields).
  destruct Hatt as [-> | (l & -> & Hall)]; [reflexivity|].
  apply (check_attachments_none 0) in Hall. rewrite Hall. reflexivity.
Qed.

End Acceptance.

(** X5. [validate_request] accepts a payload exactly when it is well formed,
    and then its reason is empty. Well formed means: the email is a string
    with an [@] and a dot after its last [@]; a secret is present; the round
    is an integer at least 1 (or the boolean true, which Python counts as the
    integer 1); task, nonce and brief are non-empty strings; the evaluation
    url is a string that starts with [http]; the checks, when present, are a
    list; the attachments, when present, are a list of dicts that each have
    a name and a url. *)
Theorem validate_request_accepts_iff (payload : gmap string pyval) (reason : string) :
  Validator.validate_request payload = Ok (true, reason)
  <-> reason = "" /\ Wellformed.request payload.
Proof.
  split.
  - apply validate_request_accepted.
  - intros (-> & Hwf). apply validate_request_wellformed, Hwf.
Qed.


Section Reasons.

Import Py Validator.

Lemma app_not_empty (c : ascii) (s t : string) : String c s +:+ t <> "".
Proof. rewrite app_cons. discriminate. Qed.

Lemma check_attachments_message (idx : nat) (l : list pyval) (msg : string) :
  check_attachments idx l = Some msg -> msg <> "".
Proof.
  revert idx. induction l as [|a l IH]; intros idx; [discriminate|].
  cbn [check_attachments].
  destruct a; try (intros [= <-]; apply app_not_empty).
  destruct (negb (has_key "name" d) || negb (has_key "url" d)).
  - intros [= <-]. apply app_not_empty.
  - apply IH.
Qed.

Lemma validate_request_reason_aux (payload : gmap string pyval) (ok : bool)
    (reason : string) :
  validate_request payload = Ok (ok, reason) ->
  (ok = true /\ reason = "") \/ (ok = false /\ reason <> "").
Proof.
  unfold validate_request, getitem.
  destruct (negb (length (missing_fields payload) =? 0)%nat).
  { intros [= <- <-]. right. split; [reflexivity | apply app_not_empty]. }
  destruct (payload !! "email") as [email|]; [|discriminate]. cbn [mbind result_bind].
  destruct (Py.contains "@" email) as [has_at|]; [|discriminate].
  cbn [mbind result_bind].
  destruct (if negb has_at then Ok true else _) as [bad_email|]; [|discriminate].
  cbn [mbind result_bind].
  destruct bad_email; [intros [= <- <-]; right; split; [reflexivity|discriminate]|].
  destruct (payload !! "round") as [round|]; [|discriminate]. cbn [mbind result_bind].
  destruct (bad_round round);
    [intros [= <- <-]; right; split; [reflexivity|discriminate]|].
  destruct (payload !! "task") as [task|]; [|discriminate]. cbn [mbind result_bind].
  destruct (bad_text task);
    [intros [= <- <-]; right; split; [reflexivity|discriminate]|].
  destruct (payload !! "nonce") as [nonce|]; [|discriminate]. cbn [mbind result_bind].
  destruct (bad_text nonce);
    [intros [= <- <-]; right; split; [reflexivity|discriminate]|].
  destruct (payload !! "brief") as [brief|]; [|discriminate]. cbn [mbind result_bind].
  destruct (bad_text brief);
    [intros [= <- <-]; right; split; [reflexivity|discriminate]|].
  destruct (payload !! "evaluation_url") as [url|]; [|discriminate].
  cbn [mbind result_bind].
  destruct (bad_url url);
    [intros [= <- <-]; right; split; [reflexivity|discriminate]|].
  destruct (match payload !! "checks" with Some v => negb (is_list v) | None => false end);
    [intros [= <- <-]; right; split; [reflexivity|discriminate]|].
  destruct (payload !! "attachments") as [[| | | | |l|]|];
    try (intros [= <- <-]; right; split; [reflexivity|discriminate]);
    try (intros [= <- <-]; left; split; reflexivity).
  destruct (check_attachments 0 l) as [msg|] eqn:Hcheck.
  - intros [= <- <-]. right. split; [reflexivity|].
    exact (check_attachments_message _ _ _ Hcheck).
  - intros [= <- <-]. left. split; reflexivity.
Qed.

End Reasons.

(** X6. When [validate_request] returns, its reason is empty exactly when it
    accepts: every refusal comes with a message. *)
Theorem validate_request_reason (payload : gmap string pyval) (ok : bool)
    (reason : string) :
  Validator.validate_request payload = Ok (ok, reason) ->
  (ok = true <-> reason = "").
Proof.
  intros H. destruct (validate_request_reason_aux _ _ _ H) as [[-> ->] | [-> Hne]].
  - split; reflexivity.
  - split; [discriminate | contradiction].
Qed.

(** The scenario request without its nonce. *)
Lemma validate_request_reason_witness :
  Validator.validate_request (delete "nonce" Closed.request)
  = Ok (false, "Missing required fields: nonce")
  /\ (false = true <-> "Missing required fields: nonce" = "").
Proof.
  assert (H : Validator.validate_request (delete "nonce" Closed.request)
              = Ok (false, "Missing required fields: nonce"))
    by (vm_compute; reflexivity).
  split; [exact H|]. exact (validate_request_reason _ _ _ H).
Defined.

(** X7. Among the attachments of a request whose other fields are in order,
    the first one that is not a dict with a name and a url decides the
    answer: the request is refused with a message that gives its position,
    counted from 0, and says whether it is not a dict or lacks a key. The
    attachments after it are not looked at. *)
Theorem validate_request_first_bad_attachment
    (payload : gmap string pyval) (good rest : list pyval) (bad : pyval) :
  Wellformed.fields payload ->
  payload !! "attachments" = Some (PList (good ++ bad :: rest)) ->
  Forall Wellformed.attachment good ->
  ~ Wellformed.attachment bad ->
  Validator.validate_request payload
  = Ok (false,
        "Attachment " +:+ Str.of_nat (List.length good)
        +:+ (if Py.is_dict bad then " must have 'name' and 'url' fields"
             else " must be a dictionary")).
Proof.
  intros Hfields Hatt Hgood Hbad.
  rewrite (validate_request_fields _ Hfields), Hatt.
  rewrite (check_attachments_first 0 good rest bad Hgood Hbad). reflexivity.
Qed.

(** A good attachment, then a string, then [None]: the string is reported. *)
Lemma validate_request_first_bad_attachment_witness :
  Validator.validate_request
    (Attached.request [Attached.sample; PStr "x"; PNone])
  = Ok (false, "Attachment 1 must be a dictionary").
Proof.
  apply (validate_request_first_bad_attachment
           (Attached.request [Attached.sample; PStr "x"; PNone])
           [Attached.sample] [PNone] (PStr "x")).
  - split; [exists "a@b.com"; repeat split; reflexivity|].
    split; [eexists; reflexivity|].
    split; [left; exists 1; split; [reflexivity|lia]|].
    split; [exists "Clock App!"; split; [reflexivity|discriminate]|].
    split; [exists "n1"; split; [reflexivity|discriminate]|].
    split; [exists "digital clock"; split; [reflexivity|discriminate]|].
    split; [exists "http://eval.test"; split; reflexivity|].
    right. eexists. reflexivity.
  - reflexivity.
  - constructor; [|constructor].
    eexists. split; [reflexivity|]. split; eexists; reflexivity.
  - intros (d & Hd & _). discriminate.
Defined.

(** The scenario request is well formed. *)
Lemma validate_request_accepts_iff_witness : Wellformed.request Closed.request.
Proof.
  refine (proj2 (proj1 (validate_request_accepts_iff Closed.request "") _)).
  vm_compute. reflexivity.
Defined.


(** * More properties of the orchestrator *)

Section Endpoint.

Import Py Validator App.

Variable w : world.

(** The replies of the [try] block. *)
Lemma deploy_body_codes (request_json : result pyval) (reply : http_reply) :
  deploy_body w request_json = Ok reply ->
  In (snd reply) [200; 400; 403].
Proof.
  unfold deploy_body. destruct request_json as [v|]; cbn [mbind result_bind];
    [|discriminate].
  destruct (falsy v); [intros [= <-]; simpl; auto|].
  destruct v; try discriminate.
  destruct (validate_request d) as [[[] msg]|]; cbn [mbind result_bind negb];
    [|intros [= <-]; simpl; auto|discriminate].
  destruct (verify_secret _ _); cbn [negb]; [|intros [= <-]; simpl; auto].
  destruct (extract d) as [req|]; cbn [mbind result_bind]; [|discriminate].
  destruct (CodeGenerator.generate_app_code _ _ _ _) as [code|];
    cbn [mbind result_bind]; [|discriminate].
  destruct (GithubManager.create_and_deploy_repo _ _ _ _ _) as [info|];
    cbn [mbind result_bind]; [|discriminate].
  destruct (snd (notify w req info)) as [r|]; cbn [mbind result_bind]; [|discriminate].
  destruct (Evaluator.success r); [intros [= <-]; simpl; auto|].
  destruct (Evaluator.error r); cbn [mbind result_bind]; [|discriminate].
  intros [= <-]. simpl. auto.
Qed.

(** What a reply with status 200 tells. *)
Lemma deploy_body_published (request_json : result pyval) (body : gmap string string) :
  deploy_body w request_json = Ok (body, 200) ->
  exists payload req app_code info,
    request_json = Ok (PDict payload)
    /\ validate_request payload = Ok (true, "")
    /\ payload !! "secret" = Some (PStr (STUDENT_SECRET w))
    /\ STUDENT_SECRET w <> ""
    /\ extract payload = Ok req
    /\ CodeGenerator.generate_app_code w (brief req) (checks req) (attachments req)
       = Ok app_code
    /\ GithubManager.create_and_deploy_repo w (task req) app_code (brief req)
         (checks req) = Ok info
    /\ body !! "repo_url" = Some (GithubManager.repo_url info)
    /\ body !! "pages_url" = Some (GithubManager.pages_url info)
    /\ (body !! "status" = Some "success"
        /\ body !! "commit_sha" = Some (GithubManager.commit_sha info)
        \/ body !! "status" = Some "partial_success"
           /\ is_Some (body !! "error") /\ body !! "commit_sha" = None).
Proof.
  unfold deploy_body. destruct request_json as [v|]; cbn [mbind result_bind];
    [|discriminate].
  destruct (falsy v); [discriminate|].
  destruct v as [| | | | | |payload]; try discriminate.
  destruct (validate_request payload) as [[[] msg]|] eqn:Hvalid;
    cbn [mbind result_bind negb]; [|discriminate|discriminate].
  destruct (verify_secret _ _) eqn:Hsecret; cbn [negb]; [|discriminate].
  destruct (extract payload) as [req|] eqn:Hreq; cbn [mbind result_bind];
    [|discriminate].
  destruct (CodeGenerator.generate_app_code _ _ _ _) as [code|] eqn:Hcode;
    cbn [mbind result_bind]; [|discriminate].
  destruct (GithubManager.create_and_deploy_repo _ _ _ _ _) as [info|] eqn:Hinfo;
    cbn [mbind result_bind]; [|discriminate].
  intros Hreply. exists payload, req, code, info.
  split; [reflexivity|].
  destruct (validate_request_accepted _ _ Hvalid) as [-> _].
  split; [exact Hvalid|].
  assert (Hs : payload !! "secret" = Some (PStr (STUDENT_SECRET w))
               /\ STUDENT_SECRET w <> "").
  { revert Hsecret. unfold verify_secret, eq_str.
    destruct (STUDENT_SECRET w) as [|c s]; [discriminate|].
    cbn [String.length Nat.eqb].
    destruct (payload !! "secret") as [[| | | |p| |]|]; cbn [default from_option id];
      try discriminate.
    destruct (String.eqb p (String c s)) eqn:Heq; [|discriminate].
    apply String.eqb_eq in Heq. subst. split; [reflexivity|discriminate]. }
  split; [exact (proj1 Hs)|]. split; [exact (proj2 Hs)|].
  split; [exact Hreq|]. split; [exact Hcode|]. split; [exact Hinfo|].
  revert Hreply.
  destruct (snd (notify w req info)) as [r|]; cbn [mbind result_bind]; [|discriminate].
  destruct (Evaluator.success r).
  - intros [= <-]. split; [reflexivity|]. split; [reflexivity|]. left.
    split; reflexivity.
  - destruct (Evaluator.error r) as [msg|]; cbn [mbind result_bind]; [|discriminate].
    intros [= <-]. split; [reflexivity|]. split; [reflexivity|]. right.
    split; [reflexivity|]. split; [eexists; reflexivity | reflexivity].
Qed.

Lemma deploy_handler_status (request_json : result pyval) :
  snd (deploy w request_json) = 200 ->
  exists body, deploy_body w request_json = Ok (body, 200)
               /\ deploy w request_json = (body, 200).
Proof.
  unfold deploy. destruct (deploy_body w request_json) as [[body code]|];
    [|discriminate].
  cbn [snd]. intros ->. eauto.
Qed.

(** What the notifier returns, by whether some attempt is accepted. *)
Lemma notify_reachable (req : request) (info : GithubManager.repo_info) :
  (Notification.reachable w (evaluation_url req) = true
   /\ exists v, snd (notify w req info) = Ok (Evaluator.succeeded v))
  \/ (Notification.reachable w (evaluation_url req) = false
      /\ snd (notify w req info)
         = Ok (Evaluator.failed
                 (Notification.cause w
                    (evaluation_post w (evaluation_url req) 4%nat)))).
Proof.
  unfold notify. rewrite notify_evaluation_api_loop.
  destruct (notify_loop_run w (evaluation_url req)
              (Notification.body (email req) (PStr (task req)) (round_num req)
                 (nonce req) (GithubManager.repo_url info)
                 (GithubManager.commit_sha info) (GithubManager.pages_url info)))
    as [(k & v & Hk & _ & Hat & ->) | (msg & Hall & Hstep & ->)].
  - left. split; [|eauto].
    unfold Notification.reachable. apply existsb_exists. exists k.
    split; [apply in_seq; unfold Evaluator.MAX_RETRIES; lia|].
    rewrite Hat. reflexivity.
  - right. split.
    + unfold Notification.reachable.
      destruct (existsb _ _) eqn:Hex; [|reflexivity].
      apply existsb_exists in Hex as (k & Hin & Hk).
      apply in_seq in Hin. unfold Evaluator.MAX_RETRIES in Hin.
      rewrite (Hall k) in Hk by lia. discriminate.
    + rewrite (attempt_step_refused_cause w _ (Hall 4%nat (Nat.le_refl 4))) in Hstep.
      injection Hstep as <-. reflexivity.
Qed.

End Endpoint.

(** X8. The endpoint answers with one of four status codes: 200, 400, 403
    or 500, whatever the request and whatever the services do. *)
Theorem deploy_status_codes (w : world) (request_json : result pyval) :
  In (snd (App.deploy w request_json)) [200; 400; 403; 500].
Proof.
  unfold App.deploy.
  destruct (App.deploy_body w request_json) as [reply|] eqn:Hbody.
  - pose proof (deploy_body_codes w _ _ Hbody) as Hin. simpl in Hin |- *.
    intuition.
  - simpl. auto.
Qed.

(** X9. An answer with status 200 means that the work was done: the request
    was a JSON object that [validate_request] accepts, its secret is the
    configured one, which is not empty, the code was generated and the
    repository was created. The body carries the urls of that repository,
    and either the status [success] with the commit, or the status
    [partial_success] with an error and no commit. *)
Theorem deploy_ok_inversion (w : world) (request_json : result pyval) :
  snd (App.deploy w request_json) = 200 ->
  exists payload req app_code info,
    request_json = Ok (PDict payload)
    /\ Validator.validate_request payload = Ok (true, "")
    /\ payload !! "secret" = Some (PStr (App.STUDENT_SECRET w))
    /\ App.STUDENT_SECRET w <> ""
    /\ App.extract payload = Ok req
    /\ CodeGenerator.generate_app_code w (App.brief req) (App.checks req)
         (App.attachments req) = Ok app_code
    /\ GithubManager.create_and_deploy_repo w (App.task req) app_code
         (App.brief req) (App.checks req) = Ok info
    /\ let body := fst (App.deploy w request_json) in
       body !! "repo_url" = Some (GithubManager.repo_url info)
       /\ body !! "pages_url" = Some (GithubManager.pages_url info)
       /\ (body !! "status" = Some "success"
           /\ body !! "commit_sha" = Some (GithubManager.commit_sha info)
           \/ body !! "status" = Some "partial_success"
              /\ is_Some (body !! "error") /\ body !! "commit_sha" = None).
Proof.
  intros Hstatus.
  destruct (deploy_handler_status w _ Hstatus) as (body & Hbody & ->).
  destruct (deploy_body_published w _ _ Hbody)
    as (payload & req & code & info & H1 & H2 & H3 & H4 & H5 & H6 & H7 & H8).
  exists payload, req, code, info. cbn [fst]. repeat (split; [assumption|]).
  exact H8.
Qed.

(** The scenario request, in the world where every service accepts. *)
Lemma deploy_ok_inversion_witness :
  snd (App.deploy Closed.accepting (Ok (PDict Closed.request))) = 200
  /\ exists payload req app_code info,
       Ok (PDict Closed.request) = Ok (PDict payload)
       /\ Validator.validate_request payload = Ok (true, "")
       /\ payload !! "secret" = Some (PStr (App.STUDENT_SECRET Closed.accepting))
       /\ App.STUDENT_SECRET Closed.accepting <> ""
       /\ App.extract payload = Ok req
       /\ CodeGenerator.generate_app_code Closed.accepting (App.brief req)
            (App.checks req) (App.attachments req) = Ok app_code
       /\ GithubManager.create_and_deploy_repo Closed.accepting (App.task req)
            app_code (App.brief req) (App.checks req) = Ok info
       /\ let body := fst (App.deploy Closed.accepting (Ok (PDict Closed.request))) in
          body !! "repo_url" = Some (GithubManager.repo_url info)
          /\ body !! "pages_url" = Some (GithubManager.pages_url info)
          /\ (body !! "status" = Some "success"
              /\ body !! "commit_sha" = Some (GithubManager.commit_sha info)
              \/ body !! "status" = Some "partial_success"
                 /\ is_Some (body !! "error") /\ body !! "commit_sha" = None).
Proof.
  assert (H : snd (App.deploy Closed.accepting (Ok (PDict Closed.request))) = 200)
    by (vm_compute; reflexivity).
  split; [exact H|].
  exact (deploy_ok_inversion Closed.accepting (Ok (PDict Closed.request)) H).
Defined.


(** X11. Once a request is validated and authenticated, its code generated and
    its repository published, the endpoint answers 200 and the notification
    alone decides the body: [success] with the commit when the evaluation
    endpoint accepts one of the five attempts, and otherwise
    [partial_success] with the cause of the fifth failure. *)
Theorem deploy_published_reply
    (w : world) (payload : gmap string pyval) (reason : string)
    (req : App.request) (app_code : gmap string string)
    (info : GithubManager.repo_info) :
  Validator.validate_request payload = Ok (true, reason) ->
  Validator.verify_secret (default (PStr "") (payload !! "secret"))
    (Some (App.STUDENT_SECRET w)) = true ->
  App.extract payload = Ok req ->
  CodeGenerator.generate_app_code w (App.brief req) (App.checks req)
    (App.attachments req) = Ok app_code ->
  GithubManager.create_and_deploy_repo w (App.task req) app_code
    (App.brief req) (App.checks req) = Ok info ->
  App.deploy w (Ok (PDict payload))
  = if Notification.reachable w (App.evaluation_url req)
    then App.success_reply info
    else App.partial_success_reply info
           (Notification.cause w
              (evaluation_post w (App.evaluation_url req) 4%nat)).
Proof.
  intros Hvalid Hsecret Hextract Hcode Hinfo. unfold App.deploy.
  rewrite (deploy_body_admitted w payload reason req Hvalid Hsecret Hextract).
  rewrite Hcode. cbn [mbind result_bind]. rewrite Hinfo. cbn [mbind result_bind].
  destruct (notify_reachable w req info) as [[-> [v ->]] | [-> ->]]; reflexivity.
Qed.


(** The evaluation endpoint is busy twice and then accepts. *)
Lemma deploy_published_reply_witness :
  App.deploy Scenario.recovering (Ok (PDict Closed.request))
  = App.success_reply Closed.published.
Proof.
  apply (deploy_published_reply Scenario.recovering Closed.request ""
           Closed.details
           (CodeGenerator.template "digital clock" [PStr "has title"])
           Closed.published);
    vm_compute; reflexivity.
Defined.

(** X12. A request without a usable JSON object never reaches validation:
    when reading the JSON raises, the endpoint answers 500 with the text of
    the exception; a body that Python counts as false (null, false, 0, an
    empty string, list or object) is answered 400; any other value that is
    not an object is answered 500, because [payload.get] does not exist. *)
Theorem deploy_without_object (w : world) (request_json : result pyval) :
  (forall payload, request_json = Ok (PDict payload) -> payload = ∅) ->
  App.deploy w request_json
  = match request_json with
    | Raise e =>
        (<["error" := "Internal server error"]> (<["message" := str_exn w e]> ∅), 500)
    | Ok v =>
        if Py.falsy v then ({["error" := "No JSON payload provided"]}, 400)
        else (<["error" := "Internal server error"]>
              (<["message" := str_exn w AttributeError]> ∅), 500)
    end.
Proof.
  intros Hempty. unfold App.deploy, App.deploy_body.
  destruct request_json as [v|e]; [|reflexivity].
  cbn [mbind result_bind].
  destruct v; try (destruct (Py.falsy _); reflexivity).
  rewrite (Hempty d eq_refl). reflexivity.
Qed.

(** A JSON list in place of the object. *)
Lemma deploy_without_object_witness :
  App.deploy Closed.accepting (Ok (PList [PInt 1]))
  = (<["error" := "Internal server error"]>
     (<["message" := "AttributeError"]> ∅), 500).
Proof.
  apply (deploy_without_object Closed.accepting (Ok (PList [PInt 1]))).
  intros payload H. discriminate H.
Defined.


(** * More properties of the code generator *)

Section Finding.

Import Completion.

Lemma length_app (s t : string) :
  String.length (s +:+ t) = (String.length s + String.length t)%nat.
Proof.
  induction s as [|c s IH]; [reflexivity|].
  rewrite app_cons. cbn [String.length]. rewrite IH. reflexivity.
Qed.

Lemma index_prefix (c : ascii) (x q : string) :
  String.index 0 (String c x) (String c x +:+ q) = Some 0%nat.
Proof.
  rewrite app_cons. cbn [String.index].
  replace (String.prefix (String c x) (String c (x +:+ q))) with true; [reflexivity|].
  symmetry. apply String.prefix_correct. rewrite <- app_cons. apply substring_prefix.
Qed.

(** A search from the end of a prefix is a search in the rest. *)
Lemma index_from (x pre rest : string) :
  String.index (String.length pre) x (pre +:+ rest)
  = match String.index 0 x rest with
    | Some i => Some (String.length pre + i)%nat
    | None => None
    end.
Proof.
  induction pre as [|b pre IH].
  - change ("" +:+ rest) with rest. cbn [String.length].
    destruct (String.index 0 x rest); reflexivity.
  - rewrite app_cons. cbn [String.length String.index]. rewrite IH.
    destruct (String.index 0 x rest); reflexivity.
Qed.

(** No fence starts in a text without backquote. *)
Lemma index_plain (x pre rest : string) :
  plain pre = true ->
  String.index 0 (String "`" x) (pre +:+ rest)
  = match String.index 0 (String "`" x) rest with
    | Some i => Some (String.length pre + i)%nat
    | None => None
    end.
Proof.
  unfold plain. induction pre as [|b pre IH]; intros Hplain.
  - change ("" +:+ rest) with rest. cbn [String.length].
    destruct (String.index 0 _ rest); reflexivity.
  - cbn [Str.any] in Hplain. apply negb_true_iff, orb_false_iff in Hplain as [Hb Hpre].
    rewrite app_cons. cbn [String.length String.index String.prefix].
    destruct (ascii_dec "`" b) as [<-|_]; [discriminate|].
    rewrite IH by (rewrite Hpre; reflexivity).
    destruct (String.index 0 _ rest); reflexivity.
Qed.

Lemma index_plain_none (x body : string) :
  plain body = true -> String.index 0 (String "`" x) body = None.
Proof.
  intros Hplain. rewrite <- (app_nil_r body), (index_plain _ _ _ Hplain). reflexivity.
Qed.

Lemma clip_inside (len i : nat) : (i <= len)%nat -> Str.clip len (Z.of_nat i) = i.
Proof.
  intros Hi. unfold Str.clip.
  destruct (Z.ltb_spec (Z.of_nat i) 0); lia.
Qed.

Lemma clip_last (len : nat) : Str.clip len (-1) = (len - 1)%nat.
Proof. unfold Str.clip. cbn [Z.ltb Z.compare]. lia. Qed.

Lemma slice_middle (pre body post : string) :
  Str.slice (pre +:+ body +:+ post) (Z.of_nat (String.length pre))
    (Z.of_nat (String.length pre + String.length body)) = body.
Proof.
  unfold Str.slice. rewrite !clip_inside by (rewrite !length_app; lia).
  replace (String.length pre + String.length body - String.length pre)%nat
    with (String.length body) by lia.
  rewrite substring_skip. apply substring_prefix.
Qed.

Lemma slice_but_last (pre body : string) :
  Str.slice (pre +:+ body) (Z.of_nat (String.length pre)) (-1)
  = Str.take (String.length body - 1) body.
Proof.
  unfold Str.slice. rewrite clip_last, clip_inside by (rewrite length_app; lia).
  rewrite length_app.
  replace (String.length pre + String.length body - 1 - String.length pre)%nat
    with (String.length body - 1)%nat by lia.
  apply substring_skip.
Qed.

End Finding.

Section Fences.

Import Completion CodeGenerator.

Variables pre body : string.
Hypothesis Hpre : plain pre = true.
Hypothesis Hbody : plain body = true.

Lemma find_fence (rest : string) :
  Str.find "```html" (pre +:+ "```html" +:+ rest) 0 = Z.of_nat (String.length pre).
Proof.
  unfold Str.find. rewrite (index_plain _ _ _ Hpre), index_prefix.
  rewrite Nat.add_0_r. reflexivity.
Qed.

Lemma find_closing (post : string) :
  Str.find "```" (pre +:+ "```html" +:+ body +:+ "```" +:+ post)
    (String.length pre + 7)
  = Z.of_nat (String.length pre + 7 + String.length body).
Proof.
  unfold Str.find.
  rewrite <- (app_assoc pre "```html").
  change (String.length pre + 7)%nat
    with (String.length pre + String.length "```html")%nat.
  rewrite <- length_app, index_from, (index_plain _ _ _ Hbody), index_prefix.
  rewrite Nat.add_0_r. reflexivity.
Qed.

Lemma find_no_closing :
  Str.find "```" (pre +:+ "```html" +:+ body) (String.length pre + 7) = -1.
Proof.
  unfold Str.find.
  rewrite <- (app_assoc pre "```html").
  change (String.length pre + 7)%nat
    with (String.length pre + String.length "```html")%nat.
  rewrite <- length_app, index_from, (index_plain_none _ _ Hbody). reflexivity.
Qed.

End Fences.

(** X13. The page of a completion is the text between the first [```html]
    fence and the next fence, without the white space around it: for a
    completion made of a text without backquote, the opening fence, a body
    without backquote, a closing fence and anything after it,
    [parse_llm_response] returns the stripped body as [index.html]. *)
Theorem parse_text_fenced_page (pre body post : string) :
  Completion.plain pre = true ->
  Completion.plain body = true ->
  CodeGenerator.parse_text (pre +:+ "```html" +:+ body +:+ "```" +:+ post)
    !! "index.html"
  = Some (Str.strip Str.isspace body).
Proof.
  intros Hpre Hbody. unfold CodeGenerator.parse_text.
  rewrite lookup_insert_eq. f_equal.
  rewrite (contains_infix pre "```html").
  rewrite (find_fence pre Hpre).
  replace (Z.to_nat (Z.of_nat (String.length pre) + 7))
    with (String.length pre + 7)%nat by lia.
  rewrite (find_closing pre body Hbody). f_equal.
  replace (Z.of_nat (String.length pre) + 7)
    with (Z.of_nat (String.length (pre +:+ "```html")))
    by (rewrite length_app; cbn [String.length]; lia).
  replace (Z.of_nat (String.length pre + 7 + String.length body))
    with (Z.of_nat (String.length (pre +:+ "```html") + String.length body))
    by (rewrite length_app; cbn [String.length]; lia).
  rewrite <- (app_assoc pre "```html"). apply slice_middle.
Qed.

(** The completion of the scenario. *)
Lemma parse_text_fenced_page_witness :
  CodeGenerator.parse_text Closed.page_only !! "index.html" = Some "<html>X</html>".
Proof.
  exact (parse_text_fenced_page ("Here is the page:" +:+ nl)
           (nl +:+ "<html>X</html>" +:+ nl) "" eq_refl eq_refl).
Defined.

(** X14. When the [```html] fence is never closed, the search for the closing
    fence gives -1 and the slice stops before the last character: the page is
    the rest of the completion without its last character, stripped. *)
Theorem parse_text_unclosed_fence (pre body : string) :
  Completion.plain pre = true ->
  Completion.plain body = true ->
  CodeGenerator.parse_text (pre +:+ "```html" +:+ body) !! "index.html"
  = Some (Str.strip Str.isspace (Str.take (String.length body - 1) body)).
Proof.
  intros Hpre Hbody. unfold CodeGenerator.parse_text.
  rewrite lookup_insert_eq. f_equal.
  rewrite <- (app_nil_r body) at 1 2 3.
  rewrite (contains_infix pre "```html"), (find_fence pre Hpre), !app_nil_r.
  replace (Z.to_nat (Z.of_nat (String.length pre) + 7))
    with (String.length pre + 7)%nat by lia.
  rewrite (find_no_closing pre body Hbody). f_equal.
  replace (Z.of_nat (String.length pre) + 7)
    with (Z.of_nat (String.length (pre +:+ "```html")))
    by (rewrite length_app; cbn [String.length]; lia).
  rewrite <- (app_assoc pre "```html"). apply slice_but_last.
Qed.

(** A page cut after its last tag loses the final [>]. *)
Lemma parse_text_unclosed_fence_witness :
  CodeGenerator.parse_text ("Page:" +:+ "```html" +:+ "<html>X</html>")
    !! "index.html"
  = Some "<html>X</html".
Proof.
  exact (parse_text_unclosed_fence "Page:" "<html>X</html>" eq_refl eq_refl).
Defined.

Section Artifacts.

Import Py CodeGenerator Completion.

Lemma parse_text_artifact (s : string) :
  exists page readme, parse_text s = artifact page readme.
Proof. eexists _, _. reflexivity. Qed.

Lemma parse_llm_response_artifact (v : pyval) (code : gmap string string) :
  parse_llm_response v = Ok code ->
  exists page readme, code = artifact page readme.
Proof.
  unfold parse_llm_response, or_else. intros H.
  destruct v; try (injection H as <-; apply parse_text_artifact);
    cbn [Py.contains mbind result_bind] in H; try discriminate H;
    repeat (case_match; cbn [mbind result_bind] in H; try discriminate H);
    injection H as <-; eexists _, _; reflexivity.
Qed.

Variable w : world.

Lemma generate_with_aipipe_artifact (prompt : string) (code : gmap string string) :
  generate_with_aipipe w prompt = Ok code ->
  exists page readme, code = artifact page readme.
Proof.
  unfold generate_with_aipipe.
  destruct (aipipe_post w prompt) as [r|]; cbn [mbind result_bind]; [|discriminate].
  destruct (negb (status_code r =? 200)); [discriminate|].
  destruct (json r) as [v|]; cbn [mbind result_bind]; [|discriminate].
  destruct (subscript v "choices") as [choices|]; cbn [mbind result_bind];
    [|discriminate].
  destruct (first_item choices) as [choice|]; cbn [mbind result_bind]; [|discriminate].
  destruct (subscript choice "message") as [message|]; cbn [mbind result_bind];
    [|discriminate].
  destruct (subscript message "content") as [content|]; cbn [mbind result_bind];
    [|discriminate].
  apply parse_llm_response_artifact.
Qed.

Lemma generate_template_code_artifact (brief : string) (checks : list pyval)
    (attachments : list decoded) (code : gmap string string) :
  generate_template_code brief checks attachments = Ok code ->
  exists page readme, code = artifact page readme.
Proof.
  unfold generate_template_code.
  destruct (match checks with [] => _ | _ => _ end) as [requirements|];
    cbn [mbind result_bind]; [|discriminate].
  intros [= <-]. eexists _, _. reflexivity.
Qed.

Lemma generate_app_code_artifact (brief : string) (checks attachments : list pyval)
    (code : gmap string string) :
  generate_app_code w brief checks attachments = Ok code ->
  exists page readme, code = artifact page readme.
Proof.
  unfold generate_app_code.
  destruct (decode_attachments w attachments) as [decoded|]; cbn [mbind result_bind];
    [|discriminate].
  unfold try_except.
  destruct (if Str.truthy (AIPIPE_API_KEY w) then _ else _) as [code'|e] eqn:Hbackend.
  - intros [= <-]. revert Hbackend.
    destruct (Str.truthy (AIPIPE_API_KEY w)); [apply generate_with_aipipe_artifact|].
    destruct (Str.truthy (ANTHROPIC_API_KEY w)); [discriminate|].
    destruct (Str.truthy (OPENAI_API_KEY w)); [discriminate|].
    apply generate_template_code_artifact.
  - apply generate_template_code_artifact.
Qed.

(** What [push_files_to_repo] writes for an artifact. *)
Lemma working_tree_artifact (tree : gmap string string) (page readme brief : string)
    (checks : list pyval) :
  GithubManager.working_tree w tree (artifact page readme) brief checks
  = <["LICENSE" := GithubManager.get_mit_license w]>
      (<["README.md" := readme]>
         (if Str.truthy page then <["index.html" := page]> tree else tree)).
Proof. reflexivity. Qed.

End Artifacts.

(** X15. Whatever [generate_app_code] returns has exactly two members, a page
    under [index.html] and a README under [README.md], whichever backend
    answered. So [push_files_to_repo] always writes that README, never the
    one of [generate_readme]; it writes the license, and it writes the page
    only when the page is not empty. *)
Theorem generated_artifact_is_written
    (w : world) (brief : string) (checks attachments : list pyval)
    (code : gmap string string) :
  CodeGenerator.generate_app_code w brief checks attachments = Ok code ->
  exists page readme,
    code = Completion.artifact page readme
    /\ forall tree,
         GithubManager.working_tree w tree code brief checks
         = <["LICENSE" := GithubManager.get_mit_license w]>
             (<["README.md" := readme]>
                (if Str.truthy page then <["index.html" := page]> tree else tree)).
Proof.
  intros Hcode.
  destruct (generate_app_code_artifact w _ _ _ _ Hcode) as (page & readme & ->).
  exists page, readme. split; [reflexivity|].
  intros tree. apply working_tree_artifact.
Qed.

(** The completion of the scenario has a page and no README. *)
Lemma generated_artifact_is_written_witness :
  exists page readme,
    Completion.artifact "<html>X</html>" "" = Completion.artifact page readme
    /\ forall tree,
         GithubManager.working_tree Closed.answering tree
           (Completion.artifact "<html>X</html>" "") "digital clock"
           [PStr "has title"]
         = <["LICENSE" := GithubManager.get_mit_license Closed.answering]>
             (<["README.md" := readme]>
                (if Str.truthy page then <["index.html" := page]> tree else tree)).
Proof.
  apply (generated_artifact_is_written Closed.answering "digital clock"
           [PStr "has title"] []).
  vm_compute. reflexivity.
Defined.

Section Backend.

Import Py CodeGenerator.

Variable w : world.
Variable prompt : string.

Lemma generate_with_aipipe_status (r : response) :
  aipipe_post w prompt = Ok r -> status_code r <> 200 ->
  exists e, generate_with_aipipe w prompt = Raise e.
Proof.
  intros Hr Hstatus. unfold generate_with_aipipe. rewrite Hr.
  cbn [mbind result_bind].
  destruct (Z.eqb_spec (status_code r) 200); [contradiction|].
  eexists. reflexivity.
Qed.

Lemma generate_with_aipipe_unreachable (e : exn) :
  aipipe_post w prompt = Raise e -> generate_with_aipipe w prompt = Raise e.
Proof. intros Hr. unfold generate_with_aipipe. rewrite Hr. reflexivity. Qed.

Lemma generate_with_aipipe_content (r : response) (d choice message : gmap string pyval)
    (others : list pyval) (content : string) :
  aipipe_post w prompt = Ok r ->
  status_code r = 200 ->
  json r = Ok (PDict d) ->
  d !! "choices" = Some (PList (PDict choice :: others)) ->
  choice !! "message" = Some (PDict message) ->
  message !! "content" = Some (PStr content) ->
  generate_with_aipipe w prompt = Ok (parse_text content).
Proof.
  intros Hr Hstatus Hjson Hchoices Hmessage Hcontent.
  unfold generate_with_aipipe. rewrite Hr. cbn [mbind result_bind].
  rewrite Hstatus, Hjson. cbn [Z.eqb Pos.eqb negb mbind result_bind subscript].
  unfold getitem. rewrite Hchoices. cbn [mbind result_bind first_item subscript].
  unfold getitem. rewrite Hmessage. cbn [mbind result_bind subscript].
  unfold getitem. rewrite Hcontent. reflexivity.
Qed.

Lemma generate_app_code_backend (brief : string) (checks attachments : list pyval)
    (code : gmap string string) :
  forallb is_dict attachments = true ->
  Str.truthy (AIPIPE_API_KEY w) = true ->
  generate_with_aipipe w
    (build_generation_prompt w brief checks (omap (kept w) attachments)) = Ok code ->
  generate_app_code w brief checks attachments = Ok code.
Proof.
  intros Hd Hkey Hcode. unfold generate_app_code.
  rewrite (decode_attachments_dicts w _ Hd). cbn [mbind result_bind].
  rewrite Hkey, Hcode. reflexivity.
Qed.

End Backend.

(** X16. When the AI Pipeline is configured and answers 200 with a completion
    whose first choice has a string as the content of its message, the
    artifact is what [parse_llm_response] makes of that string, for checks of
    any type. The template is not used, even when the page found is empty. *)
Theorem generate_app_code_uses_completion
    (w : world) (brief : string) (checks attachments : list pyval)
    (r : response) (d choice message : gmap string pyval) (others : list pyval)
    (content : string) :
  forallb Py.is_dict attachments = true ->
  Str.truthy (CodeGenerator.AIPIPE_API_KEY w) = true ->
  aipipe_post w
    (CodeGenerator.build_generation_prompt w brief checks
       (omap (CodeGenerator.kept w) attachments)) = Ok r ->
  status_code r = 200 ->
  json r = Ok (PDict d) ->
  d !! "choices" = Some (PList (PDict choice :: others)) ->
  choice !! "message" = Some (PDict message) ->
  message !! "content" = Some (PStr content) ->
  CodeGenerator.generate_app_code w brief checks attachments
  = Ok (CodeGenerator.parse_text content).
Proof.
  intros Hd Hkey Hr Hstatus Hjson Hchoices Hmessage Hcontent.
  apply generate_app_code_backend; [exact Hd | exact Hkey |].
  exact (generate_with_aipipe_content w _ r d choice message others content
           Hr Hstatus Hjson Hchoices Hmessage Hcontent).
Qed.

(** The scenario with a check that is a number: the completion is used. *)
Lemma generate_app_code_uses_completion_witness :
  CodeGenerator.generate_app_code Closed.answering "digital clock" [PInt 1] []
  = Ok (CodeGenerator.parse_text Closed.page_only).
Proof.
  apply (generate_app_code_uses_completion Closed.answering "digital clock"
           [PInt 1] []
           {| status_code := 200; text := ""; has_content := true;
              json := Ok (PDict {["choices" :=
                        PList [PDict {["message" :=
                          PDict {["content" := PStr Closed.page_only]}]}]]}) |}
           {["choices" := PList [PDict {["message" :=
              PDict {["content" := PStr Closed.page_only]}]}]]}
           {["message" := PDict {["content" := PStr Closed.page_only]}]}
           {["content" := PStr Closed.page_only]} [] Closed.page_only);
    reflexivity.
Defined.

(** X17. For attachments that are dicts and checks that are strings, the
    generator returns the template whenever the AI Pipeline is not
    configured, cannot be reached, or answers with a status other than 200.
    The keys of the two other backends change nothing. The page of the
    template is not empty and shows the brief as it is; its README shows the
    brief and every check. *)
Theorem generate_app_code_template_fallback
    (w : world) (brief : string) (checks attachments : list pyval) :
  forallb Py.is_dict attachments = true ->
  forallb Py.is_str checks = true ->
  Str.truthy (CodeGenerator.AIPIPE_API_KEY w) = false
  \/ (exists e,
        aipipe_post w
          (CodeGenerator.build_generation_prompt w brief checks
             (omap (CodeGenerator.kept w) attachments)) = Raise e)
  \/ (exists r,
        aipipe_post w
          (CodeGenerator.build_generation_prompt w brief checks
             (omap (CodeGenerator.kept w) attachments)) = Ok r
        /\ status_code r <> 200) ->
  exists page readme,
    CodeGenerator.generate_app_code w brief checks attachments
    = Ok (Completion.artifact page readme)
    /\ page = CodeGenerator.html_template brief
    /\ Str.truthy page = true
    /\ Str.contains brief page = true
    /\ Str.contains brief readme = true
    /\ forall check, In (PStr check) checks ->
         Str.contains ("- " +:+ check) readme = true.
Proof.
  intros Hd Hs Hcause.
  exists (CodeGenerator.html_template brief),
    (CodeGenerator.readme_template brief (CodeGenerator.requirements checks)).
  split.
  { apply generate_app_code_falls_back; [exact Hd | exact Hs |].
    intros Hkey. destruct Hcause as [Hno | [[e He] | (r & Hr & Hstatus)]].
    - congruence.
    - exists e. apply generate_with_aipipe_unreachable, He.
    - exact (generate_with_aipipe_status w _ r Hr Hstatus). }
  split; [reflexivity|].
  split; [apply html_template_embeds_brief|].
  split; [apply html_template_embeds_brief|].
  split; [apply (readme_template_embeds brief checks "")|].
  intros check. apply readme_template_embeds.
Qed.

(** Only the Anthropic key is configured; and the AI Pipeline answers 502. *)
Lemma generate_app_code_template_fallback_witness :
  (exists page readme,
     CodeGenerator.generate_app_code Backends.anthropic_only "digital clock"
       [PStr "has title"] [] = Ok (Completion.artifact page readme)
     /\ page = CodeGenerator.html_template "digital clock"
     /\ Str.truthy page = true
     /\ Str.contains "digital clock" page = true
     /\ Str.contains "digital clock" readme = true
     /\ forall check, In (PStr check) [PStr "has title"] ->
          Str.contains ("- " +:+ check) readme = true)
  /\ (exists page readme,
        CodeGenerator.generate_app_code Backends.bad_gateway "digital clock"
          [PStr "has title"] [] = Ok (Completion.artifact page readme)
        /\ page = CodeGenerator.html_template "digital clock"
        /\ Str.truthy page = true
        /\ Str.contains "digital clock" page = true
        /\ Str.contains "digital clock" readme = true
        /\ forall check, In (PStr check) [PStr "has title"] ->
             Str.contains ("- " +:+ check) readme = true).
Proof.
  split.
  - apply (generate_app_code_template_fallback Backends.anthropic_only
             "digital clock" [PStr "has title"] []); [reflexivity | reflexivity |].
    left. reflexivity.
  - apply (generate_app_code_template_fallback Backends.bad_gateway
             "digital clock" [PStr "has title"] []); [reflexivity | reflexivity |].
    right. right. eexists. split; [reflexivity|]. discriminate.
Defined.

Section Accepted.

Import Py Validator CodeGenerator.

Lemma attachment_is_dict (l : list pyval) :
  Forall Wellformed.attachment l -> forallb is_dict l = true.
Proof.
  induction 1 as [|a l (d & -> & _) _ IH]; [reflexivity|].
  cbn [forallb is_dict]. exact IH.
Qed.

(** The attachments that [deploy] passes on are those of the payload. *)
Lemma extract_attachments (payload : gmap string pyval) (req : App.request) :
  App.extract payload = Ok req ->
  App.get_list payload "attachments" = Ok (App.attachments req).
Proof.
  unfold App.extract. intros H.
  repeat (match type of H with
          | (?m ≫= _) = _ => destruct m; cbn [mbind result_bind] in H;
                             [|discriminate H]
          end).
  injection H as <-. reflexivity.
Qed.

Lemma accepted_attachments (payload : gmap string pyval) (reason : string)
    (req : App.request) :
  validate_request payload = Ok (true, reason) ->
  App.extract payload = Ok req ->
  forallb is_dict (App.attachments req) = true.
Proof.
  intros Hvalid Hreq. apply extract_attachments in Hreq.
  destruct (validate_request_accepted _ _ Hvalid) as (_ & _ & Hatt).
  unfold App.get_list in Hreq.
  destruct Hatt as [Hnone | (l & Hl & Hall)].
  - rewrite Hnone in Hreq. injection Hreq as <-. reflexivity.
  - rewrite Hl in Hreq. injection Hreq as <-. apply attachment_is_dict, Hall.
Qed.

Lemma generate_app_code_returns (w : world) (brief : string)
    (checks attachments : list pyval) :
  forallb is_dict attachments = true ->
  forallb is_str checks = true ->
  exists code, generate_app_code w brief checks attachments = Ok code.
Proof.
  intros Hd Hs. unfold generate_app_code.
  rewrite (decode_attachments_dicts w _ Hd). cbn [mbind result_bind].
  rewrite (generate_template_code_strings _ _ _ Hs). unfold try_except.
  destruct (if Str.truthy (AIPIPE_API_KEY w) then _ else _); eexists; reflexivity.
Qed.

End Accepted.

(** X18. For a request that [validate_request] accepts and whose checks are
    all strings, [generate_app_code] returns an artifact and never raises,
    whatever the attachments hold and whatever the backend does: the
    attachments are dicts, so decoding them cannot raise, and every failure
    of the backend ends in the template. *)
Theorem generate_app_code_total_for_accepted
    (w : world) (payload : gmap string pyval) (reason : string)
    (req : App.request) :
  Validator.validate_request payload = Ok (true, reason) ->
  App.extract payload = Ok req ->
  forallb Py.is_str (App.checks req) = true ->
  exists page readme,
    CodeGenerator.generate_app_code w (App.brief req) (App.checks req)
      (App.attachments req) = Ok (Completion.artifact page readme).
Proof.
  intros Hvalid Hreq Hs.
  destruct (generate_app_code_returns w (App.brief req) (App.checks req)
              (App.attachments req) (accepted_attachments _ _ _ Hvalid Hreq) Hs)
    as [code Hcode].
  destruct (generate_app_code_artifact w _ _ _ _ Hcode) as (page & readme & ->).
  exists page, readme. exact Hcode.
Qed.

(** The scenario request with a link, a data URI that does not decode and
    one that does, in a world whose backend cannot be reached. *)
Lemma generate_app_code_total_for_accepted_witness :
  let payload :=
    Attached.request
      [ PDict (<["name" := PStr "c.png"]> (<["url" := PStr "http://files.test/c.png"]> ∅));
        PDict (<["name" := PStr "b.txt"]> (<["url" := PStr "data:text/plain;base64,aGk"]> ∅));
        Attached.sample ] in
  exists req,
    App.extract payload = Ok req
    /\ exists page readme,
         CodeGenerator.generate_app_code Closed.failing_backend (App.brief req)
           (App.checks req) (App.attachments req)
         = Ok (Completion.artifact page readme).
Proof.
  intros payload.
  assert (Hvalid : Validator.validate_request payload = Ok (true, ""))
    by (vm_compute; reflexivity).
  destruct (validated_extract payload "" Hvalid) as [req Hreq].
  exists req. split; [exact Hreq|].
  apply (generate_app_code_total_for_accepted Closed.failing_backend payload ""
           req Hvalid Hreq).
  revert Hreq. vm_compute. intros [= <-]. reflexivity.
Defined.

Section Prompt.

Import CodeGenerator.

Lemma occurs_app_l (x s t : string) : Str.occurs x s -> Str.occurs x (s +:+ t).
Proof.
  intros (p & q & ->). exists p, (q +:+ t). rewrite !app_assoc. reflexivity.
Qed.

Lemma occurs_app_r (x s t : string) : Str.occurs x t -> Str.occurs x (s +:+ t).
Proof.
  intros (p & q & ->). exists (s +:+ p), q. rewrite !app_assoc. reflexivity.
Qed.

Lemma occurs_refl (x : string) : Str.occurs x x.
Proof. exists "", "". rewrite app_nil_r. reflexivity. Qed.

Lemma occurs_concat (l : list string) (x : string) :
  In x l -> Str.occurs x (String.concat "" l).
Proof. intros Hin. exact (concat_infix "" l x Hin). Qed.

Variable w : world.

Lemma attachment_info_name (att : decoded) :
  Str.occurs ("- " +:+ fmt w (att_name att) +:+ " (" +:+ att_mime_type att +:+ ")")
    (attachment_info w att).
Proof.
  unfold attachment_info.
  exists "", (nl +:+ match att_content att with
                     | Text s =>
                         if (String.length s <? 1000)%nat
                         then "  Content: " +:+ Str.take 500 s +:+ "..." +:+ nl
                         else ""
                     | Bytes _ => ""
                     end).
  rewrite !app_assoc. reflexivity.
Qed.

Lemma attachment_info_content (att : decoded) (s : string) :
  att_content att = Text s ->
  (String.length s < 1000)%nat ->
  Str.occurs ("  Content: " +:+ Str.take 500 s +:+ "...") (attachment_info w att).
Proof.
  intros Hs Hlen. unfold attachment_info. rewrite Hs.
  destruct (Nat.ltb_spec (String.length s) 1000); [|lia].
  do 6 apply occurs_app_r.
  exists "", nl. rewrite !app_assoc. reflexivity.
Qed.

End Prompt.

(** X19. The prompt sent to the backend shows the brief, a line for every
    check, and for every decoded attachment its name and MIME type; a text
    attachment shorter than 1000 characters is shown by its first 500
    characters. *)
Theorem prompt_mentions_inputs
    (w : world) (brief : string) (checks : list pyval)
    (attachments : list CodeGenerator.decoded) :
  let prompt := CodeGenerator.build_generation_prompt w brief checks attachments in
  Str.occurs brief prompt
  /\ (forall check, In check checks ->
        Str.occurs ("- " +:+ CodeGenerator.fmt w check) prompt)
  /\ (forall att, In att attachments ->
        Str.occurs ("- " +:+ CodeGenerator.fmt w (CodeGenerator.att_name att)
                    +:+ " (" +:+ CodeGenerator.att_mime_type att +:+ ")") prompt)
  /\ (forall att s, In att attachments ->
        CodeGenerator.att_content att = CodeGenerator.Text s ->
        (String.length s < 1000)%nat ->
        Str.occurs ("  Content: " +:+ Str.take 500 s +:+ "...") prompt).
Proof.
  intros prompt. subst prompt. unfold CodeGenerator.build_generation_prompt.
  split; [|split; [|split]].
  - apply occurs_unlines. simpl. auto.
  - intros check Hin.
    eapply occurs_trans; [|apply occurs_unlines; do 5 right; left; reflexivity].
    destruct checks as [|c checks]; [destruct Hin|].
    do 4 apply occurs_app_r. apply occurs_unlines.
    apply List.in_map_iff. exists check. split; [reflexivity | exact Hin].
  - intros att Hin.
    eapply occurs_trans; [|apply occurs_unlines; do 4 right; left; reflexivity].
    destruct attachments as [|a attachments]; [destruct Hin|].
    do 4 apply occurs_app_r.
    eapply occurs_trans; [apply attachment_info_name|].
    apply occurs_concat, List.in_map, Hin.
  - intros att s Hin Hs Hlen.
    eapply occurs_trans; [|apply occurs_unlines; do 4 right; left; reflexivity].
    destruct attachments as [|a attachments]; [destruct Hin|].
    do 4 apply occurs_app_r.
    eapply occurs_trans; [apply (attachment_info_content w att s Hs Hlen)|].
    apply occurs_concat, List.in_map, Hin.
Qed.

Section Splitting.

Variable sep : ascii.

Lemma all_app (p : ascii -> bool) (s t : string) :
  Str.all p (s +:+ t) = Str.all p s && Str.all p t.
Proof.
  induction s as [|c s IH]; [reflexivity|].
  rewrite app_cons. cbn [Str.all]. rewrite IH. apply andb_assoc.
Qed.

Lemma all_weaken (p q : ascii -> bool) (s : string) :
  (forall c, p c = true -> q c = true) -> Str.all p s = true -> Str.all q s = true.
Proof.
  intros Hpq. induction s as [|c s IH]; [reflexivity|]. cbn [Str.all].
  intros [Hc Hs]%andb_true_iff. rewrite (Hpq c Hc), (IH Hs). reflexivity.
Qed.

(** [split(sep, 1)] cuts at the first separator. *)
Lemma split1_first (h t : string) :
  Str.all (fun c => negb (Ascii.eqb c sep)) h = true ->
  Str.split1 sep (h +:+ String sep t) = [h; t].
Proof.
  induction h as [|c h IH]; intros Hall.
  - change ("" +:+ String sep t) with (String sep t). cbn [Str.split1].
    rewrite Ascii.eqb_refl. reflexivity.
  - cbn [Str.all] in Hall. apply andb_true_iff in Hall as [Hc Hh].
    rewrite app_cons. cbn [Str.split1].
    apply negb_true_iff in Hc. rewrite Hc, (IH Hh). reflexivity.
Qed.

Lemma split_first (h t : string) :
  Str.all (fun c => negb (Ascii.eqb c sep)) h = true ->
  Str.split sep (h +:+ String sep t) = h :: Str.split sep t.
Proof.
  induction h as [|c h IH]; intros Hall.
  - change ("" +:+ String sep t) with (String sep t). cbn [Str.split].
    rewrite Ascii.eqb_refl. reflexivity.
  - cbn [Str.all] in Hall. apply andb_true_iff in Hall as [Hc Hh].
    rewrite app_cons. cbn [Str.split].
    apply negb_true_iff in Hc. rewrite Hc, (IH Hh). reflexivity.
Qed.

Lemma split_nonempty (s : string) : exists w ws, Str.split sep s = w :: ws.
Proof.
  induction s as [|c s (w & ws & IH)]; [eexists _, _; reflexivity|].
  cbn [Str.split]. destruct (Ascii.eqb c sep); [eexists _, _; reflexivity|].
  rewrite IH. eexists _, _. reflexivity.
Qed.

End Splitting.

Section DataUris.

Import Py CodeGenerator.

Variable mime_type : string.
Hypothesis Htoken : Str.all DataUri.token mime_type = true.

Lemma token_other (sep : ascii) :
  sep = ":"%char \/ sep = ";"%char \/ sep = ","%char ->
  Str.all (fun c => negb (Ascii.eqb c sep)) mime_type = true.
Proof.
  intros Hsep. apply (all_weaken DataUri.token); [|exact Htoken].
  intros c. unfold DataUri.token.
  destruct (Ascii.eqb c ":") eqn:H1, (Ascii.eqb c ";") eqn:H2,
    (Ascii.eqb c ",") eqn:H3; try discriminate.
  intros _. destruct Hsep as [-> | [-> | ->]]; rewrite ?H1, ?H2, ?H3; reflexivity.
Qed.

Lemma data_uri_split (encoded : string) :
  Str.split1 "," (DataUri.make mime_type encoded)
  = ["data:" +:+ mime_type +:+ ";base64"; encoded].
Proof.
  unfold DataUri.make.
  change (";base64," +:+ encoded) with (";base64" +:+ String "," encoded).
  rewrite <- !app_assoc. rewrite (app_assoc "data:").
  apply split1_first. rewrite !all_app.
  rewrite (token_other ",") by auto. reflexivity.
Qed.

Lemma data_uri_mime_type :
  mime_type_of ("data:" +:+ mime_type +:+ ";base64") = Ok mime_type.
Proof.
  unfold mime_type_of.
  change ("data:" +:+ mime_type +:+ ";base64")
    with ("data" +:+ String ":" (mime_type +:+ ";base64")).
  rewrite split_first by reflexivity.
  destruct (split_nonempty ":" (mime_type +:+ ";base64")) as (m & ms & Hm).
  rewrite Hm. f_equal.
  assert (Hsplit : Str.split ":" (mime_type +:+ ";base64")
                   = [mime_type +:+ ";base64"]).
  { rewrite <- (app_nil_r (mime_type +:+ ";base64")) at 1.
    clear Hm. induction mime_type as [|c s IH].
    - reflexivity.
    - cbn [Str.all] in Htoken. apply andb_true_iff in Htoken as [Hc Hs].
      rewrite !app_cons. cbn [Str.split].
      replace (Ascii.eqb c ":") with false
        by (unfold DataUri.token in Hc; destruct (Ascii.eqb c ":"); [discriminate|reflexivity]).
      rewrite (IH Hs). reflexivity. }
  rewrite Hsplit in Hm. injection Hm as <- <-.
  change (mime_type +:+ ";base64") with (mime_type +:+ String ";" "base64").
  rewrite split_first by (apply token_other; auto). reflexivity.
Qed.

End DataUris.

(** X20. An attachment whose url is [data:<type>;base64,<payload>], with a
    type that has no colon, semicolon or comma, is decoded when the payload
    is base64: everything after the first comma is the payload; the result
    has the name of the attachment and that type, and its content is text
    for a textual type whose bytes are UTF-8, and bytes for another type. A
    textual type whose bytes are not UTF-8 gives [None]. *)
Theorem decode_attachment_data_uri
    (w : world) (attachment : gmap string pyval) (name : pyval)
    (mime_type encoded : string) (raw : list Byte.byte) :
  attachment !! "url" = Some (PStr (DataUri.make mime_type encoded)) ->
  attachment !! "name" = Some name ->
  Str.all DataUri.token mime_type = true ->
  b64decode w encoded = Ok raw ->
  CodeGenerator.decode_attachment w (PDict attachment)
  = Ok (if CodeGenerator.is_text mime_type then
          match utf8_decode w raw with
          | Ok s => Some {| CodeGenerator.att_name := name;
                            CodeGenerator.att_mime_type := mime_type;
                            CodeGenerator.att_content := CodeGenerator.Text s |}
          | Raise _ => None
          end
        else Some {| CodeGenerator.att_name := name;
                     CodeGenerator.att_mime_type := mime_type;
                     CodeGenerator.att_content := CodeGenerator.Bytes raw |}).
Proof.
  intros Hurl Hname Htoken Hraw.
  unfold CodeGenerator.decode_attachment, CodeGenerator.decode_attachment_body.
  cbn [Py.subscript]. unfold Py.getitem. rewrite Hurl, Hname.
  cbn [mbind result_bind].
  replace (Str.startswith "data:" (DataUri.make mime_type encoded)) with true
    by (symmetry; apply String.prefix_correct, (substring_prefix "data:")).
  rewrite (data_uri_split mime_type Htoken), (data_uri_mime_type mime_type Htoken).
  cbn [mbind result_bind]. rewrite Hraw. cbn [mbind result_bind].
  destruct (CodeGenerator.is_text mime_type); [|reflexivity].
  destruct (utf8_decode w raw); reflexivity.
Qed.

(** A text file that holds [hi]. *)
Lemma decode_attachment_data_uri_witness :
  CodeGenerator.decode_attachment Closed.accepting Attached.sample
  = Ok (Some {| CodeGenerator.att_name := PStr "a.txt";
                CodeGenerator.att_mime_type := "text/plain";
                CodeGenerator.att_content := CodeGenerator.Text "hi" |}).
Proof.
  exact (decode_attachment_data_uri Closed.accepting
           (<["name" := PStr "a.txt"]>
            (<["url" := PStr "data:text/plain;base64,aGk="]> ∅))
           (PStr "a.txt") "text/plain" "aGk=" [Byte.x68; Byte.x69]
           eq_refl eq_refl eq_refl eq_refl).
Defined.


(** * More properties of the publisher *)

Section Names.

Import GithubManager.

Lemma any_replace (a b : ascii) (s : string) :
  Str.isalnum a = false -> Str.isalnum b = false ->
  Str.any Str.isalnum (Str.replace a b s) = Str.any Str.isalnum s.
Proof.
  intros Ha Hb. induction s as [|c s IH]; [reflexivity|].
  cbn [Str.replace Str.any]. rewrite IH.
  destruct (Ascii.eqb c a) eqn:Heq; [|reflexivity].
  apply Ascii.eqb_eq in Heq. subst. rewrite Ha, Hb. reflexivity.
Qed.

Lemma any_filter_allowed (s : string) :
  Str.any Str.isalnum (Str.filter allowed s) = Str.any Str.isalnum s.
Proof.
  induction s as [|c s IH]; [reflexivity|]. cbn [Str.filter Str.any].
  unfold allowed at 1. destruct (Str.isalnum c) eqn:Hc; cbn [orb].
  - cbn [Str.any]. rewrite Hc, IH. reflexivity.
  - destruct (is_hyphen c); [cbn [Str.any]; rewrite Hc|]; exact IH.
Qed.

Lemma hyphen_not_alnum (c : ascii) : is_hyphen c = true -> Str.isalnum c = false.
Proof. unfold is_hyphen. intros ->%Ascii.eqb_eq. reflexivity. Qed.

Lemma any_lstrip (s : string) :
  Str.any Str.isalnum (Str.lstrip is_hyphen s) = Str.any Str.isalnum s.
Proof.
  induction s as [|c s IH]; [reflexivity|]. cbn [Str.lstrip Str.any].
  destruct (is_hyphen c) eqn:Hc; [|reflexivity].
  rewrite (hyphen_not_alnum c Hc). exact IH.
Qed.

Lemma any_rstrip (s : string) :
  Str.any Str.isalnum (Str.rstrip is_hyphen s) = Str.any Str.isalnum s.
Proof.
  induction s as [|c s IH]; [reflexivity|].
  destruct (rstrip_cons is_hyphen c s) as [-> | (-> & Hc & Hr)].
  - cbn [Str.any]. rewrite IH. reflexivity.
  - cbn [Str.any]. rewrite (hyphen_not_alnum c Hc), <- IH, Hr. reflexivity.
Qed.

(** The letters and digits survive up to the cut. *)
Lemma any_core (task_name : string) :
  Str.any Str.isalnum
    (Str.strip is_hyphen
       (Str.filter allowed (Str.replace "_" "-" (Str.replace " " "-" task_name))))
  = Str.any Str.isalnum task_name.
Proof.
  unfold Str.strip.
  rewrite any_rstrip, any_lstrip, any_filter_allowed.
  rewrite !any_replace by reflexivity. reflexivity.
Qed.

Lemma any_truthy (p : ascii -> bool) (s : string) :
  Str.any p s = true -> Str.truthy s = true.
Proof. destruct s; [discriminate | reflexivity]. Qed.

Lemma lstrip_only (q : ascii -> bool) (s : string) :
  Str.all q s = true -> Str.lstrip q s = "".
Proof.
  induction s as [|c s IH]; [reflexivity|]. cbn [Str.all Str.lstrip].
  intros [Hc Hs]%andb_true_iff. rewrite Hc. exact (IH Hs).
Qed.

Lemma allowed_only_hyphens (s : string) :
  Str.all allowed s = true -> Str.any Str.isalnum s = false ->
  Str.all is_hyphen s = true.
Proof.
  induction s as [|c s IH]; [reflexivity|]. cbn [Str.all Str.any].
  intros [Hc Hs]%andb_true_iff [Hn Hrest]%orb_false_iff.
  unfold allowed in Hc. rewrite Hn in Hc. cbn [orb] in Hc.
  rewrite Hc. exact (IH Hs Hrest).
Qed.

Variable w : world.

Lemma sanitize_repo_name_clock (task_name : string) :
  Str.any Str.isalnum task_name = false ->
  sanitize_repo_name w task_name = Hosting.clock_name w.
Proof.
  intros Hnone. unfold sanitize_repo_name.
  set (kept := Str.filter allowed _).
  assert (Hk : Str.any Str.isalnum kept = false).
  { unfold kept. rewrite any_filter_allowed, !any_replace by reflexivity.
    exact Hnone. }
  assert (Hcore : Str.strip is_hyphen kept = "").
  { unfold Str.strip. rewrite lstrip_only; [reflexivity|].
    apply allowed_only_hyphens; [apply filter_all | exact Hk]. }
  rewrite Hcore. reflexivity.
Qed.

Lemma sanitize_repo_name_shaped (task_name : string) :
  Str.any Str.isalnum task_name = true ->
  Hosting.shaped (sanitize_repo_name w task_name).
Proof.
  intros Hsome. unfold sanitize_repo_name, Hosting.shaped.
  pose proof (any_core task_name) as Hcore. rewrite Hsome in Hcore.
  set (core := Str.strip is_hyphen _) in *.
  assert (Hall : Str.all allowed core = true).
  { apply rstrip_all, lstrip_all, filter_all. }
  assert (Hstart : Str.starts is_hyphen core = false).
  { apply rstrip_starts, lstrip_starts. }
  destruct (100 <? String.length core)%nat eqn:Hlong.
  - apply Nat.ltb_lt in Hlong.
    assert (Hlen : String.length (Str.take 100 core) = 100%nat)
      by (apply take_length; lia).
    assert (Hne : Str.truthy (Str.take 100 core) = true)
      by (apply truthy_length; lia).
    rewrite Hne. cbn [negb].
    split; [apply take_all, Hall|]. split; [apply take_starts, Hstart|].
    split; [exact Hne | lia].
  - apply Nat.ltb_ge in Hlong. rewrite (any_truthy _ _ Hcore). cbn [negb].
    split; [exact Hall|]. split; [exact Hstart|].
    split; [exact (any_truthy _ _ Hcore) | exact Hlong].
Qed.

(** On a name that has the shape, sanitizing strips at most a final run
    of hyphens. *)
Lemma sanitize_shaped (name : string) :
  Hosting.shaped name ->
  (sanitize_repo_name w name = name <-> Str.ends is_hyphen name = false).
Proof.
  intros (Hall & Hstart & Hne & Hlen). split.
  - intros Hfix. destruct (Str.ends is_hyphen name) eqn:Hend; [exfalso|reflexivity].
    revert Hfix. unfold sanitize_repo_name.
    rewrite (replace_id allowed " " "-" name eq_refl Hall).
    rewrite (replace_id allowed "_" "-" name eq_refl Hall).
    rewrite (filter_id allowed name Hall).
    unfold Str.strip. rewrite (lstrip_id is_hyphen name Hstart).
    destruct (rstrip_length is_hyphen name) as [_ Hlt]. specialize (Hlt Hend).
    assert (Hshort : (100 <? String.length (Str.rstrip is_hyphen name))%nat = false)
      by (apply Nat.ltb_ge; lia).
    rewrite Hshort.
    assert (Hkeep : Str.truthy (Str.rstrip is_hyphen name) = true).
    { destruct name as [|c rest]; [discriminate|].
      destruct (rstrip_cons is_hyphen c rest) as [-> | (_ & Hc & _)]; [reflexivity|].
      simpl in Hstart. congruence. }
    rewrite Hkeep. cbn [negb]. intros Heq. rewrite Heq in Hlt. lia.
  - intros Hend. apply sanitize_repo_name_fixed; assumption.
Qed.

Lemma sanitize_short_no_hyphen (task_name : string) :
  Str.any Str.isalnum task_name = true ->
  (String.length task_name <= 100)%nat ->
  Str.ends is_hyphen (sanitize_repo_name w task_name) = false.
Proof.
  intros Hsome Hshort. unfold sanitize_repo_name.
  pose proof (any_core task_name) as Hcore. rewrite Hsome in Hcore.
  set (core := Str.strip is_hyphen _) in *.
  assert (Hlen : (String.length core <= 100)%nat).
  { unfold core, Str.strip.
    etransitivity; [apply rstrip_length|].
    etransitivity; [apply lstrip_length|].
    etransitivity; [apply filter_length|].
    rewrite !replace_length. exact Hshort. }
  apply Nat.ltb_ge in Hlen. rewrite Hlen, (any_truthy _ _ Hcore). cbn [negb].
  apply rstrip_ends.
Qed.

End Names.

(** X21. [sanitize_repo_name] uses the name made from the clock exactly for
    a task name without any letter or digit. For any other task name the
    result is made of letters, digits and hyphens only, does not start with a
    hyphen, and has between 1 and 100 characters. *)
Theorem sanitize_repo_name_spec (w : world) (task_name : string) :
  (Str.any Str.isalnum task_name = false ->
   GithubManager.sanitize_repo_name w task_name = Hosting.clock_name w)
  /\ (Str.any Str.isalnum task_name = true ->
      Hosting.shaped (GithubManager.sanitize_repo_name w task_name)).
Proof.
  split; [apply sanitize_repo_name_clock | apply sanitize_repo_name_shaped].
Qed.

(** A task name of punctuation, and the task name of the scenario. *)
Lemma sanitize_repo_name_spec_witness :
  GithubManager.sanitize_repo_name Closed.accepting "_ !?" = "task-20251017-090500"
  /\ Hosting.shaped (GithubManager.sanitize_repo_name Closed.accepting "Clock App!").
Proof.
  split.
  - exact (proj1 (sanitize_repo_name_spec Closed.accepting "_ !?") eq_refl).
  - exact (proj2 (sanitize_repo_name_spec Closed.accepting "Clock App!") eq_refl).
Defined.

(** X22. For a task name that has a letter or a digit, sanitizing the
    sanitized name gives it back exactly when it does not end with a hyphen;
    this is so for every task name of at most 100 characters. *)
Theorem sanitize_repo_name_idempotent (w : world) (task_name : string) :
  Str.any Str.isalnum task_name = true ->
  let out := GithubManager.sanitize_repo_name w task_name in
  (GithubManager.sanitize_repo_name w out = out
   <-> Str.ends GithubManager.is_hyphen out = false)
  /\ ((String.length task_name <= 100)%nat ->
      GithubManager.sanitize_repo_name w out = out).
Proof.
  intros Hsome out.
  pose proof (sanitize_shaped w out (sanitize_repo_name_shaped w task_name Hsome))
    as Hiff.
  split; [exact Hiff|].
  intros Hshort. apply Hiff. apply sanitize_short_no_hyphen; assumption.
Qed.

(** The task name of the scenario. *)
Lemma sanitize_repo_name_idempotent_witness :
  GithubManager.sanitize_repo_name Closed.accepting "Clock App!" = "Clock-App"
  /\ GithubManager.sanitize_repo_name Closed.accepting "Clock-App" = "Clock-App".
Proof.
  split; [reflexivity|].
  exact (proj2 (sanitize_repo_name_idempotent Closed.accepting "Clock App!" eq_refl)
           ltac:(simpl; lia)).
Defined.

Section Publishing.

Import GithubManager.

Variable w : world.

(** The url of the static site does not depend on the answer to the
    request that enables it. *)
Lemma enable_github_pages_url (repo : repository) :
  enable_github_pages w repo
  = "https://" +:+ GITHUB_USERNAME w +:+ ".github.io/" +:+ repo_name repo +:+ "/".
Proof.
  unfold enable_github_pages. destruct (pages_post w _) as [status|]; [|reflexivity].
  destruct ((status =? 201) || (status =? 204)); [reflexivity|].
  destruct (status =? 409); reflexivity.
Qed.

Lemma create_and_deploy_repo_steps (task_name : string) (app_code : gmap string string)
    (brief : string) (checks : list pyval) (info : repo_info) :
  create_and_deploy_repo w task_name app_code brief checks = Ok info ->
  GITHUB_TOKEN w <> "" /\ GITHUB_USERNAME w <> ""
  /\ exists repo,
       create_repo w (sanitize_repo_name w task_name) (repo_description brief) = Ok repo
       /\ push_files_to_repo w repo app_code brief checks = Ok (commit_sha info)
       /\ repo_url info = html_url repo
       /\ pages_url info
          = "https://" +:+ GITHUB_USERNAME w +:+ ".github.io/" +:+ repo_name repo
            +:+ "/".
Proof.
  unfold create_and_deploy_repo.
  destruct (GITHUB_TOKEN w) as [|c token]; [discriminate|].
  destruct (GITHUB_USERNAME w) as [|c' user] eqn:Huser; [discriminate|].
  cbn [Str.truthy negb].
  destruct (create_repo w _ _) as [repo|] eqn:Hrepo; cbn [mbind result_bind];
    [|discriminate].
  destruct (push_files_to_repo w repo app_code brief checks) as [sha|] eqn:Hpush;
    cbn [mbind result_bind]; [|discriminate].
  intros [= <-]. split; [discriminate|]. split; [discriminate|].
  exists repo. cbn [commit_sha repo_url pages_url].
  split; [reflexivity|]. split; [exact Hpush|]. split; [reflexivity|].
  rewrite enable_github_pages_url, Huser. reflexivity.
Qed.

End Publishing.

Section Replacing.

Variable c : ascii.
Variables o new : string.

Lemma replace_sub_skip (p rest : string) :
  Str.replace_sub (String c o) new (String.length p) (p +:+ rest)
  = Str.replace_sub (String c o) new 0 rest.
Proof.
  induction p as [|b p IH]; [reflexivity|].
  rewrite app_cons. cbn [String.length Str.replace_sub]. exact IH.
Qed.

(** Nothing is replaced in a text where the old string does not occur. *)
Lemma replace_sub_absent (s : string) :
  Str.contains (String c o) s = false -> Str.replace_sub (String c o) new 0 s = s.
Proof.
  unfold Str.contains. induction s as [|b s IH]; [reflexivity|].
  cbn [String.index Str.replace_sub].
  destruct (String.prefix (String c o) (String b s)); [discriminate|].
  destruct (String.index 0 (String c o) s); [discriminate|].
  intros _. rewrite IH by reflexivity. reflexivity.
Qed.

Lemma replace_sub_first (rest : string) :
  Str.replace_sub (String c o) new 0 (String c o +:+ rest)
  = new +:+ Str.replace_sub (String c o) new 0 rest.
Proof.
  rewrite app_cons. cbn [Str.replace_sub].
  replace (String.prefix (String c o) (String c (o +:+ rest))) with true
    by (symmetry; apply String.prefix_correct; rewrite <- app_cons;
        apply substring_prefix).
  cbn [String.length].
  replace (S (String.length o) - 1)%nat with (String.length o) by lia.
  apply f_equal, replace_sub_skip.
Qed.

End Replacing.

Section Pages.

Import GithubManager.

Lemma create_and_deploy_repo_pages (w : world) (task_name : string)
    (app_code : gmap string string) (brief : string) (checks : list pyval) :
  create_and_deploy_repo w task_name app_code brief checks
  = if negb (Str.truthy (GITHUB_TOKEN w))
    then Raise (ValueError "GITHUB_TOKEN not configured") else
    if negb (Str.truthy (GITHUB_USERNAME w))
    then Raise (ValueError "GITHUB_USERNAME not configured") else
    repo ← create_repo w (sanitize_repo_name w task_name) (repo_description brief);
    sha ← push_files_to_repo w repo app_code brief checks;
    Ok {| repo_url := html_url repo; commit_sha := sha;
          pages_url := "https://" +:+ GITHUB_USERNAME w +:+ ".github.io/"
                       +:+ repo_name repo +:+ "/" |}.
Proof.
  unfold create_and_deploy_repo.
  destruct (negb (Str.truthy (GITHUB_TOKEN w))); [reflexivity|].
  destruct (negb (Str.truthy (GITHUB_USERNAME w))); [reflexivity|].
  destruct (create_repo w _ _) as [repo|]; cbn [mbind result_bind]; [|reflexivity].
  destruct (push_files_to_repo w repo app_code brief checks) as [sha|];
    cbn [mbind result_bind]; [|reflexivity].
  rewrite enable_github_pages_url. reflexivity.
Qed.

End Pages.

(** X23. The answer to the request that enables the static site has no
    effect on what [create_and_deploy_repo] returns or raises: a refusal or
    an exception there is not reported, and the url of the site is returned
    all the same. *)
Theorem create_and_deploy_repo_ignores_pages
    (w : world) (answer : string -> result Z) (task_name : string)
    (app_code : gmap string string) (brief : string) (checks : list pyval) :
  GithubManager.create_and_deploy_repo (Hosting.with_pages w answer) task_name
    app_code brief checks
  = GithubManager.create_and_deploy_repo w task_name app_code brief checks.
Proof. rewrite !create_and_deploy_repo_pages. reflexivity. Qed.

(** X24. When [create_and_deploy_repo] returns, both credentials are
    configured, the repository was created under the sanitized task name
    with the description made from the brief, the files were pushed, and
    the result holds the url of that repository, the commit that the push
    gave, and the url of the static site made from the user name and the
    repository name. *)
Theorem create_and_deploy_repo_success
    (w : world) (task_name : string) (app_code : gmap string string)
    (brief : string) (checks : list pyval) (info : GithubManager.repo_info) :
  GithubManager.create_and_deploy_repo w task_name app_code brief checks = Ok info ->
  GithubManager.GITHUB_TOKEN w <> "" /\ GithubManager.GITHUB_USERNAME w <> ""
  /\ exists repo,
       create_repo w (GithubManager.sanitize_repo_name w task_name)
         (GithubManager.repo_description brief) = Ok repo
       /\ GithubManager.push_files_to_repo w repo app_code brief checks
          = Ok (GithubManager.commit_sha info)
       /\ GithubManager.repo_url info = html_url repo
       /\ GithubManager.pages_url info
          = "https://" +:+ GithubManager.GITHUB_USERNAME w +:+ ".github.io/"
            +:+ repo_name repo +:+ "/".
Proof. apply create_and_deploy_repo_steps. Qed.

(** The scenario. *)
Lemma create_and_deploy_repo_success_witness :
  GithubManager.GITHUB_TOKEN Closed.accepting <> ""
  /\ GithubManager.GITHUB_USERNAME Closed.accepting <> ""
  /\ exists repo,
       create_repo Closed.accepting
         (GithubManager.sanitize_repo_name Closed.accepting "Clock App!")
         (GithubManager.repo_description "digital clock") = Ok repo
       /\ GithubManager.push_files_to_repo Closed.accepting repo
            (CodeGenerator.template "digital clock" [PStr "has title"])
            "digital clock" [PStr "has title"]
          = Ok (GithubManager.commit_sha Closed.published)
       /\ GithubManager.repo_url Closed.published = html_url repo
       /\ GithubManager.pages_url Closed.published
          = "https://" +:+ GithubManager.GITHUB_USERNAME Closed.accepting
            +:+ ".github.io/" +:+ repo_name repo +:+ "/".
Proof.
  apply (create_and_deploy_repo_success Closed.accepting "Clock App!"
           (CodeGenerator.template "digital clock" [PStr "has title"])
           "digital clock" [PStr "has title"] Closed.published).
  vm_compute. reflexivity.
Defined.

(** X25. [push_files_to_repo] clones from the clone url with the token put
    after its scheme: for a url [https://<rest>] in which [https://] does
    not occur again, the clone is made from [https://<token>@<rest>]. A
    clone url in which [https://] does not occur is used as it is, without
    the token. *)
Theorem push_files_to_repo_clone_url
    (w : world) (repo : repository) (app_code : gmap string string)
    (brief : string) (checks : list pyval) :
  (forall rest,
     clone_url repo = "https://" +:+ rest ->
     Str.contains "https://" rest = false ->
     GithubManager.push_files_to_repo w repo app_code brief checks
     = (tree ← git_clone w ("https://" +:+ GithubManager.GITHUB_TOKEN w +:+ "@"
                              +:+ rest);
        _ ← git_config w;
        git_commit_and_push w
          (GithubManager.working_tree w tree app_code brief checks)))
  /\ (Str.contains "https://" (clone_url repo) = false ->
      GithubManager.push_files_to_repo w repo app_code brief checks
      = (tree ← git_clone w (clone_url repo);
         _ ← git_config w;
         git_commit_and_push w
           (GithubManager.working_tree w tree app_code brief checks))).
Proof.
  split.
  - intros rest Hurl Hrest. unfold GithubManager.push_files_to_repo.
    rewrite Hurl.
    rewrite (replace_sub_first "h" "ttps://"), (replace_sub_absent "h" "ttps://")
      by exact Hrest.
    rewrite !app_assoc. reflexivity.
  - intros Hnone. unfold GithubManager.push_files_to_repo.
    rewrite (replace_sub_absent "h" "ttps://") by exact Hnone. reflexivity.
Qed.

(** The repository of the scenario, and one with an ssh remote. *)
Lemma push_files_to_repo_clone_url_witness :
  GithubManager.push_files_to_repo Closed.accepting Hosting.origin
    (Completion.artifact "<html>X</html>" "") "digital clock" []
  = (tree ← git_clone Closed.accepting "https://tok@github.com/octo/Clock-App.git";
     _ ← git_config Closed.accepting;
     git_commit_and_push Closed.accepting
       (GithubManager.working_tree Closed.accepting tree
          (Completion.artifact "<html>X</html>" "") "digital clock" []))
  /\ GithubManager.push_files_to_repo Closed.accepting Hosting.ssh_origin
       (Completion.artifact "<html>X</html>" "") "digital clock" []
     = (tree ← git_clone Closed.accepting "git@github.com:octo/Clock-App.git";
        _ ← git_config Closed.accepting;
        git_commit_and_push Closed.accepting
          (GithubManager.working_tree Closed.accepting tree
             (Completion.artifact "<html>X</html>" "") "digital clock" [])).
Proof.
  split.
  - exact (proj1 (push_files_to_repo_clone_url Closed.accepting Hosting.origin
                    (Completion.artifact "<html>X</html>" "") "digital clock" [])
             "github.com/octo/Clock-App.git" eq_refl eq_refl).
  - exact (proj2 (push_files_to_repo_clone_url Closed.accepting Hosting.ssh_origin
                    (Completion.artifact "<html>X</html>" "") "digital clock" [])
             eq_refl).
Defined.

(** X26. The README of [generate_readme] shows the brief, a line for every
    check of any type (or a sentence when there is none), and, as the
    license file does, the year of the clock and every line of the MIT
    terms. *)
Theorem generate_readme_mentions (w : world) (brief : string) (checks : list pyval) :
  let readme := GithubManager.generate_readme w brief checks in
  let license := GithubManager.get_mit_license w in
  let copyright := "Copyright (c) " +:+ Str.of_nat (year (utcnow w)) in
  Str.occurs ("**Brief:** " +:+ brief) readme
  /\ (forall check, In check checks ->
        Str.occurs ("- " +:+ CodeGenerator.fmt w check) readme)
  /\ (checks = [] -> Str.occurs "No specific checks." readme)
  /\ Str.occurs copyright readme
  /\ Str.occurs copyright license
  /\ forall line, In line GithubManager.mit_terms ->
       Str.occurs line readme /\ Str.occurs line license.
Proof.
  intros readme license copyright. subst readme license copyright.
  unfold GithubManager.generate_readme, GithubManager.get_mit_license.
  split; [|split; [|split; [|split; [|split]]]].
  - apply occurs_unlines. simpl. auto 10.
  - intros check Hin.
    eapply occurs_trans; [|apply occurs_unlines; do 9 right; left; reflexivity].
    destruct checks as [|c checks]; [destruct Hin|].
    apply occurs_unlines, List.in_map_iff. exists check.
    split; [reflexivity | exact Hin].
  - intros ->. apply occurs_unlines. simpl. auto 20.
  - apply occurs_unlines, in_or_app. left. simpl. tauto.
  - apply occurs_unlines, in_or_app. left. simpl. tauto.
  - intros line Hin. split; apply occurs_unlines, in_or_app; right;
      apply in_or_app; left; exact Hin.
Qed.
